(** * Moler: observation runtime (asyncio runners) and configuration loader

    A shallow embedding of

      - [moler/asyncio_runner.py]: [check_system_resources_limit],
        [AsyncioRunner.submit], [AsyncioRunner.wait_for],
        [AsyncioRunner._start_feeding] with its sink [secure_data_received],
        the coroutine [AsyncioRunner.feed], [AsyncioInThreadRunner.submit]
        and [AsyncioInThreadRunner.wait_for], [get_asyncio_loop_thread] with
        [AsyncioLoopThread.start];
      - [moler/config/__init__.py]: [configs_are_same], [load_config],
        [read_yaml_configfile] and the three loaders;
      - [moler/util/devices_SM.py]: [iterate_over_device_states] and
        [get_device];
      - [moler/util/moler_test.py]: the class [MolerTest] with
        [_final_check] and [wrapper].

    Conventions.  Wall-clock time is an integer number of milliseconds
    ([0.005] s is [5], [0.5] s is [500]).  Python exceptions are values of
    [pyexc]; a call that may raise returns a [res].  Every mutation that the
    source performs on the observer, the connection or the future is also
    appended to a chronological [trace], so that "under the observer lock" is
    a statement about that trace. *)

From Stdlib Require Import ZArith List String Bool Lia Ascii DecimalString.
Import ListNotations.
Open Scope Z_scope.
Open Scope string_scope.

(* ================================================================== *)
(** * Python values shared by both parts *)
(* ================================================================== *)

Module Py.

(** The exception classes the two source files raise, catch or store.
    [KeyboardInterrupt] and [SystemExit] derive from [BaseException] only;
    all others derive from [Exception].  On the interpreters this code runs
    on, [asyncio.futures.CancelledError] is [concurrent.futures.CancelledError]
    and [asyncio.futures.TimeoutError] is [concurrent.futures.TimeoutError],
    both of them [Exception]s. *)
Inductive pyexc : Type :=
| AssertionError
| TypeError (msg : string)
| KeyError (msg : string)
| AttributeError (msg : string)
| OSError (msg : string)
| RuntimeError (msg : string)
| WrongUsage (msg : string)
| MolerException (msg : string)
| MolerTimeout (timeout : option Z) (kind : string) (passed_time : Z)
| ObserverTimeout (timeout : option Z) (kind : string) (passed_time : Z)
| CancelledError
| TimeoutError
| DomainError (msg : string)
| KeyboardInterrupt
| SystemExit.

(** [isinstance(exc, Exception)]: what [except Exception] catches. *)
Definition is_Exception (e : pyexc) : bool :=
  match e with
  | KeyboardInterrupt | SystemExit => false
  | _ => true
  end.

(** Outcome of a call: a returned value or a raised exception. *)
Inductive res (A : Type) : Type :=
| Ret (a : A)
| Raise (e : pyexc).
Arguments Ret {A} a.
Arguments Raise {A} e.

Definition raises {A} (r : res A) : bool :=
  match r with Raise _ => true | Ret _ => false end.

(** [str(n)] for an integer. *)
Definition string_of_Z (z : Z) : string := NilZero.string_of_int (Z.to_int z).

(** [needle in hay] for two strings. *)
Fixpoint contains (needle hay : string) : bool :=
  if String.prefix needle hay then true
  else match hay with
       | EmptyString => false
       | String _ rest => contains needle rest
       end.

(** Argument binding of a Python call with positional arguments [pos] and
    keyword arguments [kw] against the parameter names [params] of the called
    [def] (no defaults, no star parameters):
    positionals fill the parameters from the left, a keyword must name a
    parameter not yet bound, and no parameter may stay unbound. *)
Section Binding.
Context {A : Type}.

Fixpoint bind_positional (fname : string) (params : list string) (pos : list A)
  : res (list (string * A) * list string) :=
  match pos, params with
  | [], _ => Ret ([], params)
  | _ :: _, [] =>
      Raise (TypeError (fname ++ "() takes fewer positional arguments than were given"))
  | a :: pos', p :: params' =>
      match bind_positional fname params' pos' with
      | Ret (bound, unbound) => Ret ((p, a) :: bound, unbound)
      | Raise e => Raise e
      end
  end.

Definition name_in (n : string) (l : list string) : bool :=
  existsb (String.eqb n) l.

Fixpoint bind_keywords (fname : string) (params : list string)
         (bound : list (string * A)) (kw : list (string * A))
  : res (list (string * A)) :=
  match kw with
  | [] => Ret bound
  | (k, a) :: kw' =>
      if negb (name_in k params) then
        Raise (TypeError (fname ++ "() got an unexpected keyword argument '" ++ k ++ "'"))
      else if name_in k (map fst bound) then
        Raise (TypeError (fname ++ "() got multiple values for argument '" ++ k ++ "'"))
      else bind_keywords fname params (bound ++ [(k, a)]) kw'
  end.

Definition bind_arguments (fname : string) (params : list string)
           (pos : list A) (kw : list (string * A)) : res (list (string * A)) :=
  match bind_positional fname params pos with
  | Raise e => Raise e
  | Ret (bound, _) =>
      match bind_keywords fname params bound kw with
      | Raise e => Raise e
      | Ret all =>
          if forallb (fun p => name_in p (map fst all)) params then Ret all
          else Raise (TypeError (fname ++ "() missing required positional arguments"))
      end
  end.
End Binding.

End Py.
Import Py.

(* ================================================================== *)
(** * The observer, its connection and the trace *)
(* ================================================================== *)

Module Obs.

(** Modelled from the spec: [moler.connection_observer.ConnectionObserver] is
    not among the sources.  The spec gives the observer five states, of which
    three are terminal and sticky ("a second different terminal attempt is
    ignored"), a [start_time], and a [timeout] that may be reassigned while
    the observer runs.  A command additionally carries its [command_string]. *)
Inductive lifecycle : Type :=
| Unstarted
| Running
| Succeeded (result : string)
| Failed (exception : pyexc)
| Cancelled.

Record Observer : Type := mkObserver {
  start_time : Z;
  timeout : option Z;
  state : lifecycle;
  command_string : option string
}.

Definition with_state (s : lifecycle) (o : Observer) : Observer :=
  mkObserver (start_time o) (timeout o) s (command_string o).

Definition with_timeout (t : option Z) (o : Observer) : Observer :=
  mkObserver (start_time o) t (state o) (command_string o).

(** Modelled from the spec: [done()] is true iff the state is terminal. *)
Definition done (o : Observer) : bool :=
  match state o with
  | Succeeded _ | Failed _ | Cancelled => true
  | Unstarted | Running => false
  end.

Definition cancelled (o : Observer) : bool :=
  match state o with Cancelled => true | _ => false end.

Definition is_command (o : Observer) : bool :=
  match command_string o with Some _ => true | None => false end.

(** Modelled from the spec: [_exception], present iff the state is failed. *)
Definition _exception (o : Observer) : option pyexc :=
  match state o with Failed e => Some e | _ => None end.

(** Modelled from the spec: the three terminal transitions; each is ignored
    once the observer is terminal. *)
Definition set_exception (e : pyexc) (o : Observer) : Observer :=
  if done o then o else with_state (Failed e) o.

Definition set_result (r : string) (o : Observer) : Observer :=
  if done o then o else with_state (Succeeded r) o.

Definition cancel (o : Observer) : Observer :=
  if done o then o else with_state Cancelled o.

(** Modelled from the spec: [moler.runner.time_out_observer] is not among the
    sources; the spec has the deadline transition an observer that is not yet
    terminal to failed with a Timeout carrying the kind tag and the elapsed
    time. *)
Definition time_out_observer (timeout : option Z) (passed_time : Z) (kind : string)
           (o : Observer) : Observer :=
  set_exception (ObserverTimeout timeout kind passed_time) o.

(** Modelled from the spec: the connection (ByteBus) keeps a set of sinks,
    [subscribe] is idempotent, [unsubscribe] of an absent sink is a no-op, and
    [sendline] hands [line + newline] to the outbound side.  Sinks are
    closures; each is identified by a number. *)
Record Connection : Type := mkConnection {
  subscribers : list nat;
  outbound : list string
}.

Definition subscribe (s : nat) (c : Connection) : Connection :=
  if existsb (Nat.eqb s) (subscribers c) then c
  else mkConnection (subscribers c ++ [s]) (outbound c).

Definition unsubscribe (s : nat) (c : Connection) : Connection :=
  mkConnection (filter (fun x => negb (Nat.eqb s x)) (subscribers c)) (outbound c).

Definition sendline (line : string) (c : Connection) : Connection :=
  mkConnection (subscribers c) (outbound c ++ [line ++ String "010"%char EmptyString]).

(** What the runner does to the observer, the lock, the connection and the
    future, in the order it does it. *)
Inductive action : Type :=
| LockAcquire
| LockRelease
| CallDataReceived (data : string)
| CallSetException (e : pyexc)
| CallTimeOutObserver (timeout : option Z) (passed_time : Z) (kind : string)
| CallCancel
| CallSubscribe (sink : nat)
| CallUnsubscribe (sink : nat)
| CallSendline (line : string)
| CallFutureCancel.

End Obs.
Import Obs.

(* ================================================================== *)
(** * The world one observer lives in *)
(* ================================================================== *)

Module Runtime.

(** What the process, the interpreter and asyncio answer when the runner asks.
    These are inputs of the model, not computed by it. *)
Record Env : Type := mkEnv {
  (** [current_process.num_fds()] and [threading.active_count()] *)
  curr_fds_open : Z;
  curr_threads_nb : Z;
  (** soft [RLIMIT_NOFILE], read once at import *)
  max_open_files_limit_soft : Z;
  (** message of the [RuntimeError] raised by [asyncio.get_event_loop()], if
      it raises *)
  get_event_loop_error : option string;
  (** [event_loop.is_running()] in the calling thread *)
  loop_is_running : bool;
  (** state of the task right after [asyncio.ensure_future]: [None] pending,
      [Some None] already done with a result, [Some (Some e)] already done
      with exception [e] *)
  scheduled_task_outcome : option (option pyexc);
  (** whether the dedicated loop thread gets to run a posted coroutine before
      the caller's bound elapses *)
  loop_thread_responsive : bool;
  (** [inspect.stack()[2]] function name and the observer's class name, used
      in the WrongUsage message *)
  caller_caller_name : string;
  observer_class_name : string
}.

(** The future handed back by [submit]. *)
Inductive handle : Type :=
| ImpossibleFuture   (** [concurrent.futures.Future()] with [set_result(None)] *)
| FeedTask.          (** the [asyncio.Task] wrapping [feed()] *)

Definition handle_eqb (a b : handle) : bool :=
  match a, b with
  | ImpossibleFuture, ImpossibleFuture | FeedTask, FeedTask => true
  | _, _ => false
  end.

(** Where the [feed()] coroutine is suspended, or how it ended. *)
Inductive task_state : Type :=
| NoTask
| TaskScheduled              (** created, body not yet entered *)
| TaskFirstSleep             (** in the first [asyncio.sleep], before [try] *)
| TaskInLoop (start_time : Z) (** in the [asyncio.sleep] that ends a round *)
| TaskReturned               (** [feed] returned [None] *)
| TaskCancelled              (** [CancelledError] left the coroutine *)
| TaskFailed (e : pyexc).

Record World : Type := mkWorld {
  observer : Observer;
  connection : Connection;
  in_shutdown : bool;                 (** [runner._in_shutdown] *)
  submitted_futures : list handle;    (** [runner._submitted_futures] *)
  started_ev_loops : nat;             (** [len(runner._started_ev_loops)] *)
  next_sink : nat;                    (** identity of the next closure *)
  sink : option nat;                  (** [subscribed_data_receiver] *)
  task : task_state;
  cancel_requested : bool;            (** [task.cancel()] called, not yet delivered *)
  clock : Z;                          (** [time.time()] *)
  trace : list action
}.

Definition set_observer (o : Observer) (w : World) : World :=
  mkWorld o (connection w) (in_shutdown w) (submitted_futures w) (started_ev_loops w)
          (next_sink w) (sink w) (task w) (cancel_requested w) (clock w) (trace w).
Definition set_connection (c : Connection) (w : World) : World :=
  mkWorld (observer w) c (in_shutdown w) (submitted_futures w) (started_ev_loops w)
          (next_sink w) (sink w) (task w) (cancel_requested w) (clock w) (trace w).
Definition set_in_shutdown (b : bool) (w : World) : World :=
  mkWorld (observer w) (connection w) b (submitted_futures w) (started_ev_loops w)
          (next_sink w) (sink w) (task w) (cancel_requested w) (clock w) (trace w).
Definition set_submitted_futures (l : list handle) (w : World) : World :=
  mkWorld (observer w) (connection w) (in_shutdown w) l (started_ev_loops w)
          (next_sink w) (sink w) (task w) (cancel_requested w) (clock w) (trace w).
Definition set_started_ev_loops (n : nat) (w : World) : World :=
  mkWorld (observer w) (connection w) (in_shutdown w) (submitted_futures w) n
          (next_sink w) (sink w) (task w) (cancel_requested w) (clock w) (trace w).
Definition set_sink (s : nat) (w : World) : World :=
  mkWorld (observer w) (connection w) (in_shutdown w) (submitted_futures w) (started_ev_loops w)
          (S s) (Some s) (task w) (cancel_requested w) (clock w) (trace w).
Definition set_task (t : task_state) (w : World) : World :=
  mkWorld (observer w) (connection w) (in_shutdown w) (submitted_futures w) (started_ev_loops w)
          (next_sink w) (sink w) t (cancel_requested w) (clock w) (trace w).
Definition set_cancel_requested (b : bool) (w : World) : World :=
  mkWorld (observer w) (connection w) (in_shutdown w) (submitted_futures w) (started_ev_loops w)
          (next_sink w) (sink w) (task w) b (clock w) (trace w).
Definition set_clock (t : Z) (w : World) : World :=
  mkWorld (observer w) (connection w) (in_shutdown w) (submitted_futures w) (started_ev_loops w)
          (next_sink w) (sink w) (task w) (cancel_requested w) t (trace w).
Definition log (a : action) (w : World) : World :=
  mkWorld (observer w) (connection w) (in_shutdown w) (submitted_futures w) (started_ev_loops w)
          (next_sink w) (sink w) (task w) (cancel_requested w) (clock w) (trace w ++ [a]).

(** [with observer_lock: body] *)
Definition with_lock (body : World -> World) (w : World) : World :=
  log LockRelease (body (log LockAcquire w)).

(** The observer's methods, called on the world's observer and recorded. *)
Definition call_set_exception (e : pyexc) (w : World) : World :=
  set_observer (set_exception e (observer w)) (log (CallSetException e) w).

Definition call_time_out_observer (timeout : option Z) (passed_time : Z) (kind : string)
           (w : World) : World :=
  set_observer (time_out_observer timeout passed_time kind (observer w))
               (log (CallTimeOutObserver timeout passed_time kind) w).

Definition call_cancel (w : World) : World :=
  set_observer (cancel (observer w)) (log CallCancel w).

(** [fut.done()] *)
Definition task_done (t : task_state) : bool :=
  match t with
  | TaskReturned | TaskCancelled | TaskFailed _ => true
  | NoTask | TaskScheduled | TaskFirstSleep | TaskInLoop _ => false
  end.

Definition fut_done (f : handle) (w : World) : bool :=
  match f with
  | ImpossibleFuture => true
  | FeedTask => task_done (task w)
  end.

(** [fut.cancel()]: nothing for a future that is done; otherwise the task is
    asked to cancel and gets [CancelledError] when the loop next resumes it. *)
Definition fut_cancel (f : handle) (w : World) : World :=
  let w' := log CallFutureCancel w in
  if fut_done f w then w' else set_cancel_requested true w'.

(** Python truth value of a [timeout] argument: [None] and [0] are false. *)
Definition truthy (t : option Z) : bool :=
  match t with
  | Some z => negb (z =? 0)%Z
  | None => false
  end.

End Runtime.
Import Runtime.

(* ================================================================== *)
(** * [asyncio_runner.py] *)
(* ================================================================== *)

(** The newline character. *)
Definition nl : string := String "010"%char EmptyString.

(** [system_resources_usage]: the two probes, as the environment answers. *)
Definition system_resources_usage (env : Env) : Z * Z :=
  (curr_fds_open env, curr_threads_nb env).

(** The [msg] that [check_system_resources_limit] formats. *)
Definition limit_message (env : Env) : string :=
  let '(fds, threads) := system_resources_usage env in
  "Can't run new asyncio loop - ALMOST REACHED MAX OPEN FILES LIMIT"
    ++ " (" ++ string_of_Z (max_open_files_limit_soft env) ++ "). Now "
    ++ string_of_Z fds ++ " FDs open, "
    ++ string_of_Z threads ++ " threads active.".

(** [check_system_resources_limit]: [None] when the observer may be admitted,
    otherwise the observer gets the limit exception under the lock and a
    future that is already done is returned in place of a task. *)
Definition check_system_resources_limit (env : Env) (w : World) : World * option handle :=
  let '(fds, _) := system_resources_usage env in
  if (max_open_files_limit_soft env - 10 <? fds)%Z then
    let limit_exception := MolerException (limit_message env) in
    (with_lock (call_set_exception limit_exception) w, Some ImpossibleFuture)
  else (w, None).

(** [thread_secure_get_event_loop]: returns [its_new]; a [RuntimeError] that
    does not complain about a missing loop is raised again. *)
Definition thread_secure_get_event_loop (env : Env) : res bool :=
  match get_event_loop_error env with
  | None => Ret false
  | Some err =>
      if contains "no current event loop in thread" err then Ret true
      else Raise (RuntimeError err)
  end.

(** The objects passed at the call sites of [feed]. *)
Inductive feed_arg : Type :=
| ArgObserver
| ArgSink (s : option nat)
| ArgLock
| ArgEvent
| ArgNone.

(** [async def feed(self, connection_observer, subscribed_data_receiver,
    observer_lock)], without the bound [self]. *)
Definition feed_params : list string :=
  ["connection_observer"; "subscribed_data_receiver"; "observer_lock"].

Module AsyncioRunner.
Section Runner.

(** Domain code: what the observer's [data_received] does to the observer,
    and the exception it raises, if any. *)
Variable data_received : Observer -> string -> Observer * option pyexc.

(** [moler.runner.his_remaining_time] (not among the sources): the remaining
    time it computes from the clock, the observer and a timeout. *)
Variable his_remaining_time : Z -> Observer -> option Z -> Z.

(** The context manager [exception_stored_if_not_main_thread] (not among
    the sources): what it does with an exception leaving its body, namely
    the observer afterwards and the exception it lets through, if any. *)
Variable exception_stored_if_not_main_thread :
  pyexc -> Observer -> Observer * option pyexc.

(** The [kind] that [time_out_observer] uses when the caller passes none. *)
Variable default_kind : string.

(** The sink installed on the connection by [_start_feeding].  The second
    component is the exception that leaves the sink, if any. *)
Definition secure_data_received (data : string) (w : World) : World * option pyexc :=
  if done (observer w) || in_shutdown w then (w, None)
  else
    let w1 := log LockAcquire w in
    let '(o', raised) := data_received (observer w1) data in
    let w2 := log LockRelease (set_observer o' (log (CallDataReceived data) w1)) in
    match raised with
    | None => (w2, None)
    | Some exc =>
        if is_Exception exc then (with_lock (call_set_exception exc) w2, None)
        else (w2, Some exc)
    end.

(** [_start_feeding]: subscribe a fresh sink, then send the command string
    when the observer is a command. *)
Definition _start_feeding (w : World) : World :=
  let s := next_sink w in
  let w1 := log (CallSubscribe s)
                (set_connection (subscribe s (connection w)) (set_sink s w)) in
  match command_string (observer w1) with
  | Some c => log (CallSendline c) (set_connection (sendline c (connection w1)) w1)
  | None => w1
  end.

(** The [finally] clause of [feed]. *)
Definition feed_finally (w : World) : World :=
  match sink w with
  | Some s => log (CallUnsubscribe s) (set_connection (unsubscribe s (connection w)) w)
  | None => w
  end.

(** One round of the [while True] loop of [feed]; [start_time] is the local
    captured before the loop. *)
Definition feed_round (start_time : Z) (w : World) : World :=
  if done (observer w) then set_task TaskReturned (feed_finally w)
  else
    let run_duration := clock w - start_time in
    if match timeout (observer w) with
       | Some t => (t <=? run_duration)%Z
       | None => false
       end
    then
      set_task TaskReturned
        (feed_finally
           (with_lock (call_time_out_observer (timeout (observer w))
                                              run_duration default_kind) w))
    else
      set_task (TaskInLoop start_time) (if in_shutdown w then call_cancel w else w).

(** [CancelledError] thrown into the coroutine where it is suspended: only
    inside the loop is it within the [try] whose [finally] unsubscribes. *)
Definition deliver_cancel (w : World) : World :=
  match task w with
  | TaskScheduled | TaskFirstSleep =>
      set_cancel_requested false (set_task TaskCancelled w)
  | TaskInLoop _ =>
      set_cancel_requested false (set_task TaskCancelled (feed_finally w))
  | _ => w
  end.

(** The loop resumes the [feed] coroutine once, up to its next [await]. *)
Definition feed (w : World) : World :=
  if cancel_requested w then deliver_cancel w
  else
    match task w with
    | TaskScheduled =>
        set_task TaskFirstSleep
                 (match sink w with None => _start_feeding w | Some _ => w end)
    | TaskFirstSleep => feed_round (start_time (observer w)) w
    | TaskInLoop st => feed_round st w
    | _ => w
    end.

(** [shutdown] *)
Definition shutdown (w : World) : World :=
  set_submitted_futures [] (set_started_ev_loops 0 (set_in_shutdown true w)).

(** What can happen while the event loop runs. *)
Inductive event : Type :=
| Advance (dt : Z)               (** the wall clock moves on by [dt] *)
| Tick                           (** the loop resumes the [feed] task *)
| Data (chunk : string)          (** the connection delivers a chunk *)
| TimeoutChange (t : option Z)   (** [observer.timeout = t] *)
| Shutdown                       (** [runner.shutdown()] *)
| CancelObserver.                (** [observer.cancel()] *)

Definition deliver (chunk : string) (w : World) : World :=
  match sink w with
  | Some s =>
      if existsb (Nat.eqb s) (subscribers (connection w))
      then fst (secure_data_received chunk w)
      else w
  | None => w
  end.

Definition handle_event (ev : event) (w : World) : World :=
  match ev with
  | Advance dt => set_clock (clock w + Z.max 0 dt) w
  | Tick => feed w
  | Data chunk => deliver chunk w
  | TimeoutChange t => set_observer (with_timeout t (observer w)) w
  | Shutdown => shutdown w
  | CancelObserver => call_cancel w
  end.

Definition run_events (evs : list event) (w : World) : World :=
  fold_left (fun w ev => handle_event ev w) evs w.

(** How driving the loop for a future ends. *)
Inductive loop_outcome : Type :=
| Completed           (** the future has its result *)
| LoopRaised (e : pyexc)
| Exhausted.          (** the schedule ended with the loop still waiting *)

Definition task_outcome (f : handle) (w : World) : option loop_outcome :=
  match f with
  | ImpossibleFuture => Some Completed
  | FeedTask =>
      match task w with
      | TaskReturned => Some Completed
      | TaskCancelled => Some (LoopRaised CancelledError)
      | TaskFailed e => Some (LoopRaised e)
      | _ => None
      end
  end.

(** The loop runs the events of [sched] until the future is done or, when a
    [deadline] is given, until the clock has reached it.  With
    [cancel_inner] the waiter cancels the future and lets it finish before
    reporting the timeout, as [asyncio.wait_for] does. *)
Fixpoint run_loop (cancel_inner : bool) (deadline : option Z) (f : handle)
         (sched : list event) (w : World) : World * loop_outcome :=
  match task_outcome f w with
  | Some o => (w, o)
  | None =>
      if match deadline with Some d => (d <=? clock w)%Z | None => false end
      then ((if cancel_inner then feed (set_cancel_requested true w) else w),
            LoopRaised TimeoutError)
      else
        match sched with
        | [] => (w, Exhausted)
        | ev :: rest => run_loop cancel_inner deadline f rest (handle_event ev w)
        end
  end.

(** [_run_via_asyncio] *)
Definition _run_via_asyncio (f : handle) (max_timeout : option Z) (remain_time : Z)
           (sched : list event) (w : World) : World * loop_outcome :=
  if truthy max_timeout
  then run_loop true (Some (clock w + remain_time)) f sched w
  else run_loop false None f sched w.

(** [_raise_wrong_usage_of_wait_for]: the exception it raises. *)
Definition wrong_usage_of_wait_for (env : Env) : pyexc :=
  let caller_name := "wait_for" in
  let user_call_name :=
    if String.eqb (caller_caller_name env) "await_done"
    then caller_caller_name env else caller_name in
  WrongUsage
    ("Can't call " ++ user_call_name ++ "() from 'async def' - it is blocking call"
     ++ nl ++ "    observer = " ++ observer_class_name env ++ "()"
     ++ nl ++ "    observer.start()"
     ++ nl ++ "consider using:"
     ++ nl ++ "    await observer"
     ++ nl ++ "instead of:"
     ++ nl ++ "    observer.await_done()").

(** [self._submitted_futures.remove(fut)] when it is in the list *)
Fixpoint remove_first (f : handle) (l : list handle) : list handle :=
  match l with
  | [] => []
  | x :: l' => if handle_eqb f x then l' else x :: remove_first f l'
  end.

(** The [finally] clause of [wait_for]. *)
Definition wait_for_finally (f : handle) (w : World) : World :=
  let w1 := fut_cancel f w in
  set_submitted_futures (remove_first f (submitted_futures w1)) w1.

(** [submit].  The call of [his_remaining_time] only feeds a log line and is
    left out. *)
Definition submit (env : Env) (w : World) : World * res handle :=
  match check_system_resources_limit env w with
  | (w1, Some impossible_future) => (w1, Ret impossible_future)
  | (w1, None) =>
      if negb (0 <? start_time (observer w1))%Z then (w1, Raise AssertionError)
      else
        match thread_secure_get_event_loop env with
        | Raise e => (w1, Raise e)
        | Ret its_new =>
            let w2 := if its_new
                      then set_started_ev_loops (S (started_ev_loops w1)) w1
                      else w1 in
            let w3 := _start_feeding w2 in
            match bind_arguments "feed" feed_params
                                 [ArgObserver; ArgSink (sink w3); ArgLock] [] with
            | Raise e => (w3, Raise e)
            | Ret _ =>
                match scheduled_task_outcome env with
                | Some (Some err) => (set_task (TaskFailed err) w3, Raise err)
                | Some None =>
                    let w4 := set_task TaskReturned w3 in
                    (set_submitted_futures (submitted_futures w4 ++ [FeedTask]) w4,
                     Ret FeedTask)
                | None =>
                    let w4 := set_task TaskScheduled w3 in
                    (set_submitted_futures (submitted_futures w4 ++ [FeedTask]) w4,
                     Ret FeedTask)
                end
            end
        end
  end.

(** [wait_for].  [None] means that the schedule ended while the loop was
    still waiting, so the call has not returned within the model. *)
Definition wait_for (env : Env) (sched : list event) (f : handle)
           (timeout : option Z) (w : World) : option (World * res unit) :=
  if done (observer w) then
    Some ((if fut_done f w then w else fut_cancel f w), Ret tt)
  else
    let max_timeout := timeout in
    let observer_timeout := Obs.timeout (observer w) in
    let remain_time :=
      if truthy max_timeout
      then his_remaining_time (clock w) (observer w) max_timeout
      else his_remaining_time (clock w) (observer w) observer_timeout in
    match thread_secure_get_event_loop env with
    | Raise e => Some (w, Raise e)
    | Ret true => Some (w, Raise AssertionError)
    | Ret false =>
        let leave (e : pyexc) (w' : World) : option (World * res unit) :=
          let w'' := wait_for_finally f w' in
          let '(o, through) := exception_stored_if_not_main_thread e (observer w'') in
          Some (set_observer o w'',
                match through with Some e' => Raise e' | None => Ret tt end) in
        if loop_is_running env then leave (wrong_usage_of_wait_for env) w
        else
          match _run_via_asyncio f max_timeout remain_time sched w with
          | (_, Exhausted) => None
          | (w1, Completed) => Some (wait_for_finally f w1, Ret tt)
          | (w1, LoopRaised CancelledError) =>
              Some (wait_for_finally f (call_cancel w1), Ret tt)
          | (w1, LoopRaised TimeoutError) =>
              let passed := clock w1 - start_time (observer w1) in
              let fired_timeout :=
                if truthy timeout then timeout else Obs.timeout (observer w1) in
              Some (wait_for_finally f
                      (with_lock (call_time_out_observer fired_timeout passed "await_done")
                                 w1),
                    Ret tt)
          | (w1, LoopRaised e) => leave e w1
          end
    end.

End Runner.
End AsyncioRunner.

Module AsyncioInThreadRunner.
Section Runner.

Variable data_received : Observer -> string -> Observer * option pyexc.
Variable default_kind : string.

Abbreviation event := AsyncioRunner.event.
Abbreviation run_loop :=
  (AsyncioRunner.run_loop data_received default_kind).

(** [shutdown] of this class only latches the flag. *)
Definition shutdown (w : World) : World := set_in_shutdown true w.

(** [start_timeout = 0.5] *)
Definition start_timeout : Z := 500.

(** How far a coroutine posted to the loop thread gets. *)
Inductive coro_result : Type :=
| CoroRaised (e : pyexc)
| CoroReturned (fut : handle)
| CoroAwaiting.        (** suspended in an [await] that nothing completes *)

(** The coroutine [start_feeder] run on the loop thread: it calls
    [self.feed(connection_observer, feed_started,
    subscribed_data_receiver=None)], wraps the coroutine in a task and
    awaits [feed_started].  Neither [feed] nor [_start_feeding] sets that
    event, so once the task is scheduled [start_feeder] stays suspended. *)
Definition start_feeder (w : World) : World * coro_result :=
  match bind_arguments "feed" feed_params
                       [ArgObserver; ArgEvent]
                       [("subscribed_data_receiver", ArgNone)] with
  | Raise e => (w, CoroRaised e)
  | Ret _ => (set_task TaskScheduled w, CoroAwaiting)
  end.

(** [AsyncioLoopThread.run_async_coroutine(start_feeder(), timeout)]: the
    result of the coroutine when the loop thread produces one within
    [timeout], [MolerTimeout] otherwise. *)
Definition run_async_coroutine_start_feeder (env : Env) (timeout : Z) (w : World)
  : World * res handle :=
  let timed_out (w' : World) :=
    (set_clock (clock w' + timeout) w',
     Raise (MolerTimeout (Some timeout) "run_async_coroutine" timeout)) in
  if loop_thread_responsive env then
    match start_feeder w with
    | (w1, CoroRaised e) => (w1, Raise e)
    | (w1, CoroReturned fut) => (w1, Ret fut)
    | (w1, CoroAwaiting) => timed_out w1
    end
  else timed_out w.

(** [submit]: [Ret None] is Python's [return None]. *)
Definition submit (env : Env) (w : World) : World * res (option handle) :=
  match run_async_coroutine_start_feeder env start_timeout w with
  | (w1, Raise (MolerTimeout _ _ _)) =>
      let err_msg := "Failed to start observer feeder within 0.5 sec" in
      (call_set_exception (MolerException err_msg) w1, Ret None)
  | (w1, Raise e) => (w1, Raise e)
  | (w1, Ret connection_observer_future) => (w1, Ret (Some connection_observer_future))
  end.

(** The [finally] clause of [wait_for]: a cancelling coroutine is posted to
    the loop thread when the future is not done. *)
Definition wait_for_finally (f : handle) (w : World) : World :=
  if fut_done f w then w else fut_cancel f w.

(** [wait_for].  The calling thread blocks while the loop thread works
    through [sched]; [None] means the schedule ended first.  The source
    stores [err] unless [connection_observer._exception != err] fails; an
    observer that holds an exception is terminal, where [set_exception]
    changes nothing, so the test is not repeated here. *)
Definition wait_for (env : Env) (sched : list event) (f : handle)
           (timeout : option Z) (w : World) : option (World * res unit) :=
  if done (observer w) then Some (w, Ret tt)
  else
    let start_time := clock w in
    let stored (err : pyexc) (w' : World) : option (World * res unit) :=
      Some (wait_for_finally f (call_set_exception err w'), Ret tt) in
    match thread_secure_get_event_loop env with
    | Raise e => stored e w
    | Ret _ =>
        if loop_is_running env
        then stored (AsyncioRunner.wrong_usage_of_wait_for env) w
        else
          let deadline :=
            match timeout with Some t => Some (start_time + t) | None => None end in
          match run_loop false deadline f sched w with
          | (_, AsyncioRunner.Exhausted) => None
          | (w1, AsyncioRunner.Completed) => Some (wait_for_finally f w1, Ret tt)
          | (w1, AsyncioRunner.LoopRaised TimeoutError) =>
              let w2 := wait_for_finally f w1 in
              let passed := clock w2 - start_time in
              let fired_timeout :=
                if truthy timeout then timeout else Obs.timeout (observer w2) in
              Some (call_time_out_observer fired_timeout passed "await_done" w2, Ret tt)
          | (w1, AsyncioRunner.LoopRaised CancelledError) =>
              Some (wait_for_finally f (call_cancel w1), Ret tt)
          | (w1, AsyncioRunner.LoopRaised err) =>
              if is_Exception err then stored err w1
              else Some (wait_for_finally f w1, Raise err)
          end
    end.

End Runner.
End AsyncioInThreadRunner.

(* ================================================================== *)
(** * [config/__init__.py] *)
(* ================================================================== *)

Module Config.

Set Warnings "-register-all".

(** Configuration documents: what [yaml.load] produces and what a caller
    passes as [config].  A mapping keeps its items in insertion order. *)
Inductive pyval : Type :=
| VNone
| VBool (b : bool)
| VInt (z : Z)
| VStr (s : string)
| VList (elems : list pyval)
| VDict (items : list (string * pyval)).

(** Python truth value: [not v] is [negb (py_truth v)]. *)
Definition py_truth (v : pyval) : bool :=
  match v with
  | VNone => false
  | VBool b => b
  | VInt z => negb (z =? 0)%Z
  | VStr s => negb (String.eqb s "")
  | VList l => match l with [] => false | _ => true end
  | VDict l => match l with [] => false | _ => true end
  end.

Fixpoint lookup (key : string) (items : list (string * pyval)) : option pyval :=
  match items with
  | [] => None
  | (k, v) :: rest => if String.eqb key k then Some v else lookup key rest
  end.

Definition remove_key (key : string) (items : list (string * pyval))
  : list (string * pyval) :=
  filter (fun kv => negb (String.eqb key (fst kv))) items.

Fixpoint store (key : string) (v : pyval) (items : list (string * pyval))
  : list (string * pyval) :=
  match items with
  | [] => [(key, v)]
  | (k, old) :: rest =>
      if String.eqb key k then (k, v) :: rest else (k, old) :: store key v rest
  end.

Definition is_str (key : string) (v : pyval) : bool :=
  match v with VStr s => String.eqb key s | _ => false end.

(** [key in v] *)
Definition py_in (key : string) (v : pyval) : res bool :=
  match v with
  | VDict items => Ret (match lookup key items with Some _ => true | None => false end)
  | VStr s => Ret (contains key s)
  | VList l => Ret (existsb (is_str key) l)
  | _ => Raise (TypeError "argument is not iterable")
  end.

(** [v[key]] *)
Definition py_getitem (v : pyval) (key : string) : res pyval :=
  match v with
  | VDict items =>
      match lookup key items with
      | Some x => Ret x
      | None => Raise (KeyError key)
      end
  | VStr _ => Raise (TypeError "string indices must be integers")
  | VList _ => Raise (TypeError "list indices must be integers or slices")
  | _ => Raise (TypeError "object is not subscriptable")
  end.

(** [v.get(key, default)] *)
Definition py_get (v : pyval) (key : string) (default : pyval) : res pyval :=
  match v with
  | VDict items =>
      Ret (match lookup key items with Some x => x | None => default end)
  | _ => Raise (AttributeError "object has no attribute 'get'")
  end.

(** [v.pop(key)]: the popped value and [v] afterwards. *)
Definition py_pop (v : pyval) (key : string) : res (pyval * pyval) :=
  match v with
  | VDict items =>
      match lookup key items with
      | Some x => Ret (x, VDict (remove_key key items))
      | None => Raise (KeyError key)
      end
  | VList _ => Raise (TypeError "'str' object cannot be interpreted as an integer")
  | _ => Raise (AttributeError "object has no attribute 'pop'")
  end.

(** [v.pop(key, default)] *)
Definition py_pop_default (v : pyval) (key : string) (default : pyval)
  : res (pyval * pyval) :=
  match v with
  | VDict items =>
      Ret (match lookup key items with Some x => x | None => default end,
           VDict (remove_key key items))
  | VList _ => Raise (TypeError "pop expected at most 1 argument, got 2")
  | _ => Raise (AttributeError "object has no attribute 'pop'")
  end.

(** [v.items()] *)
Definition py_items (v : pyval) : res (list (string * pyval)) :=
  match v with
  | VDict items => Ret items
  | _ => Raise (AttributeError "object has no attribute 'items'")
  end.

Fixpoint chars (s : string) : list pyval :=
  match s with
  | EmptyString => []
  | String c rest => VStr (String c EmptyString) :: chars rest
  end.

(** [for key in v] for a mapping [v] *)
Definition py_keys (v : pyval) : res (list string) :=
  match v with
  | VDict items => Ret (map fst items)
  | _ => Raise (TypeError "object is not a mapping")
  end.

(** [for x in v] *)
Definition py_iter (v : pyval) : res (list pyval) :=
  match v with
  | VDict items => Ret (map (fun kv => VStr (fst kv)) items)
  | VList l => Ret l
  | VStr s => Ret (chars s)
  | _ => Raise (TypeError "object is not iterable")
  end.

(** [v[key]] for a key that is itself a value *)
Definition py_getitem_val (v key : pyval) : res pyval :=
  match key with
  | VStr k => py_getitem v k
  | _ =>
      match v with
      | VDict _ => Raise (KeyError "key")
      | _ => Raise (TypeError "indices must be integers")
      end
  end.

(** [config[section] = v], used to make a mutation of a nested mapping
    visible through the document that holds it. *)
Definition set_section (section : string) (v : pyval) (config : pyval) : pyval :=
  match config with
  | VDict items => VDict (store section v items)
  | _ => config
  end.

(** Calls into [moler.config.loggers], [moler.config.connections],
    [moler.config.devices] and [DeviceFactory], none of which is among the
    sources: they are recorded, not interpreted. *)
Inductive effect : Type :=
| SetWriteMode (mode : pyval)
| SetLoggingPath (path : pyval)
| RawLogsActive
| ConfigureDebugLevel (level : pyval)
| SetDateFormat (fmt : pyval)
| ConfigureMolerMainLogger
| DefineConnection (name : string) (io_type : pyval) (specification : pyval)
| SetDefaultVariant (io_type : string) (variant : pyval)
| SetDefaultConnection (conn_desc : pyval)
| DefineDevice (name : string)
               (device_class connection_desc connection_hops initial_state : pyval)
| GetClonedDevice (source : pyval) (new_name : string) (initial_state : pyval)
| CreateAllDevices
| AddNeighbourDevice (device neighbour : string).

Definition is_logger_effect (e : effect) : bool :=
  match e with
  | SetWriteMode _ | SetLoggingPath _ | RawLogsActive | ConfigureDebugLevel _
  | SetDateFormat _ | ConfigureMolerMainLogger => true
  | _ => false
  end.

Definition is_connection_effect (e : effect) : bool :=
  match e with
  | DefineConnection _ _ _ | SetDefaultVariant _ _ | SetDefaultConnection _ => true
  | _ => false
  end.

(** The module globals, the device registry, and the object that the local
    name [config] of [load_config] is bound to while a call runs.
    [config_aliased] says that this object is the one last appended to
    [loaded_config], so that popping a key from it changes that entry too.
    [DeviceFactory] is not among the sources: a device counts as known to
    [get_device] once [define_device] or [get_cloned_device] was called for
    its name. *)
Record CfgState : Type := mkCfg {
  loaded_config : list pyval;
  devices : list string;          (** names [DeviceFactory.get_device] knows *)
  default_connection : pyval;     (** [dev_cfg.default_connection] *)
  config_object : pyval;
  config_aliased : bool;
  effects : list effect
}.

(** [loaded_config = ["NOT_LOADED_YET"]], nothing configured. *)
Definition initial_state : CfgState :=
  mkCfg [VStr "NOT_LOADED_YET"] [] VNone VNone false [].

(** State-and-exception monad of the loader. *)
Definition M (A : Type) : Type := CfgState -> CfgState * res A.

Definition ret {A} (a : A) : M A := fun st => (st, Ret a).
Definition raise {A} (e : pyexc) : M A := fun st => (st, Raise e).
Definition bind {A B} (m : M A) (k : A -> M B) : M B :=
  fun st =>
    match m st with
    | (st', Ret a) => k a st'
    | (st', Raise e) => (st', Raise e)
    end.
Definition lift {A} (r : res A) : M A := fun st => (st, r).

Declare Scope cfg_scope.
Delimit Scope cfg_scope with cfg.
Notation "x <- c1 ;; c2" := (bind c1 (fun x => c2))
  (at level 61, c1 at next level, right associativity) : cfg_scope.
Notation "' pat <- c1 ;; c2" := (bind c1 (fun x => match x with pat => c2 end))
  (at level 61, pat pattern, c1 at next level, right associativity) : cfg_scope.
Notation "c1 ;; c2" := (bind c1 (fun _ => c2))
  (at level 61, right associativity) : cfg_scope.
Open Scope cfg_scope.

Definition emit (e : effect) : M unit :=
  fun st => (mkCfg (loaded_config st) (devices st) (default_connection st)
                   (config_object st) (config_aliased st) (effects st ++ [e]), Ret tt).

Definition get_config : M pyval := fun st => (st, Ret (config_object st)).

Fixpoint replace_last (v : pyval) (l : list pyval) : list pyval :=
  match l with
  | [] => []
  | [_] => [v]
  | x :: rest => x :: replace_last v rest
  end.

(** The object bound to [config] is changed in place. *)
Definition mutate_config (c : pyval) : M unit :=
  fun st => (mkCfg (if config_aliased st then replace_last c (loaded_config st)
                    else loaded_config st)
                   (devices st) (default_connection st) c (config_aliased st)
                   (effects st), Ret tt).

(** The local name [config] is bound to an object. *)
Definition bind_config (c : pyval) (aliased : bool) : M unit :=
  fun st => (mkCfg (loaded_config st) (devices st) (default_connection st) c aliased
                   (effects st), Ret tt).

(** Modelled from the spec: [DeviceFactory] and [moler.config.devices] are
    not among the sources.  The spec has a reload append new devices only; a
    name is taken to be known to [DeviceFactory.get_device] from the moment
    [define_device] or [get_cloned_device] was called for it. *)
Definition register_device (name : string) : M unit :=
  fun st => (mkCfg (loaded_config st) (devices st ++ [name]) (default_connection st)
                   (config_object st) (config_aliased st) (effects st), Ret tt).

(** [dev_cfg.set_default_connection] changes what [dev_cfg.default_connection]
    gives afterwards. *)
Definition store_default_connection (d : pyval) : M unit :=
  fun st => (mkCfg (loaded_config st) (devices st) d
                   (config_object st) (config_aliased st) (effects st), Ret tt).

Definition get_default_connection : M pyval :=
  fun st => (st, Ret (default_connection st)).

Definition known_device (name : string) : M bool :=
  fun st => (st, Ret (existsb (String.eqb name) (devices st))).

(** [for x in xs: body x] *)
Fixpoint for_each {A} (xs : list A) (body : A -> M unit) : M unit :=
  match xs with
  | [] => ret tt
  | x :: rest => body x ;; for_each rest body
  end.

Definition when (b : bool) (m : M unit) : M unit := if b then m else ret tt.

Section Loader.

(** [moler.helpers.compare_objects] (not among the sources): the
    differences it reports between two documents, none when they are the
    same. *)
Variable compare_objects : pyval -> pyval -> list string.

(** [os.environ] *)
Variable environ : string -> option string.

(** Opening the file at an absolute path, reading it and [yaml.load]ing its
    content: the document, or the exception one of the three raises. *)
Variable yaml_load_file : string -> res pyval.

(** [os.path.isabs] on a POSIX system *)
Definition isabs (path : string) : bool := String.prefix "/" path.

(** [read_yaml_configfile] *)
Definition read_yaml_configfile (path : string) : res pyval :=
  if isabs path then yaml_load_file path
  else
    Raise (MolerException
             ("Loading configuration requires absolute path and not '" ++ path ++ "'")).

(** [configs_are_same] *)
Fixpoint configs_are_same (config_list : list pyval) (config_to_find : pyval) : bool :=
  match config_list with
  | [] => false
  | config :: rest =>
      match compare_objects config config_to_find with
      | [] => true
      | _ :: _ => configs_are_same rest config_to_find
      end
  end.

(** [load_logger_from_config] *)
Definition load_logger_from_config : M unit :=
  config <- get_config ;;
  has_logger <- lift (py_in "LOGGER" config) ;;
  when has_logger
    (logger <- lift (py_getitem config "LOGGER") ;;
     (b <- lift (py_in "MODE" logger) ;;
      when b (v <- lift (py_getitem logger "MODE") ;; emit (SetWriteMode v))) ;;
     (b <- lift (py_in "PATH" logger) ;;
      when b (v <- lift (py_getitem logger "PATH") ;; emit (SetLoggingPath v))) ;;
     (b <- lift (py_in "RAW_LOG" logger) ;;
      when b (v <- lift (py_getitem logger "RAW_LOG") ;;
              match v with VBool true => emit RawLogsActive | _ => ret tt end)) ;;
     (b <- lift (py_in "DEBUG_LEVEL" logger) ;;
      when b (v <- lift (py_getitem logger "DEBUG_LEVEL") ;;
              emit (ConfigureDebugLevel v))) ;;
     (b <- lift (py_in "DATE_FORMAT" logger) ;;
      when b (v <- lift (py_getitem logger "DATE_FORMAT") ;; emit (SetDateFormat v)))) ;;
  emit ConfigureMolerMainLogger.

(** [load_connection_from_config]: popping ["io_type"] changes the
    specification inside the document. *)
Definition load_connection_from_config : M unit :=
  config <- get_config ;;
  has_named <- lift (py_in "NAMED_CONNECTIONS" config) ;;
  when has_named
    (named <- lift (py_getitem config "NAMED_CONNECTIONS") ;;
     items <- lift (py_items named) ;;
     for_each items
       (fun '(name, connection_specification) =>
          ' (io_type, specification) <- lift (py_pop connection_specification "io_type") ;;
          (config <- get_config ;;
           named <- lift (py_getitem config "NAMED_CONNECTIONS") ;;
           mutate_config
             (set_section "NAMED_CONNECTIONS"
                          (set_section name specification named) config)) ;;
          emit (DefineConnection name io_type specification))) ;;
  config <- get_config ;;
  has_io_types <- lift (py_in "IO_TYPES" config) ;;
  when has_io_types
    (io_types <- lift (py_getitem config "IO_TYPES") ;;
     has_default <- lift (py_in "default_variant" io_types) ;;
     when has_default
       (defaults <- lift (py_getitem io_types "default_variant") ;;
        items <- lift (py_items defaults) ;;
        for_each items
          (fun '(io_type, variant) => emit (SetDefaultVariant io_type variant)))).

(** [DeviceFactory.get_device(name)]: [KeyError] for a name that is not
    defined. *)
Definition get_device (name : pyval) : M string :=
  match name with
  | VStr n =>
      known <- known_device n ;;
      if (known : bool) then ret n else raise (KeyError n)
  | _ => raise (KeyError "device name")
  end.

(** [_is_device_already_created] *)
Definition _is_device_already_created (name : string) : M bool :=
  fun st =>
    match get_device (VStr name) st with
    | (st', Raise (KeyError _)) => (st', Ret false)
    | (st', Raise e) => (st', Raise e)
    | (st', Ret _) => (st', Ret true)
    end.

(** [_load_topology] *)
Definition _load_topology (topology : pyval) : M unit :=
  when (py_truth topology)
    (names <- lift (py_iter topology) ;;
     for_each names
       (fun device_name =>
          device <- get_device device_name ;;
          neighbours <- lift (py_getitem_val topology device_name) ;;
          neighbour_names <- lift (py_iter neighbours) ;;
          for_each neighbour_names
            (fun neighbour_device_name =>
               neighbour_device <- get_device neighbour_device_name ;;
               emit (AddNeighbourDevice device neighbour_device)))).

(** The body of [for device_name in config['DEVICES']]; [cloned] is the
    dictionary [cloned_devices] collected so far. *)
Fixpoint define_devices (names : list string) (cloned : list (string * (pyval * pyval)))
  : M (list (string * (pyval * pyval))) :=
  match names with
  | [] => ret cloned
  | device_name :: rest =>
      config <- get_config ;;
      devs <- lift (py_getitem config "DEVICES") ;;
      device_def <- lift (py_getitem devs device_name) ;;
      created <- _is_device_already_created device_name ;;
      if (created : bool) then
        raise (WrongUsage ("Requested to create device '" ++ device_name
                           ++ "' but device with such name is already created."))
      else
        is_clone <- lift (py_in "CLONED_FROM" device_def) ;;
        if (is_clone : bool) then
          source <- lift (py_getitem device_def "CLONED_FROM") ;;
          state <- lift (py_get device_def "INITIAL_STATE" VNone) ;;
          define_devices rest
            (filter (fun kv => negb (String.eqb device_name (fst kv))) cloned
                    ++ [(device_name, (source, state))])
        else
          device_class <- lift (py_getitem device_def "DEVICE_CLASS") ;;
          default <- get_default_connection ;;
          connection_desc <- lift (py_get device_def "CONNECTION_DESC" default) ;;
          hops <- lift (py_get device_def "CONNECTION_HOPS" (VDict [])) ;;
          initial <- lift (py_get device_def "INITIAL_STATE" VNone) ;;
          emit (DefineDevice device_name device_class connection_desc
                             (VDict [("CONNECTION_HOPS", hops)]) initial) ;;
          register_device device_name ;;
          define_devices rest cloned
  end.

(** [load_device_from_config] *)
Definition load_device_from_config (add_only : bool) : M unit :=
  config <- get_config ;;
  has_devices <- lift (py_in "DEVICES" config) ;;
  ' (create_at_startup, topology, cloned_devices) <-
    (if (has_devices : bool) then
       (devs <- lift (py_getitem config "DEVICES") ;;
        has_default <- lift (py_in "DEFAULT_CONNECTION" devs) ;;
        when has_default
          (' (default_conn, devs') <- lift (py_pop devs "DEFAULT_CONNECTION") ;;
           mutate_config (set_section "DEVICES" devs' config) ;;
           when (negb add_only)
             (conn_desc <- lift (py_getitem default_conn "CONNECTION_DESC") ;;
              emit (SetDefaultConnection conn_desc) ;;
              store_default_connection conn_desc))) ;;
       config <- get_config ;;
       devs <- lift (py_getitem config "DEVICES") ;;
       has_startup <- lift (py_in "CREATE_AT_STARTUP" devs) ;;
       create_at_startup <-
         (if (has_startup : bool) then
            ' (v, devs') <- lift (py_pop devs "CREATE_AT_STARTUP") ;;
            mutate_config (set_section "DEVICES" devs' config) ;;
            ret v
          else ret (VBool false)) ;;
       config <- get_config ;;
       devs <- lift (py_getitem config "DEVICES") ;;
       ' (topology, devs') <- lift (py_pop_default devs "LOGICAL_TOPOLOGY" VNone) ;;
       mutate_config (set_section "DEVICES" devs' config) ;;
       names <- lift (py_keys devs') ;;
       cloned <- define_devices names [] ;;
       ret (create_at_startup, topology, cloned)
     else ret (VBool false, VNone, [])) ;;
  for_each cloned_devices
    (fun '(device_name, (cloned_from, initial_state)) =>
       emit (GetClonedDevice cloned_from device_name initial_state) ;;
       register_device device_name) ;;
  when (match create_at_startup with VBool true => true | _ => false end)
    (emit CreateAllDevices) ;;
  _load_topology topology.

Definition is_marker (v : pyval) : bool := is_str "NOT_LOADED_YET" v.

Definition set_loaded_config (l : list pyval) : M unit :=
  fun st => (mkCfg l (devices st) (default_connection st) (config_object st)
                   (config_aliased st) (effects st), Ret tt).

(** [load_config], after the decision whether this is a first load, a
    repetition or an addition. *)
Definition apply_config (config : pyval) (from_env_var : option string)
           (config_type : string) (add_devices_only : bool) : M unit :=
  bind_config config true ;;
  when (negb (String.eqb config_type "dict") && negb (String.eqb config_type "yaml"))
    (raise (WrongUsage ("Unsupported config_type: '" ++ config_type
                        ++ "'. Allowed are: 'dict' or 'yaml'."))) ;;
  (if negb (py_truth config) then
     match from_env_var with
     | None | Some "" =>
         raise (WrongUsage
                  "Provide either 'config' or 'from_env_var' parameter (none given).")
     | Some var =>
         match environ var with
         | None => raise (KeyError ("Environment variable '" ++ var ++ "' is not set"))
         | Some path =>
             read <- lift (read_yaml_configfile path) ;;
             bind_config read false
         end
     end
   else if String.eqb config_type "yaml" then
     match config with
     | VStr path =>
         read <- lift (read_yaml_configfile path) ;;
         bind_config read false
     | _ => raise AssertionError
     end
   else
     match config with
     | VDict _ => ret tt
     | _ => raise AssertionError
     end) ;;
  when (negb add_devices_only)
    (load_logger_from_config ;; load_connection_from_config) ;;
  load_device_from_config add_devices_only.

(** [load_config] *)
Definition load_config (config : pyval) (from_env_var : option string)
           (config_type : string) : M unit :=
  fun st =>
    if existsb is_marker (loaded_config st) then
      (set_loaded_config [config] ;;
       apply_config config from_env_var config_type false) st
    else if configs_are_same (loaded_config st) config then (st, Ret tt)
    else
      (set_loaded_config (loaded_config st ++ [config]) ;;
       apply_config config from_env_var config_type true) st.

End Loader.

(** A deep comparison to run the loader with: structural equality of the two
    documents. *)
Fixpoint pyval_eqb (a b : pyval) {struct a} : bool :=
  match a, b with
  | VNone, VNone => true
  | VBool x, VBool y => Bool.eqb x y
  | VInt x, VInt y => (x =? y)%Z
  | VStr x, VStr y => String.eqb x y
  | VList xs, VList ys =>
      (fix go (xs ys : list pyval) {struct xs} : bool :=
         match xs, ys with
         | [], [] => true
         | x :: xs', y :: ys' => pyval_eqb x y && go xs' ys'
         | _, _ => false
         end) xs ys
  | VDict xs, VDict ys =>
      (fix go (xs ys : list (string * pyval)) {struct xs} : bool :=
         match xs, ys with
         | [], [] => true
         | (k, x) :: xs', (k', y) :: ys' => String.eqb k k' && pyval_eqb x y && go xs' ys'
         | _, _ => false
         end) xs ys
  | _, _ => false
  end.

Definition structural_compare (a b : pyval) : list string :=
  if pyval_eqb a b then [] else ["values differ"].

End Config.

(* ================================================================== *)
(** * Vocabulary and scenarios for the runners *)
(* ================================================================== *)

Module RunnerScenarios.
Import AsyncioRunner.
#[local] Open Scope list_scope.

(** The start of the run that the next round of [feed] measures from: the
    observer's [start_time] when the loop is about to be entered, the local
    captured at entry afterwards. *)
Definition loop_start (w : World) : option Z :=
  match task w with
  | TaskFirstSleep => Some (start_time (observer w))
  | TaskInLoop st => Some st
  | _ => None
  end.

(** The task exists and has not finished. *)
Definition task_live (t : task_state) : bool :=
  match t with
  | TaskScheduled | TaskFirstSleep | TaskInLoop _ => true
  | _ => false
  end.

(** Domain code that ignores every chunk and leaves the observer alone. *)
Definition inert_data_received (o : Observer) (data : string) : Observer * option pyexc :=
  (o, None).

(** The remaining time as [timeout - (now - start_time)], not below zero. *)
Definition remaining (now : Z) (o : Observer) (t : option Z) : Z :=
  match t with
  | Some t => Z.max 0 (t - (now - start_time o))
  | None => 0
  end.

(** The guard as it behaves in the main thread: the exception goes through. *)
Definition reraise (e : pyexc) (o : Observer) : Observer * option pyexc := (o, Some e).

(** A command that was started at [1000] with a deadline of [100], before
    anything was submitted. *)
Definition fresh_world : World :=
  mkWorld (mkObserver 1000 (Some 100) Running (Some "AT+CGATT=1"))
          (mkConnection [] []) false [] 0 0 None NoTask false 1000 [].

(** A process far from its descriptor limit, with an idle loop. *)
Definition calm_env : Env :=
  mkEnv 20 3 100 None false None true "await_done" "AtCmdAttach".

(** A parser that chokes on the chunk ["boom"]. *)
Definition choking_data_received (o : Observer) (data : string)
  : Observer * option pyexc :=
  if String.eqb data "boom" then (o, Some (DomainError "cannot parse")) else (o, None).

(** Domain code that is interrupted from the keyboard while it parses the
    chunk ["boom"]. *)
Definition interrupted_data_received (o : Observer) (data : string)
  : Observer * option pyexc :=
  if String.eqb data "boom" then (o, Some KeyboardInterrupt) else (o, None).

(** The command of [fresh_world] submitted, its feed task resumed twice (so
    that it sleeps inside the loop) and [50] ms gone. *)
Definition world_in_loop : World :=
  AsyncioRunner.run_events inert_data_received "background_run"
    [Tick; Tick; Advance 50]
    (fst (submit calm_env fresh_world)).

(** Soft limit 100 with 95 descriptors open. *)
Definition crowded_env : Env :=
  mkEnv 95 3 100 None false None true "await_done" "AtCmdAttach".

(** The feed task of the submitted command is live; the caller waits at most
    [20] ms while the loop ticks every [5] ms and no data arrives. *)
Definition quiet_schedule : list event :=
  [Tick; Advance 5; Tick; Advance 5; Tick; Advance 5; Tick; Advance 5; Tick;
   Advance 5; Tick].

(** The same process, asked from inside a coroutine. *)
Definition busy_env : Env :=
  mkEnv 20 3 100 None true None true "await_done" "AtCmdAttach".

End RunnerScenarios.
Import RunnerScenarios.

(* ================================================================== *)
(** * Vocabulary and scenarios for the configuration loader *)
(* ================================================================== *)

Module ConfigScenarios.
Import Config.
#[local] Open Scope list_scope.

(** [name] is not among the devices of [base]. *)
Definition fresh (base : list string) (name : string) : bool :=
  negb (existsb (String.eqb name) base).

(** An effect that a reload is allowed to have: defining or cloning a device
    whose name is not in [base], creating the defined devices, linking
    neighbours. *)
Definition new_device_effect (base : list string) (e : effect) : bool :=
  match e with
  | DefineDevice n _ _ _ _ | GetClonedDevice _ n _ => fresh base n
  | CreateAllDevices | AddNeighbourDevice _ _ => true
  | _ => false
  end.

(** From [st] to [st'] the registry has only grown, the default connection
    is the same, and the new effects are all [new_device_effect]s. *)
Definition extends (base : list string) (st st' : CfgState) : Prop :=
  incl (devices st) (devices st')
  /\ default_connection st' = default_connection st
  /\ exists new, effects st' = effects st ++ new
                 /\ forallb (new_device_effect base) new = true.

(** Run in a state that knows the devices of [base], [m] extends the state
    and, when it returns, its result satisfies [Q]. *)
Definition triple {A} (base : list string) (m : M A) (Q : A -> Prop) : Prop :=
  forall st st' r,
    incl base (devices st) ->
    m st = (st', r) ->
    extends base st st' /\ match r with Ret a => Q a | Raise _ => True end.

Definition anything {A} (_ : A) : Prop := True.


(** A dictionary document used twice below: a logger section, one named
    connection, a default connection for devices and one device. *)
Definition lab_config : pyval :=
  VDict [("LOGGER", VDict [("MODE", VStr "write")]);
         ("NAMED_CONNECTIONS",
          VDict [("net_1", VDict [("io_type", VStr "tcp"); ("host", VStr "localhost")])]);
         ("DEVICES",
          VDict [("DEFAULT_CONNECTION",
                  VDict [("CONNECTION_DESC", VDict [("io_type", VStr "terminal")])]);
                 ("UNIX", VDict [("DEVICE_CLASS", VStr "moler.device.unixlocal.UnixLocal")])])].

(** A second document, with one more device. *)
Definition more_devices : pyval :=
  VDict [("LOGGER", VDict [("MODE", VStr "append")]);
         ("DEVICES",
          VDict [("DEFAULT_CONNECTION",
                  VDict [("CONNECTION_DESC", VDict [("io_type", VStr "sshshell")])]);
                 ("AT_REMOTE", VDict [("DEVICE_CLASS", VStr "moler.device.atremote.AtRemote")])])].

Definition no_environ (var : string) : option string := None.

(** Every absolute path holds the document [lab_config]. *)
Definition lab_files (path : string) : res pyval := Ret lab_config.

Definition load := load_config structural_compare no_environ lab_files.

(** Every device collected for cloning has a name that is not in [base]. *)
Definition all_fresh (base : list string) (cloned : list (string * (pyval * pyval)))
  : Prop :=
  forall kv, In kv cloned -> fresh base (fst kv) = true.

(** The state after [load_config("/lab.yml")] in a fresh process. *)
Definition lab_loaded : CfgState :=
  fst (load (VStr "/lab.yml") None "yaml" initial_state).

End ConfigScenarios.
Import ConfigScenarios.

(* ================================================================== *)
(** * Further vocabulary and scenarios for the runners *)
(* ================================================================== *)

Module RunnerExtraScenarios.
Import AsyncioRunner.
#[local] Open Scope list_scope.

(** [data_received] was called. *)
Definition is_data_call (a : action) : bool :=
  match a with CallDataReceived _ => true | _ => false end.

(** The sink of the feed task is subscribed on the connection. *)
Definition sink_subscribed (w : World) : bool :=
  match sink w with
  | Some s => existsb (Nat.eqb s) (subscribers (connection w))
  | None => false
  end.

(** The command of [fresh_world] after its feed task saw the deadline pass. *)
Definition timed_out_world : World :=
  AsyncioRunner.run_events inert_data_received "background_run"
    [Tick; Tick; Advance 100; Tick]
    (fst (submit calm_env fresh_world)).

(** The command of [fresh_world] just submitted, [30] ms later. *)
Definition late_world : World :=
  set_clock 1030 (fst (submit calm_env fresh_world)).

(** A schedule in which the command runs into its own deadline. *)
Definition long_schedule : list event :=
  [Tick; Tick; Advance 60; Tick; Advance 60; Tick].

(** A worker thread that has no event loop yet. *)
Definition loopless_env : Env :=
  mkEnv 20 3 100 (Some "There is no current event loop in thread 'Thread-3'.")
        false None true "await_done" "AtCmdAttach".

(** The deadline of the observer has passed for a run that started at [st]. *)
Definition deadline_reached (st : Z) (w : World) : bool :=
  match timeout (observer w) with
  | Some t => (t <=? clock w - st)%Z
  | None => false
  end.

(** How a round of [feed] leaves the loop: the task has returned, the sink is
    unsubscribed and nothing asks the task to cancel. *)
Definition left_loop (w : World) : Prop :=
  task w = TaskReturned /\ sink_subscribed w = false /\ cancel_requested w = false.

(** The feed task is inside its loop (so within the [try] whose [finally]
    unsubscribes), or it has finished and its sink is unsubscribed. *)
Definition in_loop_or_reclaimed (w : World) : Prop :=
  (exists st, task w = TaskInLoop st)
  \/ (task_done (task w) = true /\ sink_subscribed w = false).

(** Domain code that takes the chunk ["OK"] for the answer of the command. *)
Definition answering_data_received (o : Observer) (data : string)
  : Observer * option pyexc :=
  if String.eqb data "OK" then (with_state (Succeeded "attached") o, None)
  else (o, None).

(** The command of [fresh_world] with its [feed] coroutine wrapped in a task
    on the loop of the loop thread, before that task has run. *)
Definition fed_on_loop_thread : World := set_task TaskScheduled fresh_world.

End RunnerExtraScenarios.
Import RunnerExtraScenarios.

(* ================================================================== *)
(** * [asyncio_runner.py]: the dedicated loop thread *)
(* ================================================================== *)

Module LoopThread.
#[local] Open Scope list_scope.

(** The module-level [_asyncio_loop_thread] and the number of
    [AsyncioLoopThread] objects constructed so far.  A thread object is
    identified by its rank of construction. *)
Record Registry : Type := mkRegistry {
  _asyncio_loop_thread : option nat;
  threads_created : nat
}.

(** [AsyncioLoopThread.start]; [started] is the answer of
    [self.ev_loop_started.wait(timeout=start_timeout)]. *)
Definition start (started : bool) : res unit :=
  if started then Ret tt
  else Raise (MolerException "Failed to start asyncio loop thread within 0.5 sec").

(** [get_asyncio_loop_thread]: the global is assigned only after [start]
    has returned. *)
Definition get_asyncio_loop_thread (started : bool) (g : Registry)
  : Registry * res nat :=
  match _asyncio_loop_thread g with
  | None =>
      let new_loop_thread := threads_created g in
      let g1 := mkRegistry (_asyncio_loop_thread g) (S (threads_created g)) in
      match start started with
      | Raise e => (g1, Raise e)
      | Ret _ => (mkRegistry (Some new_loop_thread) (threads_created g1),
                  Ret new_loop_thread)
      end
  | Some t => (g, Ret t)
  end.

(** Successive calls; [answers] holds what the started event would answer to
    each of them. *)
Fixpoint calls (answers : list bool) (g : Registry) : Registry * list (res nat) :=
  match answers with
  | [] => (g, [])
  | a :: rest =>
      let '(g1, r) := get_asyncio_loop_thread a g in
      let '(g2, rs) := calls rest g1 in
      (g2, r :: rs)
  end.

(** The number of leading calls whose thread did not start in time. *)
Fixpoint failed_starts (answers : list bool) : nat :=
  match answers with
  | false :: rest => S (failed_starts rest)
  | _ => 0
  end.

End LoopThread.

(* ================================================================== *)
(** * Further vocabulary and scenarios for the configuration loader *)
(* ================================================================== *)

Module ConfigExtraScenarios.
Import Config.
#[local] Open Scope list_scope.

(** Every run of [m] relates the state before to the state after by [R],
    whether it returns or raises. *)
Definition frames {A} (R : CfgState -> CfgState -> Prop) (m : M A) : Prop :=
  forall st st' r, m st = (st', r) -> R st st'.

(** What a loader may do to [loaded_config]: nothing while the object bound
    to [config] is not the recorded one; otherwise it may change the last
    entry, in place. *)
Definition same_history (st st' : CfgState) : Prop :=
  config_aliased st' = config_aliased st
  /\ if config_aliased st
     then removelast (loaded_config st') = removelast (loaded_config st)
          /\ List.length (loaded_config st') = List.length (loaded_config st)
     else loaded_config st' = loaded_config st.

(** From [st] to [st'] effects were only added, all of them satisfying [P]. *)
Definition emits_only (P : effect -> bool) (st st' : CfgState) : Prop :=
  exists new, effects st' = effects st ++ new /\ forallb P new = true.

(** [loaded_config] without the marker of a process that has loaded nothing. *)
Definition history (st : CfgState) : list pyval :=
  if existsb is_marker (loaded_config st) then [] else loaded_config st.

(** The loaders work on the caller's own object: a non-empty dictionary
    passed with [config_type='dict']. *)
Definition mutable_source (config : pyval) (config_type : string) : bool :=
  match config with
  | VDict (_ :: _) => String.eqb config_type "dict"
  | _ => false
  end.

(** The ways in which the arguments of [load_config] are rejected that C10
    does not name: no source at all, an environment variable that is not
    set, and a [config] whose type does not go with [config_type]. *)
Inductive rejects_arguments (environ : string -> option string)
          (config : pyval) (from_env_var : option string) (config_type : string)
  : pyexc -> Prop :=
| no_source_given :
    py_truth config = false ->
    from_env_var = None \/ from_env_var = Some ""%string ->
    rejects_arguments environ config from_env_var config_type
      (WrongUsage "Provide either 'config' or 'from_env_var' parameter (none given).")
| variable_not_set (var : string) :
    py_truth config = false ->
    from_env_var = Some var ->
    var <> ""%string ->
    environ var = None ->
    rejects_arguments environ config from_env_var config_type
      (KeyError ("Environment variable '" ++ var ++ "' is not set")%string)
| yaml_needs_a_file_name :
    py_truth config = true ->
    config_type = "yaml"%string ->
    (forall path, config <> VStr path) ->
    rejects_arguments environ config from_env_var config_type AssertionError
| dict_needs_a_dictionary :
    py_truth config = true ->
    config_type = "dict"%string ->
    (forall items, config <> VDict items) ->
    rejects_arguments environ config from_env_var config_type AssertionError.

(** The effect defines or clones a device called [name]. *)
Definition defines (name : string) (e : effect) : bool :=
  match e with
  | DefineDevice n _ _ _ _ | GetClonedDevice _ n _ => String.eqb name n
  | _ => false
  end.

(** The state reached from [st0]: the device [name] is still known and no
    effect has defined it again. *)
Definition not_redefined (name : string) (st0 st : CfgState) : Prop :=
  In name (devices st)
  /\ exists new, effects st = effects st0 ++ new
                 /\ forallb (fun x => negb (defines name x)) new = true.

(** The keys of the [DEVICES] section that do not name a device. *)
Definition reserved_device_keys : list string :=
  ["DEFAULT_CONNECTION"; "CREATE_AT_STARTUP"; "LOGICAL_TOPOLOGY"].

(** What [load_connection_from_config] may do. *)
Definition is_named_connection_effect (e : effect) : bool :=
  match e with
  | DefineConnection _ _ _ | SetDefaultVariant _ _ => true
  | _ => false
  end.

(** What [load_device_from_config] may do. *)
Definition is_device_effect (e : effect) : bool :=
  match e with
  | SetDefaultConnection _ | DefineDevice _ _ _ _ _ | GetClonedDevice _ _ _
  | CreateAllDevices | AddNeighbourDevice _ _ => true
  | _ => false
  end.

(** A document with a section the loaders do not know. *)
Definition notes_only : pyval :=
  VDict [("NOTES", VStr "lab 7, rack 2")].

(** The variable [MOLER_CONFIG] names the file [/etc/moler.yml]. *)
Definition lab_environ (var : string) : option string :=
  if String.eqb var "MOLER_CONFIG" then Some "/etc/moler.yml"%string else None.

(** A document that defines the device of [lab_config] once more. *)
Definition unix_again : pyval :=
  VDict [("DEVICES",
          VDict [("AT_REMOTE", VDict [("DEVICE_CLASS", VStr "moler.device.atremote.AtRemote")]);
                 ("UNIX", VDict [("DEVICE_CLASS", VStr "moler.device.unixremote.UnixRemote")])])].

End ConfigExtraScenarios.
Import ConfigExtraScenarios.

(* ================================================================== *)
(** * Vocabulary and scenarios for reloading a configuration *)
(* ================================================================== *)

Module ReloadScenarios.
Import Config.
#[local] Open Scope list_scope.

(** A call of [load_config] by its arguments [config], [from_env_var] and
    [config_type]. *)
Definition call : Type := pyval * option string * string.

Section Calls.

Variable compare_objects : pyval -> pyval -> list string.
Variable environ : string -> option string.
Variable yaml_load_file : string -> res pyval.

(** [load_config] called for each of [calls] in turn; a call that raises
    leaves the state it has reached to the next one. *)
Fixpoint load_all (calls : list call) (st : CfgState) : CfgState :=
  match calls with
  | [] => st
  | (config, from_env_var, config_type) :: rest =>
      load_all rest
               (fst (load_config compare_objects environ yaml_load_file
                                 config from_env_var config_type st))
  end.

(** Where [load_config] takes the document [doc] from: the dictionary it is
    given, the YAML file it is given the name of, or the YAML file that an
    environment variable names. *)
Inductive provides (config : pyval) (from_env_var : option string)
          (config_type : string) (doc : pyval) : Prop :=
| given_dictionary (kv : string * pyval) (items : list (string * pyval)) :
    config_type = "dict"%string ->
    config = VDict (kv :: items) ->
    doc = config ->
    provides config from_env_var config_type doc
| named_file (path : string) :
    config_type = "yaml"%string ->
    config = VStr path ->
    isabs path = true ->
    yaml_load_file path = Ret doc ->
    provides config from_env_var config_type doc
| named_by_variable (var path : string) :
    config_type = "dict"%string \/ config_type = "yaml"%string ->
    py_truth config = false ->
    from_env_var = Some var ->
    var <> ""%string ->
    environ var = Some path ->
    isabs path = true ->
    yaml_load_file path = Ret doc ->
    provides config from_env_var config_type doc.

End Calls.

(** [load_config] records this [config] as it was passed: it is not the
    marker string, and the loaders do not work on the caller's own
    dictionary. *)
Definition recorded_as_passed (c : call) : bool :=
  let '(config, _, config_type) := c in
  negb (is_marker config) && negb (mutable_source config config_type).

(** The entries of a [DEVICES] section that are left for the loop over the
    devices, after [DEFAULT_CONNECTION], [CREATE_AT_STARTUP] and
    [LOGICAL_TOPOLOGY] were popped. *)
Definition device_entries (devs : list (string * pyval)) : list (string * pyval) :=
  remove_key "LOGICAL_TOPOLOGY"
             (remove_key "CREATE_AT_STARTUP" (remove_key "DEFAULT_CONNECTION" devs)).

(** The call of [dev_cfg.define_device] for an entry that defines a device
    directly: a dictionary with a [DEVICE_CLASS] and no [CLONED_FROM].
    [default] is [dev_cfg.default_connection]. *)
Definition definition_of (default : pyval) (entry : string * pyval) : option effect :=
  match entry with
  | (device_name, VDict device_def) =>
      match lookup "CLONED_FROM" device_def, lookup "DEVICE_CLASS" device_def with
      | None, Some device_class =>
          Some (DefineDevice
                  device_name device_class
                  (match lookup "CONNECTION_DESC" device_def with
                   | Some x => x
                   | None => default
                   end)
                  (VDict [("CONNECTION_HOPS",
                           match lookup "CONNECTION_HOPS" device_def with
                           | Some x => x
                           | None => VDict []
                           end)])
                  (match lookup "INITIAL_STATE" device_def with
                   | Some x => x
                   | None => VNone
                   end))
      | _, _ => None
      end
  | _ => None
  end.

(** [DeviceFactory.create_all_devices()] when [CREATE_AT_STARTUP] is
    [True]. *)
Definition startup_effects (devs : list (string * pyval)) : list effect :=
  match lookup "CREATE_AT_STARTUP" devs with
  | Some (VBool true) => [CreateAllDevices]
  | _ => []
  end.

(** [/lab.yml] holds [lab_config], [/more.yml] holds [more_devices]; there
    is no other file. *)
Definition two_files (path : string) : res pyval :=
  if String.eqb path "/lab.yml" then Ret lab_config
  else if String.eqb path "/more.yml" then Ret more_devices
  else Raise (OSError ("No such file or directory: '" ++ path ++ "'")).

(** The state after [load_config("/lab.yml")] and [load_config("/more.yml")]
    in a fresh process: the devices [UNIX] and [AT_REMOTE] are defined. *)
Definition two_devices_loaded : CfgState :=
  load_all structural_compare no_environ two_files
           [(VStr "/lab.yml", None, "yaml"%string);
            (VStr "/more.yml", None, "yaml"%string)]
           initial_state.

(** A document that defines no device: it asks for the devices to be
    created and names [AT_REMOTE] as a neighbour of [UNIX]. *)
Definition topology_only : pyval :=
  VDict [("DEVICES",
          VDict [("CREATE_AT_STARTUP", VBool true);
                 ("LOGICAL_TOPOLOGY",
                  VDict [("UNIX", VList [VStr "AT_REMOTE"])])])].

End ReloadScenarios.
Import ReloadScenarios.

(* ================================================================== *)
(** * [util/devices_SM.py] *)
(* ================================================================== *)

Module DevicesSM.
Import Config.
#[local] Open Scope list_scope.

(** What leaves [iterate_over_device_states]: the [ValueError] of
    [list.remove], or an exception of the device. *)
Inductive raised : Type :=
| ValueError (msg : string)
| Propagated (e : pyexc).

(** [l.remove(x)]: the list without the first [x], if there is one. *)
Fixpoint list_remove (x : string) (l : list string) : option (list string) :=
  match l with
  | [] => None
  | y :: rest =>
      if String.eqb x y then Some rest
      else match list_remove x rest with
           | Some rest' => Some (y :: rest')
           | None => None
           end
  end.

Section Device.

(** Everything of the device but its list of states. *)
Variable Internals : Type.

(** [device.goto_state(state)]: the device afterwards and the exception
    raised, if any.  The state machine does not touch [device.states]. *)
Variable goto_state : string -> Internals -> Internals * option pyexc.

(** [str(exc)], as formatted into the message. *)
Variable str : pyexc -> string.

(** [visited] lists the states that [goto_state] was called with, in
    order. *)
Record Device : Type := mkDevice {
  states : list string;
  internals : Internals;
  visited : list string
}.

Definition call_goto_state (state : string) (device : Device)
  : Device * option pyexc :=
  let '(i, r) := goto_state state (internals device) in
  (mkDevice (states device) i (visited device ++ [state]), r).

(** [for target_state in states: try ... except Exception ...] *)
Fixpoint targets (source_state : string) (target_states : list string) (device : Device)
  : Device * option raised :=
  match target_states with
  | [] => (device, None)
  | target_state :: rest =>
      match call_goto_state target_state device with
      | (d1, Some exc) =>
          if is_Exception exc then
            (d1, Some (Propagated
                         (MolerException
                            ("Cannot trigger change state: '" ++ source_state ++ "' -> '"
                             ++ target_state ++ "'" ++ nl ++ str exc))))
          else (d1, Some (Propagated exc))
      | (d1, None) => targets source_state rest d1
      end
  end.

(** [for source_state in states: ...]; [all] is the list the inner loop
    runs over. *)
Fixpoint sources (source_states all : list string) (device : Device)
  : Device * option raised :=
  match source_states with
  | [] => (device, None)
  | source_state :: rest =>
      match call_goto_state source_state device with
      | (d1, Some exc) => (d1, Some (Propagated exc))
      | (d1, None) =>
          match targets source_state all d1 with
          | (d2, Some e) => (d2, Some e)
          | (d2, None) => sources rest all d2
          end
      end
  end.

(** [iterate_over_device_states]: [states] is the device's own list, so
    the removal stays with the device. *)
Definition iterate_over_device_states (device : Device) : Device * option raised :=
  match list_remove "NOT_CONNECTED" (states device) with
  | None => (device, Some (ValueError "list.remove(x): x not in list"))
  | Some states' =>
      sources states' states'
              (mkDevice states' (internals device) (visited device))
  end.

(** [goto_state] called for the states of [l] in order: the device after the
    last call when none of them raises. *)
Fixpoint run_gotos (l : list string) (i : Internals) : option Internals :=
  match l with
  | [] => Some i
  | state :: rest =>
      match goto_state state i with
      | (i1, None) => run_gotos rest i1
      | (_, Some _) => None
      end
  end.

(** What leaves the run when [goto_state state] raises [exc], by the place
    of the call: in the outer loop ([None]) the exception itself; in the
    inner loop of [source_state] the [MolerException] of the handler, which
    [except Exception] reaches for an [Exception] only. *)
Definition report (role : option string) (state : string) (exc : pyexc) : raised :=
  match role with
  | None => Propagated exc
  | Some source_state =>
      if is_Exception exc then
        Propagated (MolerException
                      ("Cannot trigger change state: '" ++ source_state ++ "' -> '"
                       ++ state ++ "'" ++ nl ++ str exc))
      else Propagated exc
  end.

End Device.

(** The calls of [goto_state] of a run in which nothing fails, each with its
    place: [None] for the call of the outer loop, [Some source_state] for a
    call of the inner loop of [source_state].  [all] is the list the inner
    loop runs over. *)
Definition steps_of (all source_states : list string) : list (option string * string) :=
  flat_map (fun source_state =>
              (None, source_state)
                :: map (fun target_state => (Some source_state, target_state)) all)
           source_states.

Definition steps (states : list string) : list (option string * string) :=
  steps_of states states.

(** The transitions of a run in which nothing fails: every state as source,
    followed by every state as target. *)
Definition plan (states : list string) : list string :=
  flat_map (fun source_state => source_state :: states) states.

Section GetDevice.

Variable compare_objects : pyval -> pyval -> list string.
Variable environ : string -> option string.
Variable yaml_load_file : string -> res pyval.

(** [os.path.join(dir_path, os.pardir, os.pardir, 'test', 'resources',
    'device_config.yml')] for a [dir_path] that does not end in a slash, as
    [os.path.dirname(os.path.realpath(__file__))] is unless it is the
    root. *)
Definition device_config_path (dir_path : string) : string :=
  dir_path ++ "/../../test/resources/device_config.yml".

(** [get_device]: the configuration is loaded, then the device is asked
    from [DeviceFactory].  The wiring of [connection] into the device and
    the injection of [device_output] act on objects outside the loader's
    state and are left out; the device is stood for by its name. *)
Definition get_device (dir_path name : string) : M string :=
  load_config compare_objects environ yaml_load_file
              (VStr (device_config_path dir_path)) None "yaml" ;;
  Config.get_device (VStr name).

End GetDevice.

(** A device of three states that refuses every transition into [broken]. *)
Definition picky_goto_state (broken : string) (state : string) (count : nat)
  : nat * option pyexc :=
  if String.eqb state broken
  then (count, Some (DomainError "transition refused"))
  else (S count, None).

(** A device that refuses a transition into a state it has been in. *)
Definition one_way_goto_state (state : string) (seen : list string)
  : list string * option pyexc :=
  if existsb (String.eqb state) seen
  then (seen, Some (DomainError "already there"))
  else (state :: seen, None).

(** A device that serves three transitions and then loses its connection. *)
Definition worn_goto_state (state : string) (count : nat) : nat * option pyexc :=
  if (3 <=? count)%nat
  then (count, Some (OSError "connection lost"))
  else (S count, None).

Definition exception_name (e : pyexc) : string :=
  match e with
  | DomainError msg => msg
  | _ => "exception"
  end.

Definition unix_device : Device nat :=
  mkDevice nat ["NOT_CONNECTED"; "UNIX_LOCAL"; "UNIX_LOCAL_ROOT"] 0%nat [].

Definition one_way_device : Device (list string) :=
  mkDevice (list string) ["UNIX_LOCAL"; "NOT_CONNECTED"; "UNIX_LOCAL_ROOT"] [] [].

End DevicesSM.

(* ================================================================== *)
(** * [util/moler_test.py] *)
(* ================================================================== *)

Module MolerTest.
#[local] Open Scope list_scope.

Set Warnings "-register-all".

(** The exceptions that meet in a test: those of the observers and of the
    code under test, the [MolerStatusException] of [_final_check] with its
    list of exceptions, and the [UnboundLocalError] of a name that was never
    bound. *)
Inductive exc : Type :=
| Observed (e : pyexc)
| MolerStatusException (msg : string) (exceptions : list exc)
| UnboundLocalError (name : string).

(** [isinstance(exc, Exception)] *)
Definition is_Exception (e : exc) : bool :=
  match e with
  | Observed e => Py.is_Exception e
  | MolerStatusException _ _ | UnboundLocalError _ => true
  end.

(** Outcome of a call. *)
Inductive outcome (A : Type) : Type :=
| Return (a : A)
| Throw (e : exc).
Arguments Return {A} a.
Arguments Throw {A} e.

Section Test.

(** The exceptions that connection observers hold, kept by
    [ConnectionObserver] (not among the sources). *)
Variable Store : Type.

(** [ConnectionObserver.get_active_exceptions_in_time(start_time, end_time,
    remove)]: the exceptions it returns and the store afterwards. *)
Variable get_active_exceptions_in_time :
  Z -> Z -> bool -> Store -> list exc * Store.

(** [str(exception)] *)
Variable str : exc -> string.

(** The class attributes of [MolerTest], the messages given to
    [_logger.error], the wall clock and the observers' exceptions. *)
Record State : Type := mkState {
  _last_check_time : Z;
  _was_error : bool;
  _was_steps_end : bool;
  errors : list string;
  clock : Z;
  observers : Store
}.

(** [steps_end] *)
Definition steps_end (st : State) : State :=
  mkState (_last_check_time st) (_was_error st) true (errors st) (clock st)
          (observers st).

(** [log_error] *)
Definition log_error (msg : string) (raise_exception : bool) (st : State)
  : State * outcome unit :=
  let st1 := mkState (_last_check_time st) true (_was_steps_end st)
                     (errors st ++ [msg]) (clock st) (observers st) in
  if raise_exception then (st1, Throw (Observed (MolerException msg)))
  else (st1, Return tt).

(** [_steps_start] *)
Definition _steps_start (st : State) : State :=
  mkState (_last_check_time st) (_was_error st) false (errors st) (clock st)
          (observers st).

(** The loop of [_final_check] over the exceptions of the observers. *)
Fixpoint log_unhandled (exceptions : list exc) (st : State) : State :=
  match exceptions with
  | [] => st
  | exception :: rest =>
      log_unhandled rest
        (fst (log_error ("Unhandled exception: '" ++ str exception ++ "'") false st))
  end.

(** [_final_check].  Both readings of [time.time()] give [clock].  An
    exception object is true. *)
Definition _final_check (caught_exception : option exc) (check_steps_end : bool)
           (st : State) : State * outcome unit :=
  let final_check_time := clock st in
  let '(exceptions, store) :=
    get_active_exceptions_in_time (_last_check_time st) (clock st) true (observers st) in
  let st1 := log_unhandled exceptions
               (mkState (_last_check_time st) (_was_error st) (_was_steps_end st)
                        (errors st) (clock st) store) in
  let unhandled_exceptions :=
    exceptions ++ match caught_exception with Some e => [e] | None => [] end in
  let was_error_in_last_execution := _was_error st1 in
  let st2 := mkState final_check_time false (_was_steps_end st1) (errors st1) (clock st1)
                     (observers st1) in
  let err_msg :=
    ((if check_steps_end && negb (_was_steps_end st2)
      then "Method steps_end() was not called." ++ nl else "")
     ++ (if was_error_in_last_execution
         then "There were error messages in Moler execution. Please check Moler logs for details."
              ++ nl
         else "")
     ++ (if (0 <? List.length unhandled_exceptions)%nat
         then "There were unhandled exceptions in Moler." ++ nl else ""))%string in
  if negb (String.eqb err_msg "") || (0 <? List.length unhandled_exceptions)%nat
  then (st2, Throw (MolerStatusException err_msg unhandled_exceptions))
  else (st2, Return tt).

(** A function object: what calling it does, and its attribute
    [_already_decorated] ([false] when it has none). *)
Record function (A : Type) : Type := mkFunction {
  call : State -> State * outcome A;
  _already_decorated : bool
}.
Arguments call {A} f st.
Arguments _already_decorated {A} f.

(** The closure [wrapped] of [wrapper]. *)
Definition wrapped {A} (method : function A) (check_steps_end : bool) (st : State)
  : State * outcome A :=
  let st0 := _steps_start st in
  match call method st0 with
  | (st1, Return result) =>
      match _final_check None check_steps_end st1 with
      | (st2, Throw e) => (st2, Throw e)
      | (st2, Return _) => (st2, Return result)
      end
  | (st1, Throw exc) =>
      if is_Exception exc then
        match _final_check (Some exc) check_steps_end st1 with
        | (st2, Throw e) => (st2, Throw e)
        | (st2, Return _) => (st2, Throw (UnboundLocalError "result"))
        end
      else
        match _final_check None check_steps_end st1 with
        | (st2, Throw e) => (st2, Throw e)
        | (st2, Return _) => (st2, Throw exc)
        end
  end.

(** [wrapper] *)
Definition wrapper {A} (method : function A) (check_steps_end : bool) : function A :=
  if _already_decorated method then method
  else mkFunction A (wrapped method check_steps_end) true.

(** The three lines of [err_msg], as [_final_check] puts them together. *)
Definition status_message (steps_end_missing was_error unhandled : bool) : string :=
  ((if steps_end_missing then "Method steps_end() was not called." ++ nl else "")
   ++ (if was_error
       then "There were error messages in Moler execution. Please check Moler logs for details."
            ++ nl
       else "")
   ++ (if unhandled then "There were unhandled exceptions in Moler." ++ nl else ""))%string.

End Test.

Arguments call {Store A} f st.
Arguments _already_decorated {Store A} f.

(** Observers that hold no exception. *)
Definition quiet_observers (start_time end_time : Z) (remove : bool) (store : unit)
  : list exc * unit := ([], tt).

(** Observers that hold the exceptions of the store, all within every
    window, and give them up when asked to remove. *)
Definition pending_observers (start_time end_time : Z) (remove : bool)
           (store : list exc) : list exc * list exc :=
  (store, if remove then [] else store).

Definition exception_text (e : exc) : string :=
  match e with
  | Observed (MolerException msg) => msg
  | _ => "exception"
  end.

(** A test that does its steps and says so. *)
Definition passing_test {Store} : function Store Z :=
  mkFunction Store Z (fun st => (steps_end Store st, Return 7%Z)) false.

(** A test that fails an assertion of its own. *)
Definition failing_test {Store} : function Store Z :=
  mkFunction Store Z (fun st => (st, Throw (Observed AssertionError))) false.

Definition clean_state : State unit := mkState unit 0 false false [] 100 tt.

End MolerTest.

(* ================================================================== *)
(** * Properties of the runners *)
(* ================================================================== *)

Module RunnerFacts.
Import AsyncioRunner.
#[local] Open Scope list_scope.

Section Facts.

Variable data_received : Observer -> string -> Observer * option pyexc.
Variable his_remaining_time : Z -> Observer -> option Z -> Z.
Variable exception_stored_if_not_main_thread :
  pyexc -> Observer -> Observer * option pyexc.
Variable default_kind : string.

Abbreviation secure_data_received := (secure_data_received data_received).
Abbreviation feed := (feed default_kind).
Abbreviation feed_round := (feed_round default_kind).
Abbreviation handle_event := (handle_event data_received default_kind).
Abbreviation run_events := (run_events data_received default_kind).
Abbreviation run_loop := (run_loop data_received default_kind).

(** ** Observer transitions *)

Lemma set_exception_running e o :
  done o = false -> state (set_exception e o) = Failed e.
Proof. unfold set_exception; intros ->; reflexivity. Qed.

Lemma set_exception_done e o :
  done o = true -> set_exception e o = o.
Proof. unfold set_exception; intros ->; reflexivity. Qed.

Lemma done_set_exception e o : done (set_exception e o) = true.
Proof.
  unfold set_exception; destruct (done o) eqn:E; [exact E | reflexivity].
Qed.

Lemma done_cancel o : done (cancel o) = true.
Proof.
  unfold cancel; destruct (done o) eqn:E; [exact E | reflexivity].
Qed.

Lemma cancel_not_failed o :
  _exception o = None -> _exception (cancel o) = None.
Proof.
  unfold cancel; destruct (done o); [tauto | reflexivity].
Qed.

(** ** The sink *)

(** C5.  Once the observer is terminal, or once the runner is in shutdown,
    a chunk handed to the sink is dropped: [secure_data_received] returns
    the world as it found it (the same observer, no [data_received] call in
    the trace) and nothing is raised. *)
Theorem sink_discards_after_done_or_shutdown (data : string) (w : World) :
  done (observer w) = true \/ in_shutdown w = true ->
  secure_data_received data w = (w, None).
Proof.
  intros H. unfold AsyncioRunner.secure_data_received.
  destruct H as [-> | ->]; [reflexivity | now rewrite orb_true_r].
Qed.

(** C6, as amended.  When [data_received] raises while a chunk is
    delivered, the sink releases the lock taken for the call.  An exception
    that is an [Exception] is caught: the sink takes the lock again, hands
    the exception to [set_exception] and releases the lock; nothing is
    raised to the connection, whose subscribers and outbound data stay as
    they were, and an observer that [data_received] left non-terminal is
    failed with that exception.  An exception that is no [Exception]
    ([KeyboardInterrupt], [SystemExit]) is not caught: it leaves the sink,
    and nothing is stored in the observer. *)
Theorem sink_stores_exception_of_data_received
        (data : string) (w : World) (o' : Observer) (exc : pyexc) :
  done (observer w) = false ->
  in_shutdown w = false ->
  data_received (observer w) data = (o', Some exc) ->
  (is_Exception exc = true ->
   exists w',
     secure_data_received data w = (w', None)
     /\ observer w' = set_exception exc o'
     /\ trace w' = trace w ++ [LockAcquire; CallDataReceived data; LockRelease;
                               LockAcquire; CallSetException exc; LockRelease]
     /\ connection w' = connection w
     /\ (done o' = false -> state (observer w') = Failed exc))
  /\ (is_Exception exc = false ->
      exists w',
        secure_data_received data w = (w', Some exc)
        /\ observer w' = o'
        /\ trace w' = trace w ++ [LockAcquire; CallDataReceived data; LockRelease]
        /\ connection w' = connection w).
Proof.
  intros Hd Hs Hr. unfold AsyncioRunner.secure_data_received.
  rewrite Hd, Hs. cbn [orb log observer]. rewrite Hr. split; intros He; rewrite He.
  - eexists; split; [reflexivity|].
    cbn. repeat rewrite <- app_assoc. cbn.
    repeat split; auto using set_exception_running.
  - eexists; split; [reflexivity|].
    cbn. repeat rewrite <- app_assoc. cbn. repeat split.
Qed.

(** ** The progress loop *)

Lemma task_secure_data_received data w :
  task (fst (secure_data_received data w)) = task w.
Proof.
  unfold AsyncioRunner.secure_data_received.
  destruct (done (observer w) || in_shutdown w); [reflexivity|].
  cbn [log observer].
  destruct (data_received (observer w) data) as [o' [exc|]]; [|reflexivity].
  destruct (is_Exception exc); reflexivity.
Qed.

Lemma task_feed_finally w : task (feed_finally w) = task w.
Proof. unfold feed_finally; destruct (sink w); reflexivity. Qed.

Lemma observer_feed_finally w : observer (feed_finally w) = observer w.
Proof. unfold feed_finally; destruct (sink w); reflexivity. Qed.

Lemma trace_feed_finally w :
  trace (feed_finally w)
  = trace w ++ match sink w with Some s => [CallUnsubscribe s] | None => [] end.
Proof.
  unfold feed_finally; destruct (sink w); cbn; [reflexivity | now rewrite app_nil_r].
Qed.

Lemma feed_round_expired st t w :
  done (observer w) = false ->
  timeout (observer w) = Some t ->
  (t <= clock w - st)%Z ->
  feed_round st w
  = set_task TaskReturned
      (feed_finally
         (with_lock (call_time_out_observer (Some t) (clock w - st) default_kind) w)).
Proof.
  intros Hd Ht Hle. unfold AsyncioRunner.feed_round. rewrite Hd, Ht.
  apply Z.leb_le in Hle. now rewrite Hle.
Qed.

Lemma feed_round_pending st w :
  done (observer w) = false ->
  match timeout (observer w) with
  | Some t => (clock w - st < t)%Z
  | None => True
  end ->
  feed_round st w
  = set_task (TaskInLoop st) (if in_shutdown w then call_cancel w else w).
Proof.
  intros Hd Ht. unfold AsyncioRunner.feed_round. rewrite Hd.
  destruct (timeout (observer w)) as [t|]; [|reflexivity].
  apply Z.leb_gt in Ht. now rewrite Ht.
Qed.

Lemma feed_at_loop_start w st :
  loop_start w = Some st -> cancel_requested w = false -> feed w = feed_round st w.
Proof.
  unfold loop_start, AsyncioRunner.feed. intros Hs ->.
  destruct (task w); try discriminate; now inversion Hs.
Qed.

(** C1, as amended.  The deadline is checked by the rounds of [feed], and
    each round reads the timeout the observer holds at that moment: let the
    observer be non-terminal and let its timeout be reassigned to [t']
    just before a round.  If [t'] is a value that the time elapsed since
    the start captured by the loop has reached, that round sets the Timeout
    (with the new value) under the observer lock, unsubscribes the sink and
    ends the task; if [t'] is [None] or not yet reached, the round stores
    no exception and the task goes on. *)
Theorem tick_checks_current_timeout (w : World) (st : Z) (t' : option Z) :
  loop_start w = Some st ->
  cancel_requested w = false ->
  done (observer w) = false ->
  let w' := run_events [TimeoutChange t'; Tick] w in
  let elapsed := (clock w - st)%Z in
  if match t' with Some t => (t <=? elapsed)%Z | None => false end
  then
    state (observer w') = Failed (ObserverTimeout t' default_kind elapsed)
    /\ task w' = TaskReturned
    /\ trace w' = trace w
                  ++ [LockAcquire; CallTimeOutObserver t' elapsed default_kind;
                      LockRelease]
                  ++ match sink w with Some s => [CallUnsubscribe s] | None => [] end
  else
    _exception (observer w') = None /\ task w' = TaskInLoop st.
Proof.
  intros Hs Hc Hd w' elapsed. subst w' elapsed.
  cbn [AsyncioRunner.run_events fold_left AsyncioRunner.handle_event].
  set (w0 := set_observer (with_timeout t' (observer w)) w).
  assert (Hs0 : loop_start w0 = Some st).
  { unfold loop_start in *. cbn. destruct (task w); try discriminate; exact Hs. }
  assert (Hd0 : done (observer w0) = false) by exact Hd.
  rewrite (feed_at_loop_start w0 st Hs0 Hc).
  destruct t' as [t|].
  - destruct (t <=? clock w - st)%Z eqn:E.
    + apply Z.leb_le in E.
      rewrite (feed_round_expired st t w0 Hd0 eq_refl E).
      cbn [task set_task observer]. rewrite observer_feed_finally.
      cbn [trace set_task]. rewrite trace_feed_finally.
      cbn. unfold time_out_observer. rewrite (set_exception_running _ _ Hd0).
      repeat rewrite <- app_assoc. cbn. auto.
    + apply Z.leb_gt in E.
      rewrite (feed_round_pending st w0 Hd0 E).
      cbn [task set_task observer]. split; [|reflexivity].
      destruct (in_shutdown w0); cbn; [apply cancel_not_failed|];
        unfold _exception, done in *; cbn; destruct (state (observer w)); congruence.
  - rewrite (feed_round_pending st w0 Hd0 I).
    cbn [task set_task observer]. split; [|reflexivity].
    destruct (in_shutdown w0); cbn; [apply cancel_not_failed|];
      unfold _exception, done in *; cbn; destruct (state (observer w)); congruence.
Qed.

(** ** Admission *)

Lemma prefix_app (a b : string) : String.prefix a (a ++ b)%string = true.
Proof.
  induction a as [|c a IH]; cbn; [now destruct b|].
  destruct (Ascii.ascii_dec c c); [exact IH | congruence].
Qed.

Lemma contains_prefix (needle hay : string) :
  String.prefix needle hay = true -> contains needle hay = true.
Proof. intros H; destruct hay; cbn [contains]; now rewrite H. Qed.

Lemma contains_app (needle a b : string) :
  contains needle (a ++ needle ++ b)%string = true.
Proof.
  induction a as [|c a IH].
  - change (contains needle (needle ++ b)%string = true).
    apply contains_prefix, prefix_app.
  - change (contains needle (String c (a ++ needle ++ b)) = true).
    cbn [contains]. rewrite IH. now destruct (String.prefix _ _).
Qed.

(** The message of the refusal names the soft limit. *)
Lemma limit_message_names_limit env :
  contains (string_of_Z (max_open_files_limit_soft env)) (limit_message env) = true.
Proof.
  unfold limit_message, system_resources_usage.
  exact (contains_app
           _ "Can't run new asyncio loop - ALMOST REACHED MAX OPEN FILES LIMIT (" _).
Qed.

(** C2, as amended.  An observer that is not yet terminal and is submitted
    to [AsyncioRunner] while more than the soft limit less ten descriptors
    are open is refused: [submit] stores, under the observer lock, a
    [MolerException] whose message names the limit, returns a future that
    is already done, and leaves the connection (no subscription, nothing
    sent), the sink and the task as they were. *)
Theorem submit_refuses_near_descriptor_limit (env : Env) (w : World) :
  (max_open_files_limit_soft env - 10 < curr_fds_open env)%Z ->
  done (observer w) = false ->
  exists w',
    submit env w = (w', Ret ImpossibleFuture)
    /\ fut_done ImpossibleFuture w' = true
    /\ state (observer w') = Failed (MolerException (limit_message env))
    /\ contains (string_of_Z (max_open_files_limit_soft env)) (limit_message env) = true
    /\ trace w' = trace w ++ [LockAcquire;
                              CallSetException (MolerException (limit_message env));
                              LockRelease]
    /\ connection w' = connection w
    /\ sink w' = sink w
    /\ task w' = task w.
Proof.
  intros Hlim Hd. unfold submit, check_system_resources_limit, system_resources_usage.
  apply Z.ltb_lt in Hlim. rewrite Hlim.
  eexists; split; [reflexivity|].
  split; [reflexivity|].
  split; [cbn; now rewrite (set_exception_running _ _ Hd)|].
  split; [apply limit_message_names_limit|].
  split.
  { unfold with_lock, call_set_exception.
    cbn [trace log set_observer]. now repeat rewrite <- app_assoc. }
  repeat split.
Qed.


(** ** Waiting *)

Lemma run_loop_done cancel_inner deadline f sched w o :
  task_outcome f w = Some o ->
  run_loop cancel_inner deadline f sched w = (w, o).
Proof. intros H; destruct sched; cbn; now rewrite H. Qed.

Lemma task_feed_round st w :
  let t := task (feed_round st w) in t = TaskReturned \/ t = TaskInLoop st.
Proof.
  unfold AsyncioRunner.feed_round.
  destruct (done (observer w)); [left; reflexivity|].
  destruct (match timeout (observer w) with
            | Some t => (t <=? clock w - st)%Z | None => false end);
    [left | right]; reflexivity.
Qed.

Lemma deliver_cancel_live w :
  task_live (task w) = true ->
  task (deliver_cancel w) = TaskCancelled /\ cancel_requested (deliver_cancel w) = false.
Proof.
  unfold deliver_cancel. destruct (task w); try discriminate; intros _; split; reflexivity.
Qed.

(** An event leaves a live task live, or ends it by return or by
    cancellation. *)
Lemma handle_event_live ev w :
  task_live (task w) = true ->
  let t := task (handle_event ev w) in
  task_live t = true \/ t = TaskReturned \/ t = TaskCancelled.
Proof.
  intros Hl. destruct ev; cbn [AsyncioRunner.handle_event]; try (left; exact Hl).
  - unfold AsyncioRunner.feed. destruct (cancel_requested w).
    + right; right. now apply deliver_cancel_live.
    + destruct (task w) as [ | | |st| | | ] eqn:E; try discriminate.
      * left; reflexivity.
      * destruct (task_feed_round (start_time (observer w)) w) as [-> | ->];
          [right; left | left]; reflexivity.
      * destruct (task_feed_round st w) as [-> | ->];
          [right; left | left]; reflexivity.
  - left. unfold deliver. destruct (sink w) as [s|]; [|exact Hl].
    destruct (existsb (Nat.eqb s) (subscribers (connection w))); [|exact Hl].
    now rewrite task_secure_data_received.
Qed.

(** When the wait of [asyncio.wait_for] on a live feed task ends in
    [TimeoutError], the task has been cancelled. *)
Lemma run_loop_timeout_cancels deadline sched w w1 :
  task_live (task w) = true ->
  run_loop true deadline FeedTask sched w = (w1, LoopRaised TimeoutError) ->
  task w1 = TaskCancelled /\ cancel_requested w1 = false.
Proof.
  revert w. induction sched as [|ev rest IH]; intros w Hl Hrun.
  - cbn in Hrun. destruct (task w) eqn:E; try discriminate;
      destruct (match deadline with Some d => (d <=? clock w)%Z | None => false end);
      try discriminate; inversion Hrun; subst w1;
      apply deliver_cancel_live; cbn; now rewrite E.
  - cbn [AsyncioRunner.run_loop] in Hrun.
    assert (Hnone : task_outcome FeedTask w = None)
      by (cbn; destruct (task w); try discriminate; reflexivity).
    rewrite Hnone in Hrun.
    destruct (match deadline with Some d => (d <=? clock w)%Z | None => false end).
    + inversion Hrun; subst w1.
      unfold AsyncioRunner.feed. cbn [cancel_requested set_cancel_requested].
      now apply deliver_cancel_live.
    + destruct (handle_event_live ev w Hl) as [Hl' | [Hr | Hc]].
      * exact (IH _ Hl' Hrun).
      * rewrite (run_loop_done true deadline FeedTask rest _ Completed) in Hrun
          by (cbn; now rewrite Hr).
        discriminate.
      * rewrite (run_loop_done true deadline FeedTask rest _ (LoopRaised CancelledError))
          in Hrun by (cbn; now rewrite Hc).
        discriminate.
Qed.

Abbreviation wait_for :=
  (AsyncioRunner.wait_for data_received his_remaining_time
                          exception_stored_if_not_main_thread default_kind).
Abbreviation _run_via_asyncio :=
  (AsyncioRunner._run_via_asyncio data_received default_kind).

(** C4.  [AsyncioRunner.wait_for] is called with a timeout [t] (not zero)
    for an observer that is not terminal and whose feed task is live, from
    a thread whose loop is not running.  If driving the loop ends with the
    timeout, and the observer is still not terminal then, [wait_for]
    returns normally, and when it does the observer is failed with the
    Timeout (for [t], kind [await_done]), which was set between taking and
    releasing the observer lock, the future has been told to cancel, and
    the feed task is cancelled. *)
Theorem wait_for_timeout_fails_observer
        (env : Env) (sched : list event) (t : Z) (w w1 : World) :
  done (observer w) = false ->
  t <> 0%Z ->
  task_live (task w) = true ->
  thread_secure_get_event_loop env = Ret false ->
  loop_is_running env = false ->
  _run_via_asyncio FeedTask (Some t)
                   (his_remaining_time (clock w) (observer w) (Some t)) sched w
  = (w1, LoopRaised TimeoutError) ->
  done (observer w1) = false ->
  exists w2,
    wait_for env sched FeedTask (Some t) w = Some (w2, Ret tt)
    /\ state (observer w2)
       = Failed (ObserverTimeout (Some t) "await_done"
                                 (clock w1 - start_time (observer w1)))
    /\ trace w2 = trace w1
                  ++ [LockAcquire;
                      CallTimeOutObserver (Some t)
                                          (clock w1 - start_time (observer w1))
                                          "await_done";
                      LockRelease; CallFutureCancel]
    /\ task w2 = TaskCancelled
    /\ fut_done FeedTask w2 = true.
Proof.
  intros Hd Ht Hl Hloop Hrunning Hrun Hd1.
  assert (Htruthy : truthy (Some t) = true)
    by (cbn; now apply Z.eqb_neq in Ht; rewrite Ht).
  assert (Hc : task w1 = TaskCancelled).
  { unfold AsyncioRunner._run_via_asyncio in Hrun. rewrite Htruthy in Hrun.
    exact (proj1 (run_loop_timeout_cancels _ _ _ _ Hl Hrun)). }
  unfold AsyncioRunner.wait_for.
  rewrite Hd, Hloop, Hrunning, Htruthy, Hrun.
  eexists; split; [reflexivity|].
  unfold wait_for_finally, fut_cancel, with_lock, call_time_out_observer.
  cbn [fut_done task log set_observer observer trace set_submitted_futures
       submitted_futures]. rewrite Hc. cbn [task_done].
  cbn [observer trace task set_submitted_futures log].
  unfold time_out_observer.
  cbn [observer trace task set_observer log].
  rewrite (set_exception_running _ _ Hd1), Hc.
  repeat rewrite <- app_assoc. cbn [app]. auto.
Qed.

(** ** Waiting from inside a running loop *)

Abbreviation wait_for_in_thread :=
  (AsyncioInThreadRunner.wait_for data_received default_kind).

(** C7, as amended.  Let the observer be non-terminal and let the calling
    thread have an event loop that is running.  Neither backend drives or
    awaits the loop: both return whatever the schedule.
    [AsyncioRunner.wait_for] tells the future to cancel and hands WrongUsage
    to its guard [exception_stored_if_not_main_thread], so the caller gets
    WrongUsage exactly when the guard lets it through.
    [AsyncioInThreadRunner.wait_for] does not raise: it stores WrongUsage
    as the observer's exception and returns. *)
Theorem wait_for_inside_running_loop
        (env : Env) (sched : list event) (f : handle) (timeout : option Z) (w : World) :
  done (observer w) = false ->
  thread_secure_get_event_loop env = Ret false ->
  loop_is_running env = true ->
  (let w' := set_submitted_futures
               (remove_first f (submitted_futures w)) (fut_cancel f w) in
   let guarded :=
     exception_stored_if_not_main_thread (wrong_usage_of_wait_for env) (observer w) in
   wait_for env sched f timeout w
   = Some (set_observer (fst guarded) w',
           match snd guarded with Some e => Raise e | None => Ret tt end))
  /\ (exists w',
        wait_for_in_thread env sched f timeout w = Some (w', Ret tt)
        /\ state (observer w') = Failed (wrong_usage_of_wait_for env)).
Proof.
  intros Hd Hloop Hrunning. split.
  - cbv zeta. unfold AsyncioRunner.wait_for. rewrite Hd, Hloop, Hrunning.
    unfold wait_for_finally.
    replace (observer (set_submitted_futures
                         (remove_first f (submitted_futures (fut_cancel f w)))
                         (fut_cancel f w)))
      with (observer w)
      by (unfold fut_cancel; destruct (fut_done f w); reflexivity).
    replace (submitted_futures (fut_cancel f w)) with (submitted_futures w)
      by (unfold fut_cancel; destruct (fut_done f w); reflexivity).
    now destruct (exception_stored_if_not_main_thread _ _).
  - unfold AsyncioInThreadRunner.wait_for. rewrite Hd, Hloop, Hrunning.
    eexists; split; [reflexivity|].
    unfold AsyncioInThreadRunner.wait_for_finally, fut_cancel, call_set_exception.
    destruct (fut_done f _); cbn; now rewrite (set_exception_running _ _ Hd).
Qed.

(** ** Submitting to the loop thread *)

Lemma start_feeder_raises w :
  AsyncioInThreadRunner.start_feeder w
  = (w, AsyncioInThreadRunner.CoroRaised
          (TypeError "feed() got multiple values for argument 'subscribed_data_receiver'")).
Proof. reflexivity. Qed.

(** With a loop thread that runs the posted coroutine, [submit] of the
    in-thread runner raises: the call of [feed] inside [start_feeder] does
    not bind, and [submit] catches [MolerTimeout] only. *)
Lemma submit_in_thread_raises env w :
  loop_thread_responsive env = true ->
  AsyncioInThreadRunner.submit env w
  = (w, Raise (TypeError
                 "feed() got multiple values for argument 'subscribed_data_receiver'")).
Proof.
  intros H. unfold AsyncioInThreadRunner.submit,
    AsyncioInThreadRunner.run_async_coroutine_start_feeder.
  now rewrite H, start_feeder_raises.
Qed.

(** With a loop thread that does not get to the coroutine within the bound
    of [0.5] s, [submit] stores the failure and returns [None]. *)
Lemma submit_in_thread_start_timeout env w :
  loop_thread_responsive env = false ->
  done (observer w) = false ->
  exists w',
    AsyncioInThreadRunner.submit env w = (w', Ret None)
    /\ clock w' = (clock w + 500)%Z
    /\ state (observer w')
       = Failed (MolerException "Failed to start observer feeder within 0.5 sec").
Proof.
  intros H Hd. unfold AsyncioInThreadRunner.submit,
    AsyncioInThreadRunner.run_async_coroutine_start_feeder.
  rewrite H. eexists; split; [reflexivity|]. split; [reflexivity|].
  cbn. now rewrite (set_exception_running _ _ Hd).
Qed.

End Facts.

Lemma sink_discards_witness :
  let w := set_in_shutdown true fresh_world in
  AsyncioRunner.secure_data_received inert_data_received "OK" w = (w, None).
Proof.
  intro w. apply sink_discards_after_done_or_shutdown. right. reflexivity.
Defined.

Lemma sink_stores_exception_witness :
  exists w',
    AsyncioRunner.secure_data_received choking_data_received "boom" fresh_world = (w', None)
    /\ observer w' = set_exception (DomainError "cannot parse") (observer fresh_world)
    /\ trace w' = trace fresh_world
                  ++ [LockAcquire; CallDataReceived "boom"; LockRelease;
                      LockAcquire; CallSetException (DomainError "cannot parse");
                      LockRelease]
    /\ connection w' = connection fresh_world
    /\ (done (observer fresh_world) = false ->
        state (observer w') = Failed (DomainError "cannot parse")).
Proof.
  apply (proj1 (sink_stores_exception_of_data_received choking_data_received
                  "boom" fresh_world (observer fresh_world) (DomainError "cannot parse")
                  eq_refl eq_refl eq_refl));
    reflexivity.
Defined.

(** C6 fails as stated: a [KeyboardInterrupt] raised by [data_received]
    leaves the sink towards the connection, and the observer is left
    running with no exception stored. *)
Lemma sink_lets_keyboard_interrupt_through :
  let out := AsyncioRunner.secure_data_received interrupted_data_received "boom"
                                                fresh_world in
  snd out = Some KeyboardInterrupt
  /\ state (observer (fst out)) = Running
  /\ _exception (observer (fst out)) = None
  /\ ~ In (CallSetException KeyboardInterrupt) (trace (fst out)).
Proof.
  vm_compute. repeat split; try reflexivity.
  intros [H | [H | [H | []]]]; discriminate.
Qed.

Lemma tick_checks_current_timeout_witness :
  let w' := AsyncioRunner.run_events inert_data_received "background_run"
              [TimeoutChange (Some 30%Z); Tick] world_in_loop in
  state (observer w') = Failed (ObserverTimeout (Some 30%Z) "background_run" 50)
  /\ task w' = TaskReturned
  /\ trace w' = trace world_in_loop
                ++ [LockAcquire; CallTimeOutObserver (Some 30%Z) 50 "background_run";
                    LockRelease]
                ++ [CallUnsubscribe 0].
Proof.
  pose proof (tick_checks_current_timeout inert_data_received "background_run"
                world_in_loop 1000 (Some 30%Z) eq_refl eq_refl eq_refl) as H.
  vm_compute in H. vm_compute. exact H.
Defined.

(** C1 fails as stated: nothing checks the deadline when [data_received]
    returns.  The command below is running and subscribed, its deadline of
    [100] ms was passed [100] ms ago, a chunk is delivered to its sink, and
    after the sink has returned the observer is running still. *)
Lemma deadline_not_checked_at_feed_return :
  let w := set_clock 1200 world_in_loop in
  done (observer w) = false
  /\ in_shutdown w = false
  /\ timeout (observer w) = Some 100%Z
  /\ (100 <= clock w - start_time (observer w))%Z
  /\ sink w = Some 0%nat
  /\ subscribers (connection w) = [0%nat]
  /\ state (observer (fst (AsyncioRunner.secure_data_received
                             inert_data_received "PING" w))) = Running
  /\ state (observer (AsyncioRunner.handle_event
                        inert_data_received "background_run" (Data "PING") w)) = Running.
Proof. vm_compute. repeat split; try reflexivity; discriminate. Qed.

Lemma submit_refuses_witness :
  exists w',
    submit crowded_env fresh_world = (w', Ret ImpossibleFuture)
    /\ fut_done ImpossibleFuture w' = true
    /\ state (observer w') = Failed (MolerException (limit_message crowded_env))
    /\ contains (string_of_Z (max_open_files_limit_soft crowded_env))
                (limit_message crowded_env) = true
    /\ trace w' = trace fresh_world
                  ++ [LockAcquire;
                      CallSetException (MolerException (limit_message crowded_env));
                      LockRelease]
    /\ connection w' = connection fresh_world
    /\ sink w' = sink fresh_world
    /\ task w' = task fresh_world.
Proof.
  exact (submit_refuses_near_descriptor_limit crowded_env fresh_world eq_refl eq_refl).
Defined.

(** C2 fails as stated at the edge: with 90 descriptors open the process is
    within 10 of its soft limit of 100, and [submit] admits the observer: it
    subscribes a sink, sends the command and returns the feed task, and the
    observer holds no exception. *)
Lemma submit_admits_at_ten_below_limit :
  let env := mkEnv 90 3 100 None false None true "await_done" "AtCmdAttach" in
  (max_open_files_limit_soft env - curr_fds_open env <= 10)%Z
  /\ snd (submit env fresh_world) = Ret FeedTask
  /\ subscribers (connection (fst (submit env fresh_world))) = [0%nat]
  /\ state (observer (fst (submit env fresh_world))) = Running.
Proof. vm_compute. repeat split; try reflexivity; discriminate. Qed.



Lemma wait_for_timeout_witness :
  let w := fst (submit calm_env fresh_world) in
  let w1 := fst (AsyncioRunner._run_via_asyncio inert_data_received "background_run"
                   FeedTask (Some 20%Z) (remaining (clock w) (observer w) (Some 20%Z))
                   quiet_schedule w) in
  exists w2,
    AsyncioRunner.wait_for inert_data_received remaining reraise "background_run"
                           calm_env quiet_schedule FeedTask (Some 20%Z) w
    = Some (w2, Ret tt)
    /\ state (observer w2)
       = Failed (ObserverTimeout (Some 20%Z) "await_done"
                                 (clock w1 - start_time (observer w1)))
    /\ trace w2 = trace w1
                  ++ [LockAcquire;
                      CallTimeOutObserver (Some 20%Z)
                                          (clock w1 - start_time (observer w1))
                                          "await_done";
                      LockRelease; CallFutureCancel]
    /\ task w2 = TaskCancelled
    /\ fut_done FeedTask w2 = true.
Proof.
  intros w w1.
  assert (Hrun : AsyncioRunner._run_via_asyncio
                   inert_data_received "background_run" FeedTask (Some 20%Z)
                   (remaining (clock w) (observer w) (Some 20%Z)) quiet_schedule w
                 = (w1, LoopRaised TimeoutError)) by (vm_compute; reflexivity).
  assert (Hnz : 20%Z <> 0%Z) by discriminate.
  exact (wait_for_timeout_fails_observer inert_data_received remaining reraise
           "background_run" calm_env quiet_schedule 20 w w1
           eq_refl Hnz eq_refl eq_refl eq_refl Hrun eq_refl).
Defined.

Lemma wait_for_inside_running_loop_witness :
  let w := fst (submit calm_env fresh_world) in
  AsyncioRunner.wait_for inert_data_received remaining reraise "background_run"
                         busy_env quiet_schedule FeedTask None w
  = Some (set_submitted_futures [] (fut_cancel FeedTask w),
          Raise (wrong_usage_of_wait_for busy_env))
  /\ (exists w',
        AsyncioInThreadRunner.wait_for inert_data_received "background_run"
                                       busy_env quiet_schedule FeedTask None w
        = Some (w', Ret tt)
        /\ state (observer w') = Failed (wrong_usage_of_wait_for busy_env)).
Proof.
  intro w.
  pose proof (wait_for_inside_running_loop inert_data_received remaining reraise
                "background_run" busy_env quiet_schedule FeedTask None w
                eq_refl eq_refl eq_refl) as H.
  exact H.
Defined.

(** C7 fails as stated for the loop-thread backend: called while the
    thread's loop is running, its [wait_for] returns normally. *)
Lemma wait_for_in_thread_does_not_raise :
  let w := fst (submit calm_env fresh_world) in
  loop_is_running busy_env = true
  /\ done (observer w) = false
  /\ match AsyncioInThreadRunner.wait_for inert_data_received "background_run"
                                          busy_env quiet_schedule FeedTask None w with
     | Some (_, r) => raises r = false
     | None => False
     end.
Proof. vm_compute. repeat split; try reflexivity; discriminate. Qed.

(** C8 at a failing input: the started command of [fresh_world], a loop
    thread that runs what is posted to it.  [submit] does not wait and does
    not store a failure; it raises the [TypeError] of the call of [feed]. *)
Theorem submit_in_thread_raises_type_error :
  loop_thread_responsive calm_env = true
  /\ AsyncioInThreadRunner.submit calm_env fresh_world
     = (fresh_world,
        Raise (TypeError
                 "feed() got multiple values for argument 'subscribed_data_receiver'")).
Proof. split; reflexivity. Qed.

(** ** The model at work *)

(** Submitting the command subscribes its sink and writes the command line
    to the connection before anything is fed. *)
Example submit_subscribes_and_sends :
  let w := fst (submit calm_env fresh_world) in
  snd (submit calm_env fresh_world) = Ret FeedTask
  /\ subscribers (connection w) = [0%nat]
  /\ outbound (connection w) = [("AT+CGATT=1" ++ nl)%string]
  /\ task w = TaskScheduled.
Proof. vm_compute. repeat split. Qed.

(** With no data, the command times out in the round that first sees its
    deadline of [100] ms reached, and its sink is unsubscribed. *)
Example command_times_out_without_data :
  let w := AsyncioRunner.run_events inert_data_received "background_run"
             [Tick; Tick; Advance 99; Tick; Advance 1; Tick]
             (fst (submit calm_env fresh_world)) in
  state (observer w) = Failed (ObserverTimeout (Some 100%Z) "background_run" 100)
  /\ subscribers (connection w) = []
  /\ task w = TaskReturned.
Proof. vm_compute. repeat split. Qed.

(** After [shutdown] the next round cancels the observer and the round after
    that leaves the loop and unsubscribes. *)
Example shutdown_cancels_and_unsubscribes :
  let w := AsyncioRunner.run_events inert_data_received "background_run"
             [Tick; Tick; Shutdown; Tick; Tick]
             (fst (submit calm_env fresh_world)) in
  state (observer w) = Cancelled
  /\ subscribers (connection w) = []
  /\ task w = TaskReturned.
Proof. vm_compute. repeat split. Qed.

(** A task cancelled during its first sleep never reaches the [finally]
    clause: its sink stays subscribed. *)
Example cancel_in_first_sleep_leaves_sink :
  let w := AsyncioRunner.feed "background_run"
             (fut_cancel FeedTask
                (AsyncioRunner.feed "background_run" (fst (submit calm_env fresh_world)))) in
  task w = TaskCancelled /\ subscribers (connection w) = [0%nat].
Proof. vm_compute. repeat split. Qed.

End RunnerFacts.

(* ================================================================== *)
(** * Properties of the configuration loader *)
(* ================================================================== *)

Module ConfigFacts.
Import Config.
#[local] Open Scope list_scope.

Section Logic.

Variable base : list string.

Lemma extends_refl st : extends base st st.
Proof.
  repeat split; [apply incl_refl | exists []; now rewrite app_nil_r].
Qed.

Lemma extends_trans st1 st2 st3 :
  extends base st1 st2 -> extends base st2 st3 -> extends base st1 st3.
Proof.
  intros (Hi & Hd & n1 & He1 & Hf1) (Hi' & Hd' & n2 & He2 & Hf2).
  repeat split.
  - eapply incl_tran; eassumption.
  - congruence.
  - exists (n1 ++ n2). rewrite He2, He1, app_assoc, forallb_app, Hf1, Hf2. auto.
Qed.

Lemma triple_ret {A} (a : A) (Q : A -> Prop) : Q a -> triple base (ret a) Q.
Proof.
  intros HQ st st' r _ H. inversion H; subst. split; [apply extends_refl | exact HQ].
Qed.

Lemma triple_raise {A} (e : pyexc) (Q : A -> Prop) : triple base (raise e) Q.
Proof.
  intros st st' r _ H. inversion H; subst. split; [apply extends_refl | exact I].
Qed.

Lemma triple_lift {A} (x : res A) : triple base (lift x) anything.
Proof.
  intros st st' r _ H. inversion H; subst. split; [apply extends_refl|].
  now destruct r.
Qed.

Lemma triple_weaken {A} (m : M A) (Q Q' : A -> Prop) :
  triple base m Q -> (forall a, Q a -> Q' a) -> triple base m Q'.
Proof.
  intros Hm Himp st st' r Hb H. destruct (Hm st st' r Hb H) as [He Hr].
  split; [exact He|]. destruct r; auto.
Qed.

Lemma triple_bind {A B} (m : M A) (k : A -> M B) (Q : A -> Prop) (R : B -> Prop) :
  triple base m Q ->
  (forall a, Q a -> triple base (k a) R) ->
  triple base (bind m k) R.
Proof.
  intros Hm Hk st st' r Hb H. unfold bind in H.
  destruct (m st) as [st1 [a|e]] eqn:Em.
  - destruct (Hm st st1 (Ret a) Hb Em) as [He1 HQ].
    assert (Hb1 : incl base (devices st1))
      by (eapply incl_tran; [exact Hb | apply He1]).
    destruct (Hk a HQ st1 st' r Hb1 H) as [He2 HR].
    split; [eapply extends_trans; eassumption | exact HR].
  - inversion H; subst. destruct (Hm st st' (Raise e) Hb Em) as [He1 _].
    split; [exact He1 | exact I].
Qed.

Lemma triple_then {A B} (m : M A) (k : A -> M B) (R : B -> Prop) :
  triple base m anything ->
  (forall a, triple base (k a) R) ->
  triple base (bind m k) R.
Proof. intros Hm Hk. eapply triple_bind; [exact Hm | intros a _; apply Hk]. Qed.

Lemma triple_emit (e : effect) :
  new_device_effect base e = true -> triple base (emit e) anything.
Proof.
  intros He st st' r _ H. inversion H; subst. split; [|exact I].
  repeat split; cbn; [apply incl_refl|].
  exists [e]. cbn. now rewrite He.
Qed.

Lemma triple_get_config : triple base get_config anything.
Proof.
  intros st st' r _ H. inversion H; subst. split; [apply extends_refl | exact I].
Qed.

Lemma triple_get_default_connection : triple base get_default_connection anything.
Proof.
  intros st st' r _ H. inversion H; subst. split; [apply extends_refl | exact I].
Qed.

Lemma triple_known_device n : triple base (known_device n) anything.
Proof.
  intros st st' r _ H. inversion H; subst. split; [apply extends_refl | exact I].
Qed.

Lemma triple_mutate_config c : triple base (mutate_config c) anything.
Proof.
  intros st st' r _ H. inversion H; subst. split; [|exact I].
  repeat split; cbn; [apply incl_refl | exists []; now rewrite app_nil_r].
Qed.

Lemma triple_bind_config c a : triple base (bind_config c a) anything.
Proof.
  intros st st' r _ H. inversion H; subst. split; [|exact I].
  repeat split; cbn; [apply incl_refl | exists []; now rewrite app_nil_r].
Qed.

Lemma triple_set_loaded_config l : triple base (set_loaded_config l) anything.
Proof.
  intros st st' r _ H. inversion H; subst. split; [|exact I].
  repeat split; cbn; [apply incl_refl | exists []; now rewrite app_nil_r].
Qed.

Lemma triple_register_device n : triple base (register_device n) anything.
Proof.
  intros st st' r _ H. inversion H; subst. split; [|exact I].
  repeat split; cbn; [apply incl_appl, incl_refl | exists []; now rewrite app_nil_r].
Qed.

Lemma triple_for_each {A} (xs : list A) (body : A -> M unit) :
  (forall x, In x xs -> triple base (body x) anything) ->
  triple base (for_each xs body) anything.
Proof.
  induction xs as [|x xs IH]; intros Hbody; cbn [for_each].
  - now apply triple_ret.
  - apply triple_then; [apply Hbody; now left|].
    intros _. apply IH. intros y Hy. apply Hbody. now right.
Qed.

End Logic.

Create HintDb triple.

#[local] Hint Resolve triple_raise triple_lift triple_get_config
  triple_get_default_connection triple_known_device triple_mutate_config
  triple_bind_config triple_set_loaded_config triple_register_device : triple.

(** One step through a loader: a primitive, a sequencing, or a branch. *)
Ltac triple_step :=
  lazymatch goal with
  | |- triple _ (bind _ _) _ => apply triple_then; [ | intros ? ]
  | |- triple _ (ret _) _ => apply triple_ret; exact I
  | |- triple _ (emit _) _ => apply triple_emit; reflexivity
  | |- triple _ (for_each _ _) _ => apply triple_for_each; intros ? ?
  | |- triple _ (when _ _) _ => unfold when
  | |- triple _ (if ?b then _ else _) _ => destruct b
  | |- triple _ (match ?x with _ => _ end) _ => destruct x
  | |- triple _ _ _ => solve [auto with triple]
  end.

Ltac triple_auto := repeat triple_step.

Section Loaders.

Variable compare_objects : pyval -> pyval -> list string.
Variable environ : string -> option string.
Variable yaml_load_file : string -> res pyval.

Abbreviation configs_are_same := (configs_are_same compare_objects).
Abbreviation load_config := (load_config compare_objects environ yaml_load_file).
Abbreviation apply_config := (apply_config environ yaml_load_file).
Abbreviation read_yaml_configfile := (read_yaml_configfile yaml_load_file).

(** ** [configs_are_same] *)

Lemma configs_are_same_iff (config_list : list pyval) (config : pyval) :
  configs_are_same config_list config = true
  <-> exists c, In c config_list /\ compare_objects c config = [].
Proof.
  induction config_list as [|c rest IH]; cbn.
  - split; [discriminate | intros (c & [] & _)].
  - destruct (compare_objects c config) eqn:E.
    + split; [intros _; exists c; auto | reflexivity].
    + rewrite IH. split.
      * intros (x & Hin & Hx). exists x. auto.
      * intros (x & [-> | Hin] & Hx); [congruence | exists x; auto].
Qed.

Lemma configs_are_same_false (config_list : list pyval) (config : pyval) :
  (forall c, In c config_list -> compare_objects c config <> []) ->
  configs_are_same config_list config = false.
Proof.
  intros H. destruct (configs_are_same config_list config) eqn:E; [|reflexivity].
  apply configs_are_same_iff in E. destruct E as (c & Hin & Hc).
  now elim (H c Hin).
Qed.

(** ** The device loader adds, and nothing else *)

Section AddOnly.

Variable base : list string.

Lemma triple_get_device name : triple base (get_device name) anything.
Proof. unfold get_device. triple_auto. Qed.

Lemma triple_is_device_already_created name :
  triple base (_is_device_already_created name)
         (fun created => created = false -> fresh base name = true).
Proof.
  intros st st' r Hb H. unfold _is_device_already_created, get_device in H.
  cbn in H. unfold bind, known_device in H.
  destruct (existsb (String.eqb name) (devices st)) eqn:E; cbn in H;
    injection H as <- <-; (split; [apply extends_refl|]).
  - discriminate.
  - intros _. unfold fresh. destruct (existsb (String.eqb name) base) eqn:Eb;
      [|reflexivity].
    apply existsb_exists in Eb. destruct Eb as (x & Hin & Hx).
    assert (existsb (String.eqb name) (devices st) = true)
      by (apply existsb_exists; exists x; auto).
    congruence.
Qed.

Lemma triple_load_topology topology : triple base (_load_topology topology) anything.
Proof.
  unfold _load_topology. triple_auto; apply triple_get_device.
Qed.

Lemma triple_define_devices names : forall cloned,
  all_fresh base cloned ->
  triple base (define_devices names cloned) (all_fresh base).
Proof.
  induction names as [|device_name rest IH]; intros cloned Hc; cbn [define_devices].
  - now apply triple_ret.
  - do 3 (apply triple_then; [auto with triple | intros ?]).
    eapply triple_bind; [apply triple_is_device_already_created|].
    intros created Hfresh. destruct created; [auto with triple|].
    specialize (Hfresh eq_refl).
    apply triple_then; [auto with triple | intros is_clone].
    destruct is_clone.
    + do 2 (apply triple_then; [auto with triple | intros ?]).
      apply IH. intros kv Hin. apply in_app_or in Hin. destruct Hin as [Hin | [<- | []]].
      * apply filter_In in Hin. apply Hc, Hin.
      * exact Hfresh.
    + do 5 (apply triple_then; [auto with triple | intros ?]).
      apply triple_then; [apply triple_emit; exact Hfresh | intros ?].
      apply triple_then; [auto with triple | intros ?].
      now apply IH.
Qed.

Lemma triple_load_device_from_config :
  triple base (load_device_from_config true) anything.
Proof.
  unfold load_device_from_config.
  do 2 (apply triple_then; [auto with triple | intros ?]).
  eapply triple_bind with (Q := fun x => all_fresh base (snd x)).
  - match goal with |- triple _ (if ?b then _ else _) _ => destruct b end;
      [|apply triple_ret; intros ? []].
    apply triple_then; [cbn [negb when]; triple_auto | intros _].
    do 3 (apply triple_then; [auto with triple | intros ?]).
    apply triple_then; [triple_auto | intros ?].
    do 2 (apply triple_then; [auto with triple | intros ?]).
    apply triple_then; [auto with triple | intros [topology devs']].
    do 2 (apply triple_then; [auto with triple | intros ?]).
    eapply triple_bind; [apply triple_define_devices; intros ? []|].
    intros cloned Hcl. now apply triple_ret.
  - intros [[create_at_startup topology] cloned_devices] Hcl. cbn [snd] in Hcl.
    apply triple_then.
    { apply triple_for_each. intros [device_name [cloned_from initial_state]] Hin.
      apply triple_then; [|intros ?; auto with triple].
      apply triple_emit. exact (Hcl _ Hin). }
    intros _. apply triple_then; [triple_auto | intros _].
    apply triple_load_topology.
Qed.

Lemma triple_read_then_bind path :
  triple base (bind (lift (read_yaml_configfile path))
                    (fun read => bind_config read false)) anything.
Proof. triple_auto. Qed.

Lemma triple_apply_config config from_env_var config_type :
  triple base (apply_config config from_env_var config_type true) anything.
Proof.
  unfold Config.apply_config.
  apply triple_then; [auto with triple | intros _].
  apply triple_then; [triple_auto | intros _].
  apply triple_then.
  { destruct (negb (py_truth config)).
    - destruct from_env_var as [var|]; [|auto with triple].
      destruct var; [auto with triple|].
      destruct (environ _); [apply triple_read_then_bind | auto with triple].
    - destruct (String.eqb config_type "yaml").
      + destruct config; auto with triple. apply triple_read_then_bind.
      + destruct config; auto with triple. now apply triple_ret. }
  intros _. cbn [negb when].
  apply triple_then; [now apply triple_ret | intros _].
  apply triple_load_device_from_config.
Qed.

End AddOnly.

Lemma new_device_effect_not_logger_nor_connection base new :
  forallb (new_device_effect base) new = true ->
  forallb (fun e => negb (is_logger_effect e) && negb (is_connection_effect e)) new
  = true.
Proof.
  intros H. rewrite forallb_forall in *. intros e Hin. specialize (H e Hin).
  destruct e; try discriminate; reflexivity.
Qed.

Lemma existsb_is_marker_snoc (l : list pyval) (config : pyval) :
  existsb is_marker l = false ->
  is_marker config = false ->
  existsb is_marker (l ++ [config]) = false.
Proof. intros Hl Hc. rewrite existsb_app, Hl. cbn. now rewrite Hc. Qed.

(** A call that finds its configuration recorded returns at once. *)
Lemma load_config_recorded (st : CfgState) (config config' : pyval)
      (from_env_var : option string) (config_type : string) :
  existsb is_marker (loaded_config st) = false ->
  In config (loaded_config st) ->
  compare_objects config config' = [] ->
  load_config config' from_env_var config_type st = (st, Ret tt).
Proof.
  intros Hm Hin Hsame. unfold Config.load_config. rewrite Hm.
  assert (configs_are_same (loaded_config st) config' = true) as ->
    by (apply configs_are_same_iff; eauto).
  reflexivity.
Qed.


End Loaders.


(** What is recorded for a dictionary is the caller's object itself, and the
    loaders pop keys from it.  After [lab_config] has been loaded as a
    dictionary, the recorded entry is no longer [lab_config]: loading the
    recorded object again returns at once, while loading a new copy of the
    original document is taken for a different configuration and fails on
    the device that exists already. *)
Lemma recorded_dictionary_is_the_mutated_object :
  let st1 := fst (load lab_config None "dict" initial_state) in
  snd (load lab_config None "dict" initial_state) = Ret tt
  /\ loaded_config st1 <> [lab_config]
  /\ load (last (loaded_config st1) VNone) None "dict" st1 = (st1, Ret tt)
  /\ snd (load lab_config None "dict" st1)
     = Raise (WrongUsage
                "Requested to create device 'UNIX' but device with such name is already created.").
Proof. vm_compute. repeat split; try reflexivity; discriminate. Qed.

End ConfigFacts.

(* ================================================================== *)
(** * Further properties of the runners *)
(* ================================================================== *)

Module RunnerExtras.
Import AsyncioRunner RunnerFacts.
#[local] Open Scope list_scope.

Section Extras.

Variable data_received : Observer -> string -> Observer * option pyexc.
Variable his_remaining_time : Z -> Observer -> option Z -> Z.
Variable exception_stored_if_not_main_thread :
  pyexc -> Observer -> Observer * option pyexc.
Variable default_kind : string.

Abbreviation secure_data_received := (secure_data_received data_received).
Abbreviation feed := (feed default_kind).
Abbreviation feed_round := (feed_round default_kind).
Abbreviation handle_event := (handle_event data_received default_kind).
Abbreviation run_events := (run_events data_received default_kind).
Abbreviation run_loop := (run_loop data_received default_kind).
Abbreviation wait_for :=
  (AsyncioRunner.wait_for data_received his_remaining_time
                          exception_stored_if_not_main_thread default_kind).
Abbreviation wait_for_in_thread :=
  (AsyncioInThreadRunner.wait_for data_received default_kind).

Lemma done_state o o' : state o' = state o -> done o' = done o.
Proof. unfold done. now intros ->. Qed.

Lemma observer_start_feeding w : observer (_start_feeding w) = observer w.
Proof. unfold _start_feeding. cbn. now destruct (command_string (observer w)). Qed.

Lemma handle_event_keeps_terminal_state ev w :
  done (observer w) = true ->
  state (observer (handle_event ev w)) = state (observer w).
Proof.
  intros Hd. destruct ev; cbn [AsyncioRunner.handle_event]; try reflexivity.
  - unfold AsyncioRunner.feed, deliver_cancel.
    destruct (cancel_requested w).
    + destruct (task w); cbn; rewrite ?observer_feed_finally; reflexivity.
    + destruct (task w); cbn; try reflexivity.
      * destruct (sink w); [reflexivity | now rewrite observer_start_feeding].
      * unfold AsyncioRunner.feed_round. rewrite Hd. cbn.
        now rewrite observer_feed_finally.
      * unfold AsyncioRunner.feed_round. rewrite Hd. cbn.
        now rewrite observer_feed_finally.
  - unfold deliver. destruct (sink w); [|reflexivity].
    destruct (existsb _ _); [|reflexivity].
    unfold AsyncioRunner.secure_data_received. now rewrite Hd.
  - cbn. unfold cancel. now rewrite Hd.
Qed.

(** Once the observer is done (it has a result, an exception or was
    cancelled), nothing the runner does changes its state: no tick of
    [feed], no chunk of data, no change of its timeout, no [shutdown] and no
    later [cancel] turns a result into a timeout or a timeout into a
    cancellation. *)
Theorem terminal_state_survives_every_event (evs : list event) (w : World) :
  done (observer w) = true ->
  state (observer (run_events evs w)) = state (observer w).
Proof.
  revert w. induction evs as [|ev evs IH]; intros w Hd; [reflexivity|].
  change (run_events (ev :: evs) w) with (run_events evs (handle_event ev w)).
  pose proof (handle_event_keeps_terminal_state ev w Hd) as Hs.
  rewrite <- Hs. apply IH. rewrite (done_state _ _ Hs). exact Hd.
Qed.

Lemma data_calls_feed w :
  filter is_data_call (trace (feed w)) = filter is_data_call (trace w).
Proof.
  unfold AsyncioRunner.feed, deliver_cancel, AsyncioRunner.feed_round, feed_finally,
    _start_feeding, with_lock, call_time_out_observer, call_cancel.
  destruct (cancel_requested w); destruct (task w); cbn; try reflexivity;
    destruct (sink w); cbn; rewrite ?filter_app; cbn; rewrite ?app_nil_r;
    try reflexivity;
    try (destruct (command_string (observer w)); cbn; rewrite ?filter_app; cbn;
         rewrite ?app_nil_r; reflexivity);
    destruct (done (observer w)); cbn; rewrite ?filter_app; cbn; rewrite ?app_nil_r;
    try reflexivity;
    destruct (timeout (observer w)) as [t|]; cbn;
    try destruct (t <=? _)%Z; cbn;
    destruct (in_shutdown w); cbn; rewrite ?filter_app; cbn; rewrite ?app_nil_r;
    reflexivity.
Qed.

Lemma in_shutdown_feed_finally w : in_shutdown (feed_finally w) = in_shutdown w.
Proof. unfold feed_finally. now destruct (sink w). Qed.

Lemma in_shutdown_feed_round st w : in_shutdown (feed_round st w) = in_shutdown w.
Proof.
  unfold AsyncioRunner.feed_round.
  destruct (done (observer w)); cbn; [apply in_shutdown_feed_finally|].
  destruct (match timeout (observer w) with
            | Some t => (t <=? clock w - st)%Z | None => false end); cbn.
  - now rewrite in_shutdown_feed_finally.
  - now destruct (in_shutdown w) eqn:E.
Qed.

Lemma in_shutdown_feed w : in_shutdown (feed w) = in_shutdown w.
Proof.
  unfold AsyncioRunner.feed, deliver_cancel.
  destruct (cancel_requested w); destruct (task w); cbn;
    rewrite ?in_shutdown_feed_finally, ?in_shutdown_feed_round; try reflexivity.
  destruct (sink w); [reflexivity|]. unfold _start_feeding. cbn.
  now destruct (command_string (observer w)).
Qed.

Lemma handle_event_in_shutdown ev w :
  in_shutdown w = true ->
  in_shutdown (handle_event ev w) = true
  /\ filter is_data_call (trace (handle_event ev w)) = filter is_data_call (trace w).
Proof.
  intros Hs. destruct ev; cbn [AsyncioRunner.handle_event]; try (split; [exact Hs | reflexivity]).
  - rewrite in_shutdown_feed, data_calls_feed. auto.
  - unfold deliver. destruct (sink w); [|auto].
    destruct (existsb _ _); [|auto].
    unfold AsyncioRunner.secure_data_received. rewrite Hs, orb_true_r. auto.
  - split; [reflexivity|]. reflexivity.
  - split; [exact Hs|]. cbn. rewrite filter_app. cbn. now rewrite app_nil_r.
Qed.

(** [shutdown] is final: the runner stays in shutdown whatever happens
    afterwards, and from then on the observer's [data_received] is never
    called again, although the sink may still be subscribed. *)
Theorem nothing_is_fed_after_shutdown (evs : list event) (w : World) :
  in_shutdown w = true ->
  in_shutdown (run_events evs w) = true
  /\ filter is_data_call (trace (run_events evs w)) = filter is_data_call (trace w).
Proof.
  revert w. induction evs as [|ev evs IH]; intros w Hs; [auto|].
  change (run_events (ev :: evs) w) with (run_events evs (handle_event ev w)).
  destruct (handle_event_in_shutdown ev w Hs) as [Hs' Hd'].
  destruct (IH _ Hs') as [H1 H2]. split; [exact H1 | now rewrite H2].
Qed.

Lemma unsubscribe_removes s c :
  existsb (Nat.eqb s) (subscribers (unsubscribe s c)) = false.
Proof.
  unfold unsubscribe. cbn. induction (subscribers c) as [|x l IH]; [reflexivity|].
  cbn. destruct (Nat.eqb s x) eqn:E; cbn; [exact IH | now rewrite E].
Qed.

Lemma feed_finally_unsubscribes w : sink_subscribed (feed_finally w) = false.
Proof.
  unfold sink_subscribed, feed_finally. destruct (sink w) as [s|] eqn:E; cbn.
  - rewrite E. apply unsubscribe_removes.
  - now rewrite E.
Qed.

Lemma run_events_cons ev evs w :
  run_events (ev :: evs) w = run_events evs (handle_event ev w).
Proof. reflexivity. Qed.

Lemma run_events_nil w : run_events [] w = w.
Proof. reflexivity. Qed.

Lemma feed_round_after_shutdown st w :
  feed_round st (shutdown w)
  = if done (observer w) then set_task TaskReturned (feed_finally (shutdown w))
    else if deadline_reached st w
         then set_task TaskReturned
                (feed_finally
                   (with_lock (call_time_out_observer (timeout (observer w))
                                                      (clock w - st) default_kind)
                              (shutdown w)))
         else set_task (TaskInLoop st) (call_cancel (shutdown w)).
Proof. reflexivity. Qed.

Lemma observer_shutdown w : observer (shutdown w) = observer w.
Proof. destruct w; reflexivity. Qed.
Lemma observer_set_task t w : observer (set_task t w) = observer w.
Proof. destruct w; reflexivity. Qed.
Lemma observer_log a w : observer (log a w) = observer w.
Proof. destruct w; reflexivity. Qed.
Lemma observer_set_observer o w : observer (set_observer o w) = o.
Proof. destruct w; reflexivity. Qed.
Lemma observer_with_lock body w : observer (with_lock body w) = observer (body (log LockAcquire w)).
Proof. unfold with_lock. apply observer_log. Qed.

Lemma loop_start_shutdown w : loop_start (shutdown w) = loop_start w.
Proof. destruct w; reflexivity. Qed.

Lemma cancel_requested_shutdown w : cancel_requested (shutdown w) = cancel_requested w.
Proof. destruct w; reflexivity. Qed.

Lemma in_shutdown_shutdown w : in_shutdown (shutdown w) = true.
Proof. destruct w; reflexivity. Qed.

(** After [shutdown], the next round of a feed task that is in its loop
    ends the observer: an observer that is done stays as it is, one whose
    deadline has passed fails with the timeout (the deadline is checked
    before the shutdown flag), and any other is cancelled. *)
Theorem shutdown_ends_observer_in_one_round (w : World) (st : Z) :
  loop_start w = Some st ->
  cancel_requested w = false ->
  let w' := run_events [Shutdown; Tick] w in
  done (observer w') = true
  /\ state (observer w')
     = if done (observer w) then state (observer w)
       else if deadline_reached st w
            then Failed (ObserverTimeout (timeout (observer w)) default_kind (clock w - st))
            else Cancelled.
Proof.
  intros Hs Hc w'. subst w'.
  rewrite !run_events_cons, run_events_nil.
  cbn [AsyncioRunner.handle_event].
  assert (Hs' : loop_start (shutdown w) = Some st) by (now rewrite loop_start_shutdown).
  assert (Hc' : cancel_requested (shutdown w) = false)
    by (now rewrite cancel_requested_shutdown).
  rewrite (feed_at_loop_start default_kind (shutdown w) st Hs' Hc').
  rewrite feed_round_after_shutdown.
  destruct (done (observer w)) eqn:Hd.
  - rewrite observer_set_task, observer_feed_finally, observer_shutdown. auto.
  - destruct (deadline_reached st w).
    + rewrite observer_set_task, observer_feed_finally, observer_with_lock.
      unfold call_time_out_observer. rewrite observer_set_observer.
      unfold time_out_observer. rewrite observer_log, observer_shutdown.
      rewrite done_set_exception, (set_exception_running _ _ Hd). auto.
    + rewrite observer_set_task. unfold call_cancel. rewrite observer_set_observer, observer_shutdown.
      rewrite done_cancel. unfold cancel. rewrite Hd. auto.
Qed.

Lemma cancel_requested_feed_finally w :
  cancel_requested (feed_finally w) = cancel_requested w.
Proof. unfold feed_finally. now destruct (sink w). Qed.

Lemma leaving_the_loop w :
  cancel_requested w = false ->
  left_loop (set_task TaskReturned (feed_finally w)).
Proof.
  intros Hc. split; [reflexivity|]. split.
  - exact (feed_finally_unsubscribes w).
  - cbn. now rewrite cancel_requested_feed_finally.
Qed.

Lemma feed_after_left_loop w : left_loop w -> feed w = w.
Proof.
  intros (Ht & _ & Hc). unfold AsyncioRunner.feed. now rewrite Hc, Ht.
Qed.

(** After [shutdown], two rounds of a feed task that is in its loop are
    enough for the task to return with the sink unsubscribed and the
    observer done: the round that cancels the observer does not leave the
    loop, the next one does. *)
Theorem shutdown_reclaims_feed_task (w : World) (st : Z) :
  loop_start w = Some st ->
  cancel_requested w = false ->
  let w' := run_events [Shutdown; Tick; Tick] w in
  task w' = TaskReturned
  /\ sink_subscribed w' = false
  /\ done (observer w') = true.
Proof.
  intros Hs Hc w'. subst w'.
  rewrite !run_events_cons, run_events_nil.
  cbn [AsyncioRunner.handle_event].
  assert (Hs' : loop_start (shutdown w) = Some st) by (now rewrite loop_start_shutdown).
  assert (Hc' : cancel_requested (shutdown w) = false)
    by (now rewrite cancel_requested_shutdown).
  rewrite (feed_at_loop_start default_kind (shutdown w) st Hs' Hc').
  rewrite feed_round_after_shutdown.
  destruct (done (observer w)) eqn:Hd; [|destruct (deadline_reached st w)].
  - pose proof (leaving_the_loop _ Hc') as Hl.
    rewrite (feed_after_left_loop _ Hl). destruct Hl as (Ht & Hu & _).
    split; [exact Ht | split; [exact Hu|]].
    now rewrite observer_set_task, observer_feed_finally, observer_shutdown.
  - match goal with |- context [set_task TaskReturned (feed_finally ?x)] =>
      assert (Hl : left_loop (set_task TaskReturned (feed_finally x)))
        by (apply leaving_the_loop; unfold with_lock, call_time_out_observer;
            now destruct w) end.
    rewrite (feed_after_left_loop _ Hl). destruct Hl as (Ht & Hu & _).
    split; [exact Ht | split; [exact Hu|]].
    rewrite observer_set_task, observer_feed_finally, observer_with_lock.
    unfold call_time_out_observer. rewrite observer_set_observer.
    unfold time_out_observer. apply done_set_exception.
  - set (w1 := set_task (TaskInLoop st) (call_cancel (shutdown w))).
    assert (H1 : loop_start w1 = Some st) by (subst w1; now destruct w).
    assert (Hc1 : cancel_requested w1 = false)
      by (subst w1; unfold call_cancel; destruct w; exact Hc).
    rewrite (feed_at_loop_start default_kind w1 st H1 Hc1).
    unfold AsyncioRunner.feed_round.
    assert (Hd1 : done (observer w1) = true).
    { subst w1. rewrite observer_set_task. unfold call_cancel.
      rewrite observer_set_observer. apply done_cancel. }
    rewrite Hd1.
    destruct (leaving_the_loop w1 Hc1) as (Ht & Hu & _).
    split; [exact Ht | split; [exact Hu|]].
    now rewrite observer_set_task, observer_feed_finally.
Qed.

Lemma done_feed_round_returned st w :
  task (feed_round st w) = TaskReturned -> done (observer (feed_round st w)) = true.
Proof.
  unfold AsyncioRunner.feed_round.
  destruct (done (observer w)) eqn:Hd.
  - intros _. cbn. now rewrite observer_feed_finally.
  - destruct (match timeout (observer w) with
              | Some t => (t <=? clock w - st)%Z | None => false end).
    + intros _. cbn. rewrite observer_feed_finally. cbn. apply done_set_exception.
    + discriminate.
Qed.

Lemma task_deliver chunk w :
  task (deliver data_received chunk w) = task w.
Proof.
  unfold deliver. destruct (sink w); [|reflexivity].
  destruct (existsb _ _); [|reflexivity].
  apply (task_secure_data_received data_received).
Qed.

(** A live task that an event makes return leaves a terminal observer. *)
Lemma handle_event_returned_done ev w :
  task_live (task w) = true ->
  task (handle_event ev w) = TaskReturned ->
  done (observer (handle_event ev w)) = true.
Proof.
  intros Hl. destruct ev; cbn [AsyncioRunner.handle_event].
  - cbn. intros E. rewrite E in Hl. discriminate.
  - unfold AsyncioRunner.feed. destruct (cancel_requested w).
    + destruct (deliver_cancel_live w Hl) as [-> _]. discriminate.
    + destruct (task w) as [ | | |st| | | ]; try discriminate.
      * apply done_feed_round_returned.
      * apply done_feed_round_returned.
  - rewrite task_deliver. intros E. rewrite E in Hl. discriminate.
  - cbn. intros E. rewrite E in Hl. discriminate.
  - cbn. intros E. rewrite E in Hl. discriminate.
  - cbn. intros E. rewrite E in Hl. discriminate.
Qed.

(** Driving the loop for a live feed task ends only with the task returned
    and the observer terminal, with the task cancelled, with the timeout of
    the waiter, or with the schedule. *)
Lemma run_loop_live_outcomes cancel_inner deadline sched w w1 o :
  task_live (task w) = true ->
  run_loop cancel_inner deadline FeedTask sched w = (w1, o) ->
  match o with
  | Completed => done (observer w1) = true
  | LoopRaised e => e = CancelledError \/ e = TimeoutError
  | Exhausted => True
  end.
Proof.
  revert w. induction sched as [|ev rest IH]; intros w Hl Hrun.
  - cbn in Hrun. destruct (task w) eqn:E; try discriminate;
      destruct (match deadline with Some d => (d <=? clock w)%Z | None => false end);
      inversion Hrun; subst; auto.
  - cbn [AsyncioRunner.run_loop] in Hrun.
    assert (Hnone : task_outcome FeedTask w = None)
      by (cbn; destruct (task w); try discriminate; reflexivity).
    rewrite Hnone in Hrun.
    destruct (match deadline with Some d => (d <=? clock w)%Z | None => false end).
    + inversion Hrun; subst. auto.
    + destruct (handle_event_live data_received default_kind ev w Hl) as [Hl' | [Hr | Hc]].
      * exact (IH _ Hl' Hrun).
      * rewrite (run_loop_done data_received default_kind
                   cancel_inner deadline FeedTask rest _ Completed) in Hrun
          by (cbn; now rewrite Hr).
        inversion Hrun; subst. now apply handle_event_returned_done.
      * rewrite (run_loop_done data_received default_kind
                   cancel_inner deadline FeedTask rest _ (LoopRaised CancelledError))
          in Hrun by (cbn; now rewrite Hc).
        inversion Hrun; subst. auto.
Qed.

Lemma observer_fut_cancel f w : observer (fut_cancel f w) = observer w.
Proof. unfold fut_cancel. now destruct (fut_done f w). Qed.

Lemma observer_wait_for_finally f w :
  observer (AsyncioRunner.wait_for_finally f w) = observer w.
Proof. unfold AsyncioRunner.wait_for_finally. cbn. apply observer_fut_cancel. Qed.

(** [AsyncioRunner.wait_for], called from synchronous code for a live
    feed task: whenever it returns, it returns normally and the observer is
    done, be it by result, by timeout or by cancellation. *)
Theorem wait_for_returns_with_terminal_observer
        (env : Env) (sched : list event) (timeout : option Z) (w w' : World)
        (r : res unit) :
  task_live (task w) = true ->
  thread_secure_get_event_loop env = Ret false ->
  loop_is_running env = false ->
  wait_for env sched FeedTask timeout w = Some (w', r) ->
  r = Ret tt /\ done (observer w') = true.
Proof.
  intros Hl Hloop Hrunning Hw. unfold AsyncioRunner.wait_for in Hw.
  destruct (done (observer w)) eqn:Hd.
  - injection Hw as <- <-. split; [reflexivity|].
    destruct (task_done (task w)); [exact Hd | now rewrite observer_fut_cancel].
  - rewrite Hloop, Hrunning in Hw.
    match type of Hw with
    | match ?run with _ => _ end = _ => destruct run as [w1 o] eqn:Hrun
    end.
    assert (Ho := Hrun). unfold AsyncioRunner._run_via_asyncio in Ho.
    assert (Hout : match o with
                   | Completed => done (observer w1) = true
                   | LoopRaised e => e = CancelledError \/ e = TimeoutError
                   | Exhausted => True
                   end).
    { destruct (truthy timeout); exact (run_loop_live_outcomes _ _ _ _ _ _ Hl Ho). }
    destruct o as [ | e | ]; [ | | discriminate].
    + inversion Hw; subst. split; [reflexivity|].
      now rewrite observer_wait_for_finally.
    + destruct Hout as [-> | ->]; inversion Hw; subst; (split; [reflexivity|]);
        rewrite observer_wait_for_finally; cbn.
      * apply done_cancel.
      * unfold time_out_observer. apply done_set_exception.
Qed.

Lemma run_loop_deadline_passed cancel_inner d f sched w :
  task_outcome f w = None ->
  (d <= clock w)%Z ->
  run_loop cancel_inner (Some d) f sched w
  = ((if cancel_inner then feed (set_cancel_requested true w) else w),
     LoopRaised TimeoutError).
Proof.
  intros Hn Hd. apply Z.leb_le in Hd. destruct sched; cbn; now rewrite Hn, Hd.
Qed.

Lemma cancelled_task_is_inert ev w :
  task w = TaskCancelled ->
  cancel_requested w = false ->
  task (handle_event ev w) = TaskCancelled
  /\ cancel_requested (handle_event ev w) = false
  /\ connection (handle_event ev w) = connection w.
Proof.
  intros Ht Hc. destruct ev; cbn; auto.
  - unfold AsyncioRunner.feed. rewrite Hc, Ht. auto.
  - unfold deliver. destruct (sink w); auto. destruct (existsb _ _); auto.
    unfold AsyncioRunner.secure_data_received.
    destruct (done (observer w) || in_shutdown w); auto.
    cbn [log observer].
    destruct (data_received (observer w) chunk) as [o' [exc|]]; auto.
    destruct (is_Exception exc); auto.
Qed.

Lemma cancelled_task_keeps_connection evs : forall w,
  task w = TaskCancelled ->
  cancel_requested w = false ->
  connection (run_events evs w) = connection w.
Proof.
  induction evs as [|ev evs IH]; intros w Ht Hc; [reflexivity|].
  change (AsyncioRunner.run_events data_received default_kind (ev :: evs) w)
    with (run_events evs (handle_event ev w)).
  destruct (cancelled_task_is_inert ev w Ht Hc) as (Ht' & Hc' & Hconn).
  rewrite (IH _ Ht' Hc'). exact Hconn.
Qed.

(** A wait with its own bound that has already run out when [wait_for] is
    called, while the feed task has not yet entered its loop: the observer
    fails with the waiter's timeout, the task is cancelled outside the [try]
    of [feed], so its [finally] never runs and the connection keeps the sink
    subscribed, whatever happens afterwards. *)
Theorem wait_timeout_before_loop_keeps_subscription
        (env : Env) (sched : list event) (t : Z) (w : World) :
  task w = TaskScheduled \/ task w = TaskFirstSleep ->
  done (observer w) = false ->
  t <> 0%Z ->
  thread_secure_get_event_loop env = Ret false ->
  loop_is_running env = false ->
  (his_remaining_time (clock w) (observer w) (Some t) <= 0)%Z ->
  exists w',
    wait_for env sched FeedTask (Some t) w = Some (w', Ret tt)
    /\ state (observer w')
       = Failed (ObserverTimeout (Some t) "await_done"
                                 (clock w - start_time (observer w)))
    /\ task w' = TaskCancelled
    /\ forall later, connection (run_events later w') = connection w.
Proof.
  intros Ht Hd Hnz Hloop Hrunning Hrem.
  assert (Htruthy : truthy (Some t) = true)
    by (cbn; now apply Z.eqb_neq in Hnz; rewrite Hnz).
  assert (Hn : task_outcome FeedTask w = None)
    by (cbn; destruct Ht as [-> | ->]; reflexivity).
  unfold AsyncioRunner.wait_for, AsyncioRunner._run_via_asyncio.
  rewrite Hd, Hloop, Hrunning, Htruthy.
  rewrite (run_loop_deadline_passed true _ FeedTask sched w Hn) by lia.
  eexists; split; [reflexivity|].
  assert (Hafter : forall w0, task w0 = TaskCancelled -> cancel_requested w0 = false ->
                              connection w0 = connection w ->
                              forall later, connection (run_events later w0) = connection w)
    by (intros w0 H1 H2 H3 later; now rewrite cancelled_task_keeps_connection).
  unfold AsyncioRunner.feed, deliver_cancel, AsyncioRunner.wait_for_finally, fut_cancel,
    with_lock, call_time_out_observer, time_out_observer.
  cbn [cancel_requested set_cancel_requested task].
  destruct Ht as [-> | ->]; cbn; rewrite (set_exception_running _ _ Hd);
    (split; [reflexivity|]); (split; [reflexivity|]);
    apply Hafter; reflexivity.
Qed.

Lemma subscribe_adds s c : existsb (Nat.eqb s) (subscribers (subscribe s c)) = true.
Proof.
  unfold subscribe. destruct (existsb (Nat.eqb s) (subscribers c)) eqn:E; [exact E|].
  cbn. rewrite existsb_app. cbn. now rewrite Nat.eqb_refl, orb_true_r.
Qed.

Lemma start_feeding_facts w :
  let w' := _start_feeding w in
  sink_subscribed w' = true
  /\ observer w' = observer w
  /\ in_shutdown w' = in_shutdown w
  /\ outbound (connection w')
     = outbound (connection w)
       ++ match command_string (observer w) with
          | Some c => [(c ++ nl)%string]
          | None => []
          end.
Proof.
  unfold _start_feeding, sink_subscribed. cbn.
  destruct (command_string (observer w)); cbn; rewrite subscribe_adds;
    repeat split; try reflexivity.
  - unfold subscribe. now destruct (existsb _ _).
  - unfold subscribe. destruct (existsb _ _); cbn; now rewrite app_nil_r.
Qed.

(** After a successful [submit] the data path is open before the feed
    task has run at all: the sink is subscribed, a command's string has been
    sent with a newline, and a chunk that the connection delivers right away
    goes through the sink to the observer's [data_received]. *)
Theorem data_right_after_submit_is_fed (env : Env) (w w' : World) (chunk : string) :
  submit env w = (w', Ret FeedTask) ->
  done (observer w) = false ->
  in_shutdown w = false ->
  sink_subscribed w' = true
  /\ outbound (connection w')
     = outbound (connection w)
       ++ match command_string (observer w) with
          | Some c => [(c ++ nl)%string]
          | None => []
          end
  /\ handle_event (Data chunk) w' = fst (secure_data_received chunk w')
  /\ In (CallDataReceived chunk) (trace (handle_event (Data chunk) w')).
Proof.
  intros Hsub Hd Hs.
  assert (Hfacts : sink_subscribed w' = true /\ observer w' = observer w
                   /\ in_shutdown w' = in_shutdown w
                   /\ outbound (connection w')
                      = outbound (connection w)
                        ++ match command_string (observer w) with
                           | Some c => [(c ++ nl)%string]
                           | None => []
                           end).
  { unfold submit, check_system_resources_limit, system_resources_usage in Hsub.
    destruct (max_open_files_limit_soft env - 10 <? curr_fds_open env)%Z;
      [discriminate|].
    destruct (negb (0 <? start_time (observer w))%Z); [discriminate|].
    destruct (thread_secure_get_event_loop env) as [its_new|]; [|discriminate].
    cbn in Hsub.
    set (w2 := if its_new then set_started_ev_loops (S (started_ev_loops w)) w else w)
      in *.
    assert (Ho2 : observer w2 = observer w) by (subst w2; now destruct its_new).
    assert (Hs2 : in_shutdown w2 = in_shutdown w) by (subst w2; now destruct its_new).
    assert (Hc2 : connection w2 = connection w) by (subst w2; now destruct its_new).
    destruct (start_feeding_facts w2) as (F1 & F2 & F3 & F4).
    rewrite Ho2 in F2, F4. rewrite Hs2 in F3. rewrite Hc2 in F4.
    destruct (scheduled_task_outcome env) as [[err|]|]; [discriminate| |];
      inversion Hsub; subst w'; auto. }
  destruct Hfacts as (F1 & F2 & F3 & F4).
  split; [exact F1|]. split; [exact F4|].
  assert (Hdel : handle_event (Data chunk) w' = fst (secure_data_received chunk w')).
  { cbn [AsyncioRunner.handle_event]. unfold deliver.
    unfold sink_subscribed in F1. destruct (sink w'); [|discriminate]. now rewrite F1. }
  split; [exact Hdel|]. rewrite Hdel.
  assert (Hd' : done (observer w') = false) by now rewrite F2.
  assert (Hs' : in_shutdown w' = false) by now rewrite F3.
  unfold AsyncioRunner.secure_data_received. rewrite Hd', Hs'. cbn [orb log observer].
  destruct (data_received (observer w') chunk) as [o' [exc|]]; [destruct (is_Exception exc)|];
    cbn; repeat (rewrite in_app_iff; cbn); auto 10.
Qed.

(** [AsyncioInThreadRunner.wait_for] when the caller's bound runs out
    before the future is done and the observer is still not done when the
    caller comes to time it out: the call returns normally and the observer
    fails with a timeout of kind ["await_done"].  Its passed time is counted
    from the call of [wait_for] (not from the observer's start), its timeout
    is the caller's bound, or the observer's own when the bound is [0];
    [time_out_observer] was called with these values. *)
Theorem wait_for_in_thread_timeout
        (env : Env) (sched : list event) (t : Z) (its_new : bool) (w w1 : World) :
  done (observer w) = false ->
  thread_secure_get_event_loop env = Ret its_new ->
  loop_is_running env = false ->
  run_loop false (Some (clock w + t)%Z) FeedTask sched w = (w1, LoopRaised TimeoutError) ->
  done (observer w1) = false ->
  let fired := if (t =? 0)%Z then timeout (observer w1) else Some t in
  let passed := (clock w1 - clock w)%Z in
  exists w',
    wait_for_in_thread env sched FeedTask (Some t) w = Some (w', Ret tt)
    /\ state (observer w') = Failed (ObserverTimeout fired "await_done" passed)
    /\ In (CallTimeOutObserver fired passed "await_done") (trace w').
Proof.
  intros Hd Hloop Hrunning Hrun Hd1 fired passed. subst fired passed.
  unfold AsyncioInThreadRunner.wait_for.
  rewrite Hd, Hloop, Hrunning, Hrun.
  eexists; split; [reflexivity|].
  assert (Hd1' : forall e, state (set_exception e (observer w1)) = Failed e)
    by (intros e; apply set_exception_running; exact Hd1).
  unfold AsyncioInThreadRunner.wait_for_finally, fut_cancel, call_time_out_observer,
    time_out_observer, truthy.
  destruct (fut_done FeedTask w1);
    cbn [observer set_cancel_requested log clock trace task cancel_requested
         set_observer];
    rewrite Hd1'; destruct (t =? 0)%Z; cbn [negb];
    (split; [reflexivity | apply in_or_app; right; now left]).
Qed.

(** A [timeout] of zero.  [AsyncioRunner.wait_for] takes it for no bound
    at all and behaves as with [timeout=None]; [AsyncioInThreadRunner.wait_for]
    takes it for a bound that has already run out and, without waiting,
    fails a live observer with a timeout that reports the observer's own
    timeout value and zero passed time. *)
Theorem zero_timeout_is_no_bound_or_no_wait
        (env : Env) (sched : list event) (f : handle) (its_new : bool) (w : World) :
  wait_for env sched f (Some 0%Z) w = wait_for env sched f None w
  /\ (done (observer w) = false ->
      task_live (task w) = true ->
      thread_secure_get_event_loop env = Ret its_new ->
      loop_is_running env = false ->
      exists w',
        wait_for_in_thread env sched FeedTask (Some 0%Z) w = Some (w', Ret tt)
        /\ state (observer w')
           = Failed (ObserverTimeout (timeout (observer w)) "await_done" 0)
        /\ clock w' = clock w).
Proof.
  split; [reflexivity|].
  intros Hd Hl Hloop Hrunning.
  assert (Hn : task_outcome FeedTask w = None)
    by (cbn; destruct (task w); try discriminate; reflexivity).
  unfold AsyncioInThreadRunner.wait_for.
  rewrite Hd, Hloop, Hrunning.
  rewrite (run_loop_deadline_passed false _ FeedTask sched w Hn) by lia.
  eexists; split; [reflexivity|].
  unfold AsyncioInThreadRunner.wait_for_finally, fut_cancel, call_time_out_observer,
    time_out_observer.
  assert (Hnd : fut_done FeedTask w = false)
    by (cbn; destruct (task w); try discriminate; reflexivity).
  rewrite Hnd. cbn. rewrite (set_exception_running _ _ Hd), Z.sub_diag. auto.
Qed.

(** In a thread that has no event loop, [thread_secure_get_event_loop]
    makes one and reports it as new.  [wait_for] of [AsyncioRunner] then
    fails its assertion for every observer that is not done and changes
    nothing, while [submit] goes on, schedules the feed task and counts the
    new loop among the loops the runner owns. *)
Theorem thread_without_event_loop (env : Env) (name : string) (w : World) :
  get_event_loop_error env
  = Some ("There is no current event loop in thread '" ++ name ++ "'.")%string ->
  thread_secure_get_event_loop env = Ret true
  /\ (done (observer w) = false ->
      forall sched f timeout,
        wait_for env sched f timeout w = Some (w, Raise AssertionError))
  /\ ((curr_fds_open env <= max_open_files_limit_soft env - 10)%Z ->
      (0 < start_time (observer w))%Z ->
      scheduled_task_outcome env = None ->
      snd (submit env w) = Ret FeedTask
      /\ started_ev_loops (fst (submit env w)) = S (started_ev_loops w)).
Proof.
  intros Herr.
  assert (Hloop : thread_secure_get_event_loop env = Ret true).
  { unfold thread_secure_get_event_loop. rewrite Herr.
    assert (contains "no current event loop in thread"
              ("There is no current event loop in thread '" ++ name ++ "'.") = true) as ->
      by exact (contains_app "no current event loop in thread" "There is "
                             (" '" ++ name ++ "'.")).
    reflexivity. }
  split; [exact Hloop|]. split.
  - intros Hd sched f timeout. unfold AsyncioRunner.wait_for. now rewrite Hd, Hloop.
  - intros Hfds Hst Hout.
    unfold submit, check_system_resources_limit, system_resources_usage.
    assert ((max_open_files_limit_soft env - 10 <? curr_fds_open env)%Z = false) as ->
      by (apply Z.ltb_ge; lia).
    assert ((0 <? start_time (observer w))%Z = true) as -> by now apply Z.ltb_lt.
    rewrite Hloop, Hout. cbn. unfold _start_feeding. cbn.
    now destruct (command_string (observer w)).
Qed.

(** ** The sink of a feed task that has entered its loop *)

Lemma sink_subscribed_same w w' :
  sink w' = sink w -> connection w' = connection w ->
  sink_subscribed w' = sink_subscribed w.
Proof. unfold sink_subscribed. now intros -> ->. Qed.

Lemma secure_data_received_keeps_path chunk w :
  sink (fst (secure_data_received chunk w)) = sink w
  /\ connection (fst (secure_data_received chunk w)) = connection w.
Proof.
  unfold AsyncioRunner.secure_data_received.
  destruct (done (observer w) || in_shutdown w); [auto|].
  cbn [log observer].
  destruct (data_received (observer w) chunk) as [o' [exc|]]; [|destruct w; auto].
  destruct (is_Exception exc); destruct w; auto.
Qed.

Lemma deliver_keeps_path chunk w :
  sink (deliver data_received chunk w) = sink w
  /\ connection (deliver data_received chunk w) = connection w.
Proof.
  unfold deliver. destruct (sink w) eqn:E; [|auto].
  destruct (existsb _ _); [|auto].
  destruct (secure_data_received_keeps_path chunk w) as [H1 H2].
  rewrite H1, H2. auto.
Qed.

Lemma finished_task_is_left_alone w : task_done (task w) = true -> feed w = w.
Proof.
  intros Hd. unfold AsyncioRunner.feed, deliver_cancel.
  destruct (cancel_requested w); destruct (task w); try discriminate; reflexivity.
Qed.

Lemma reclaimed_after_finally t w :
  task_done t = true ->
  in_loop_or_reclaimed (set_task t (feed_finally w)).
Proof.
  intros Ht. right. split.
  - destruct (feed_finally w); exact Ht.
  - rewrite <- (feed_finally_unsubscribes w).
    apply sink_subscribed_same; destruct (feed_finally w); reflexivity.
Qed.

Lemma handle_event_in_loop_or_reclaimed ev w :
  in_loop_or_reclaimed w -> in_loop_or_reclaimed (handle_event ev w).
Proof.
  intros Hi. destruct ev; cbn [AsyncioRunner.handle_event].
  - destruct Hi as [[st Ht] | [Hd Hs]]; [left; exists st | right; split];
      destruct w; auto.
  - destruct Hi as [[st Ht] | [Hd Hs]].
    + unfold AsyncioRunner.feed. destruct (cancel_requested w) eqn:Hc.
      * unfold deliver_cancel. rewrite Ht.
        assert (H := reclaimed_after_finally TaskCancelled w eq_refl).
        destruct H as [[st' H] | [H1 H2]]; [destruct (feed_finally w); discriminate|].
        right. split; [destruct (feed_finally w); reflexivity|].
        rewrite <- H2. apply sink_subscribed_same; destruct (feed_finally w); reflexivity.
      * rewrite Ht. unfold AsyncioRunner.feed_round.
        destruct (done (observer w)); [now apply reclaimed_after_finally|].
        destruct (match timeout (observer w) with
                  | Some t => (t <=? clock w - st)%Z | None => false end);
          [now apply reclaimed_after_finally|].
        left. exists st. destruct (in_shutdown w); destruct w; reflexivity.
    + rewrite (finished_task_is_left_alone w Hd). right. auto.
  - destruct (deliver_keeps_path chunk w) as [H1 H2].
    destruct Hi as [[st Ht] | [Hd Hs]].
    + left. exists st. now rewrite task_deliver.
    + right. rewrite task_deliver. split; [exact Hd|].
      now rewrite (sink_subscribed_same _ _ H1 H2).
  - destruct Hi as [[st Ht] | [Hd Hs]]; [left; exists st | right; split];
      destruct w; auto.
  - destruct Hi as [[st Ht] | [Hd Hs]]; [left; exists st | right; split];
      destruct w; auto.
  - destruct Hi as [[st Ht] | [Hd Hs]]; [left; exists st | right; split];
      destruct w; auto.
Qed.

(** Driving the loop for a task that is inside its loop: the task stays
    there or ends with its sink unsubscribed; when the waiting ends by itself
    and any timeout of the waiter cancels the task, the task has ended. *)
Lemma run_loop_from_inside_the_loop cancel_inner deadline sched : forall w w1 o,
  in_loop_or_reclaimed w ->
  run_loop cancel_inner deadline FeedTask sched w = (w1, o) ->
  in_loop_or_reclaimed w1
  /\ (o <> Exhausted -> cancel_inner = true \/ deadline = None ->
      task_done (task w1) = true).
Proof.
  assert (Hfinished : forall w w1 o sched',
             task_done (task w) = true ->
             in_loop_or_reclaimed w ->
             run_loop cancel_inner deadline FeedTask sched' w = (w1, o) ->
             in_loop_or_reclaimed w1
             /\ (o <> Exhausted -> cancel_inner = true \/ deadline = None ->
                 task_done (task w1) = true)).
  { intros w w1 o sched' Hd Hi Hrun.
    destruct (task_outcome FeedTask w) as [o'|] eqn:Ho;
      [|cbn in Ho; destruct (task w); discriminate].
    rewrite (run_loop_done data_received default_kind _ _ _ _ _ _ Ho) in Hrun.
    inversion Hrun; subst. auto. }
  assert (Hexpired : forall w,
             in_loop_or_reclaimed w ->
             in_loop_or_reclaimed (if cancel_inner then feed (set_cancel_requested true w)
                                   else w)
             /\ (cancel_inner = true \/ deadline = None -> deadline <> None ->
                 task_done (task (if cancel_inner then feed (set_cancel_requested true w)
                                  else w)) = true)).
  { intros w Hi. destruct cancel_inner.
    - assert (Hi' : in_loop_or_reclaimed (set_cancel_requested true w)).
      { destruct Hi as [[st Ht] | [Hd Hs]]; [left; exists st | right; split];
          destruct w; auto. }
      split; [exact (handle_event_in_loop_or_reclaimed Tick _ Hi')|].
      intros _ _. destruct Hi as [[st Ht] | [Hd Hs]].
      + unfold AsyncioRunner.feed, deliver_cancel.
        assert (cancel_requested (set_cancel_requested true w) = true) as ->
          by (destruct w; reflexivity).
        assert (task (set_cancel_requested true w) = TaskInLoop st) as ->
          by (destruct w; exact Ht).
        destruct (feed_finally (set_cancel_requested true w)); reflexivity.
      + rewrite finished_task_is_left_alone; destruct w; exact Hd.
    - split; [exact Hi|]. intros [H | H] Hn; [discriminate | now elim Hn]. }
  induction sched as [|ev rest IH]; intros w w1 o Hi Hrun.
  - destruct (task_done (task w)) eqn:Hd; [exact (Hfinished _ _ _ _ Hd Hi Hrun)|].
    cbn in Hrun.
    assert (Hn : task_outcome FeedTask w = None)
      by (cbn; destruct (task w); try discriminate; reflexivity).
    cbn in Hn. rewrite Hn in Hrun.
    destruct deadline as [dl|].
    + destruct (dl <=? clock w)%Z; inversion Hrun; subst.
      * destruct (Hexpired w Hi) as [H1 H2]. split; [exact H1|].
        intros _ Hc. apply H2; [exact Hc | discriminate].
      * split; [exact Hi|]. intros H. now elim H.
    + inversion Hrun; subst. split; [exact Hi|]. intros H. now elim H.
  - destruct (task_done (task w)) eqn:Hd; [exact (Hfinished _ _ _ _ Hd Hi Hrun)|].
    cbn [AsyncioRunner.run_loop] in Hrun.
    assert (Hn : task_outcome FeedTask w = None)
      by (cbn; destruct (task w); try discriminate; reflexivity).
    rewrite Hn in Hrun.
    destruct deadline as [dl|].
    + destruct (dl <=? clock w)%Z.
      * inversion Hrun; subst.
        destruct (Hexpired w Hi) as [H1 H2]. split; [exact H1|].
        intros _ Hc. apply H2; [exact Hc | discriminate].
      * exact (IH _ _ _ (handle_event_in_loop_or_reclaimed ev w Hi) Hrun).
    + exact (IH _ _ _ (handle_event_in_loop_or_reclaimed ev w Hi) Hrun).
Qed.

Lemma wait_for_finally_keeps_reclaimed f w :
  task_done (task w) = true /\ sink_subscribed w = false ->
  task_done (task (AsyncioRunner.wait_for_finally f w)) = true
  /\ sink_subscribed (AsyncioRunner.wait_for_finally f w) = false.
Proof.
  intros [Hd Hs]. unfold AsyncioRunner.wait_for_finally, fut_cancel.
  destruct (fut_done f w); destruct w; auto.
Qed.

(** [AsyncioRunner.wait_for], called from synchronous code for an observer
    that is not done and whose feed task has entered its loop: whenever the
    call returns, the feed task has finished and its sink is unsubscribed
    from the connection, be it after a result, a timeout of the observer, a
    timeout of the waiter or a cancellation. *)
Theorem wait_for_after_loop_entry_reclaims_sink
        (env : Env) (sched : list event) (timeout : option Z) (w w' : World)
        (r : res unit) (st : Z) :
  task w = TaskInLoop st ->
  done (observer w) = false ->
  thread_secure_get_event_loop env = Ret false ->
  loop_is_running env = false ->
  wait_for env sched FeedTask timeout w = Some (w', r) ->
  task_done (task w') = true /\ sink_subscribed w' = false.
Proof.
  intros Ht Hd Hloop Hrunning Hw. unfold AsyncioRunner.wait_for in Hw.
  rewrite Hd, Hloop, Hrunning in Hw.
  match type of Hw with
  | match ?run with _ => _ end = _ => destruct run as [w1 o] eqn:Hrun
  end.
  assert (Hl : task_live (task w) = true) by now rewrite Ht.
  assert (Hi : in_loop_or_reclaimed w) by (left; now exists st).
  assert (Hout : in_loop_or_reclaimed w1
                 /\ (o <> Exhausted -> task_done (task w1) = true)).
  { unfold AsyncioRunner._run_via_asyncio in Hrun. destruct (truthy timeout).
    - destruct (run_loop_from_inside_the_loop _ _ _ _ _ _ Hi Hrun) as [H1 H2].
      split; [exact H1 | intros Hne; apply H2; auto].
    - destruct (run_loop_from_inside_the_loop _ _ _ _ _ _ Hi Hrun) as [H1 H2].
      split; [exact H1 | intros Hne; apply H2; auto]. }
  assert (Hkinds : match o with
                   | LoopRaised e => e = CancelledError \/ e = TimeoutError
                   | _ => True
                   end).
  { unfold AsyncioRunner._run_via_asyncio in Hrun.
    destruct (truthy timeout);
      pose proof (run_loop_live_outcomes _ _ _ _ _ _ Hl Hrun) as H;
      destruct o; auto. }
  destruct Hout as [Hi1 Hdone].
  assert (Hrec : o <> Exhausted -> task_done (task w1) = true /\ sink_subscribed w1 = false).
  { intros Hne. specialize (Hdone Hne).
    destruct Hi1 as [[st1 H] | H]; [rewrite H in Hdone; discriminate | exact H]. }
  destruct o as [ | e | ]; [ | | discriminate].
  - inversion Hw; subst. apply wait_for_finally_keeps_reclaimed.
    apply Hrec. discriminate.
  - destruct Hrec as [H1 H2]; [discriminate|].
    destruct Hkinds as [-> | ->]; inversion Hw; subst;
      apply wait_for_finally_keeps_reclaimed; destruct w1; auto.
Qed.

(** [AsyncioInThreadRunner.wait_for] for a live feed task never raises,
    whatever the thread and its event loop are like: an exception met on the
    way (a loop that cannot be had, a call from a running loop) is stored in
    the observer, and whenever the call returns the observer is done. *)
Theorem wait_for_in_thread_returns_with_terminal_observer
        (env : Env) (sched : list event) (timeout : option Z) (w w' : World)
        (r : res unit) :
  task_live (task w) = true ->
  wait_for_in_thread env sched FeedTask timeout w = Some (w', r) ->
  r = Ret tt /\ done (observer w') = true.
Proof.
  intros Hl Hw. unfold AsyncioInThreadRunner.wait_for in Hw.
  destruct (done (observer w)) eqn:Hd; [inversion Hw; subst; auto|].
  assert (Hfin : forall f x, observer (AsyncioInThreadRunner.wait_for_finally f x)
                             = observer x).
  { intros f x. unfold AsyncioInThreadRunner.wait_for_finally.
    destruct (fut_done f x); [reflexivity | apply observer_fut_cancel]. }
  assert (Hstored : forall e x y,
             Some (AsyncioInThreadRunner.wait_for_finally FeedTask (call_set_exception e x),
                   Ret tt) = Some (y, r) ->
             r = Ret tt /\ done (observer y) = true).
  { intros e x y H. inversion H; subst. split; [reflexivity|].
    rewrite Hfin. unfold call_set_exception. rewrite observer_set_observer.
    apply done_set_exception. }
  destruct (thread_secure_get_event_loop env) as [its_new|e]; [|exact (Hstored _ _ _ Hw)].
  destruct (loop_is_running env); [exact (Hstored _ _ _ Hw)|].
  match type of Hw with
  | match ?run with _ => _ end = _ => destruct run as [w1 o] eqn:Hrun
  end.
  pose proof (run_loop_live_outcomes _ _ _ _ _ _ Hl Hrun) as Hout.
  destruct o as [ | e | ]; [ | | discriminate].
  - inversion Hw; subst. split; [reflexivity|]. now rewrite Hfin.
  - destruct Hout as [-> | ->]; inversion Hw; subst; (split; [reflexivity|]).
    + rewrite Hfin. unfold call_cancel. rewrite observer_set_observer.
      apply done_cancel.
    + unfold call_time_out_observer. rewrite observer_set_observer.
      unfold time_out_observer. apply done_set_exception.
Qed.

(** An observer that [submit] refused for lack of file descriptors is not
    waited for: [wait_for] with the future that [submit] handed back returns
    at once, whatever the timeout and the state of the event loop, and
    changes nothing, the future included. *)
Theorem refused_observer_is_not_waited_for
        (env : Env) (sched : list event) (timeout : option Z) (w : World) :
  (max_open_files_limit_soft env - 10 < curr_fds_open env)%Z ->
  let w1 := fst (submit env w) in
  snd (submit env w) = Ret ImpossibleFuture
  /\ done (observer w1) = true
  /\ wait_for env sched ImpossibleFuture timeout w1 = Some (w1, Ret tt).
Proof.
  intros Hfds. cbv zeta. unfold submit, check_system_resources_limit.
  cbn [system_resources_usage].
  apply Z.ltb_lt in Hfds. rewrite Hfds. cbn [fst snd].
  assert (Hd : done (observer (with_lock (call_set_exception
                                            (MolerException (limit_message env))) w))
               = true).
  { rewrite observer_with_lock. unfold call_set_exception.
    rewrite observer_set_observer. apply done_set_exception. }
  split; [reflexivity|]. split; [exact Hd|].
  unfold AsyncioRunner.wait_for. rewrite Hd. reflexivity.
Qed.

End Extras.

Lemma terminal_state_witness :
  state (observer (AsyncioRunner.run_events choking_data_received "background_run"
                     [Data "boom"; CancelObserver; Shutdown; Tick; TimeoutChange None]
                     timed_out_world))
  = state (observer timed_out_world).
Proof.
  assert (Hd : done (observer timed_out_world) = true) by (vm_compute; reflexivity).
  exact (terminal_state_survives_every_event choking_data_received "background_run"
           _ timed_out_world Hd).
Defined.

Lemma nothing_is_fed_witness :
  let w := AsyncioRunner.shutdown (fst (submit calm_env fresh_world)) in
  let evs := [Data "boom"; Tick; Data "OK"; Tick] in
  in_shutdown (AsyncioRunner.run_events choking_data_received "background_run" evs w) = true
  /\ filter is_data_call
       (trace (AsyncioRunner.run_events choking_data_received "background_run" evs w))
     = filter is_data_call (trace w).
Proof.
  intros w evs.
  assert (Hs : in_shutdown w = true) by (vm_compute; reflexivity).
  exact (nothing_is_fed_after_shutdown choking_data_received "background_run" evs w Hs).
Defined.

Lemma shutdown_one_round_witness :
  let w' := AsyncioRunner.run_events inert_data_received "background_run"
              [Shutdown; Tick] world_in_loop in
  done (observer w') = true /\ state (observer w') = Cancelled.
Proof.
  assert (Hs : loop_start world_in_loop = Some 1000%Z) by (vm_compute; reflexivity).
  assert (Hc : cancel_requested world_in_loop = false) by (vm_compute; reflexivity).
  pose proof (shutdown_ends_observer_in_one_round inert_data_received "background_run"
                world_in_loop 1000 Hs Hc) as H.
  vm_compute in H. vm_compute. exact H.
Defined.

Lemma shutdown_reclaims_witness :
  let w' := AsyncioRunner.run_events inert_data_received "background_run"
              [Shutdown; Tick; Tick] world_in_loop in
  task w' = TaskReturned /\ sink_subscribed w' = false /\ done (observer w') = true.
Proof.
  assert (Hs : loop_start world_in_loop = Some 1000%Z) by (vm_compute; reflexivity).
  assert (Hc : cancel_requested world_in_loop = false) by (vm_compute; reflexivity).
  exact (shutdown_reclaims_feed_task inert_data_received "background_run"
           world_in_loop 1000 Hs Hc).
Defined.

Lemma wait_for_returns_witness :
  exists w',
    AsyncioRunner.wait_for inert_data_received remaining reraise "background_run"
                           calm_env long_schedule FeedTask None
                           (fst (submit calm_env fresh_world))
    = Some (w', Ret tt)
    /\ done (observer w') = true.
Proof.
  set (w := fst (submit calm_env fresh_world)).
  destruct (AsyncioRunner.wait_for inert_data_received remaining reraise "background_run"
              calm_env long_schedule FeedTask None w) as [[w' r]|] eqn:E;
    [|vm_compute in E; discriminate].
  assert (Hl : task_live (task w) = true) by (vm_compute; reflexivity).
  destruct (wait_for_returns_with_terminal_observer
              inert_data_received remaining reraise "background_run"
              calm_env long_schedule None w w' r Hl eq_refl eq_refl E) as [-> Hd].
  exists w'. auto.
Defined.

Lemma wait_timeout_before_loop_witness :
  exists w',
    AsyncioRunner.wait_for inert_data_received remaining reraise "background_run"
                           calm_env quiet_schedule FeedTask (Some 20%Z) late_world
    = Some (w', Ret tt)
    /\ state (observer w') = Failed (ObserverTimeout (Some 20%Z) "await_done" 30)
    /\ task w' = TaskCancelled
    /\ forall later,
        connection (AsyncioRunner.run_events inert_data_received "background_run" later w')
        = connection late_world.
Proof.
  assert (Ht : task late_world = TaskScheduled \/ task late_world = TaskFirstSleep)
    by (left; vm_compute; reflexivity).
  assert (Hd : done (observer late_world) = false) by (vm_compute; reflexivity).
  assert (Hnz : 20%Z <> 0%Z) by discriminate.
  assert (Hrem : (remaining (clock late_world) (observer late_world) (Some 20%Z) <= 0)%Z)
    by (vm_compute; discriminate).
  exact (wait_timeout_before_loop_keeps_subscription
           inert_data_received remaining reraise "background_run"
           calm_env quiet_schedule 20 late_world Ht Hd Hnz eq_refl eq_refl Hrem).
Defined.

Lemma data_right_after_submit_witness :
  let w' := fst (submit calm_env fresh_world) in
  sink_subscribed w' = true
  /\ outbound (connection w') = [("AT+CGATT=1" ++ nl)%string]
  /\ AsyncioRunner.handle_event choking_data_received "background_run" (Data "boom") w'
     = fst (AsyncioRunner.secure_data_received choking_data_received "boom" w')
  /\ In (CallDataReceived "boom")
        (trace (AsyncioRunner.handle_event choking_data_received "background_run"
                  (Data "boom") w')).
Proof.
  intro w'.
  assert (Hsub : submit calm_env fresh_world = (w', Ret FeedTask))
    by (vm_compute; reflexivity).
  exact (data_right_after_submit_is_fed choking_data_received "background_run"
           calm_env fresh_world w' "boom" Hsub eq_refl eq_refl).
Defined.

Lemma wait_for_in_thread_timeout_witness :
  let w := fed_on_loop_thread in
  exists w',
    AsyncioInThreadRunner.wait_for inert_data_received "background_run"
                                   calm_env quiet_schedule FeedTask (Some 20%Z) w
    = Some (w', Ret tt)
    /\ state (observer w') = Failed (ObserverTimeout (Some 20%Z) "await_done" 20)
    /\ In (CallTimeOutObserver (Some 20%Z) 20 "await_done") (trace w').
Proof.
  intros w.
  pose (w1 := fst (AsyncioRunner.run_loop inert_data_received "background_run"
                     false (Some 1020%Z) FeedTask quiet_schedule w)).
  assert (Hd : done (observer w) = false) by (vm_compute; reflexivity).
  assert (Hrun : AsyncioRunner.run_loop inert_data_received "background_run"
                   false (Some (clock w + 20)%Z) FeedTask quiet_schedule w
                 = (w1, LoopRaised TimeoutError)) by (vm_compute; reflexivity).
  assert (Hd1 : done (observer w1) = false) by (vm_compute; reflexivity).
  exact (wait_for_in_thread_timeout inert_data_received "background_run"
           calm_env quiet_schedule 20 false w w1 Hd eq_refl eq_refl Hrun Hd1).
Defined.

Lemma zero_timeout_witness :
  let w := fst (submit calm_env fresh_world) in
  AsyncioRunner.wait_for inert_data_received remaining reraise "background_run"
                         calm_env long_schedule FeedTask (Some 0%Z) w
  = AsyncioRunner.wait_for inert_data_received remaining reraise "background_run"
                           calm_env long_schedule FeedTask None w
  /\ exists w',
      AsyncioInThreadRunner.wait_for inert_data_received "background_run"
                                     calm_env long_schedule FeedTask (Some 0%Z) w
      = Some (w', Ret tt)
      /\ state (observer w') = Failed (ObserverTimeout (Some 100%Z) "await_done" 0)
      /\ clock w' = clock w.
Proof.
  intro w.
  assert (Hd : done (observer w) = false) by (vm_compute; reflexivity).
  assert (Hl : task_live (task w) = true) by (vm_compute; reflexivity).
  destruct (zero_timeout_is_no_bound_or_no_wait
              inert_data_received remaining reraise "background_run"
              calm_env long_schedule FeedTask false w) as [H1 H2].
  split; [exact H1|]. exact (H2 Hd Hl eq_refl eq_refl).
Defined.

Lemma thread_without_event_loop_witness :
  thread_secure_get_event_loop loopless_env = Ret true
  /\ AsyncioRunner.wait_for inert_data_received remaining reraise "background_run"
                            loopless_env quiet_schedule FeedTask None
                            (fst (submit calm_env fresh_world))
     = Some (fst (submit calm_env fresh_world), Raise AssertionError)
  /\ snd (submit loopless_env fresh_world) = Ret FeedTask
  /\ started_ev_loops (fst (submit loopless_env fresh_world)) = 1%nat.
Proof.
  set (w := fst (submit calm_env fresh_world)).
  destruct (thread_without_event_loop inert_data_received remaining reraise
              "background_run" loopless_env "Thread-3" w eq_refl) as (H1 & H2 & _).
  destruct (thread_without_event_loop inert_data_received remaining reraise
              "background_run" loopless_env "Thread-3" fresh_world eq_refl)
    as (_ & _ & H3).
  assert (Hd : done (observer w) = false) by (vm_compute; reflexivity).
  assert (Hfds : (curr_fds_open loopless_env <= max_open_files_limit_soft loopless_env - 10)%Z)
    by (vm_compute; discriminate).
  assert (Hst : (0 < start_time (observer fresh_world))%Z) by reflexivity.
  split; [exact H1|]. split; [exact (H2 Hd _ _ _)|].
  exact (H3 Hfds Hst eq_refl).
Defined.

Lemma wait_for_after_loop_entry_witness :
  exists w',
    AsyncioRunner.wait_for answering_data_received remaining reraise "background_run"
                           calm_env [Tick; Data "OK"; Tick] FeedTask None world_in_loop
    = Some (w', Ret tt)
    /\ task_done (task w') = true /\ sink_subscribed w' = false.
Proof.
  destruct (AsyncioRunner.wait_for answering_data_received remaining reraise
              "background_run" calm_env [Tick; Data "OK"; Tick] FeedTask None
              world_in_loop) as [[w' r]|] eqn:E;
    [|vm_compute in E; discriminate].
  assert (Hr : r = Ret tt)
    by (vm_compute in E; injection E as _ <-; reflexivity).
  subst r.
  assert (Ht : task world_in_loop = TaskInLoop 1000) by (vm_compute; reflexivity).
  assert (Hd : done (observer world_in_loop) = false) by (vm_compute; reflexivity).
  exists w'. split; [reflexivity|].
  exact (wait_for_after_loop_entry_reclaims_sink
           answering_data_received remaining reraise "background_run"
           calm_env [Tick; Data "OK"; Tick] None world_in_loop w' (Ret tt) 1000
           Ht Hd eq_refl eq_refl E).
Defined.

Lemma wait_for_in_thread_returns_witness :
  exists w',
    AsyncioInThreadRunner.wait_for inert_data_received "background_run"
                                   busy_env quiet_schedule FeedTask None world_in_loop
    = Some (w', Ret tt)
    /\ done (observer w') = true.
Proof.
  destruct (AsyncioInThreadRunner.wait_for inert_data_received "background_run"
              busy_env quiet_schedule FeedTask None world_in_loop)
    as [[w' r]|] eqn:E; [|vm_compute in E; discriminate].
  assert (Hl : task_live (task world_in_loop) = true) by (vm_compute; reflexivity).
  destruct (wait_for_in_thread_returns_with_terminal_observer
              inert_data_received "background_run" busy_env quiet_schedule None
              world_in_loop w' r Hl E) as [-> Hd].
  exists w'. auto.
Defined.

Lemma refused_observer_witness :
  let w1 := fst (submit crowded_env fresh_world) in
  snd (submit crowded_env fresh_world) = Ret ImpossibleFuture
  /\ done (observer w1) = true
  /\ AsyncioRunner.wait_for inert_data_received remaining reraise "background_run"
                            crowded_env quiet_schedule ImpossibleFuture (Some 20%Z) w1
     = Some (w1, Ret tt).
Proof.
  assert (Hfds : (max_open_files_limit_soft crowded_env - 10
                  < curr_fds_open crowded_env)%Z) by (vm_compute; reflexivity).
  exact (refused_observer_is_not_waited_for inert_data_received remaining reraise
           "background_run" crowded_env quiet_schedule (Some 20%Z) fresh_world Hfds).
Defined.

End RunnerExtras.

(* ================================================================== *)
(** * Properties of the dedicated loop thread *)
(* ================================================================== *)

Module LoopThreadFacts.
Import LoopThread.
#[local] Open Scope list_scope.
#[local] Open Scope nat_scope.

Lemma calls_once_started answers : forall t n,
  calls answers (mkRegistry (Some t) n)
  = (mkRegistry (Some t) n, repeat (Ret t) (List.length answers)).
Proof.
  induction answers as [|a rest IH]; intros t n; [reflexivity|].
  cbn. now rewrite IH.
Qed.

(** [get_asyncio_loop_thread] called again and again while no thread is
    registered: every call whose thread fails to start raises and leaves
    nothing registered, so the next call constructs another thread; the
    first thread that starts is registered, and every later call returns
    that same thread without constructing anything. *)
Theorem one_loop_thread_once_started (answers : list bool) (g : Registry) :
  _asyncio_loop_thread g = None ->
  let k := failed_starts answers in
  let n := threads_created g in
  let failure :=
    Raise (MolerException "Failed to start asyncio loop thread within 0.5 sec") in
  snd (calls answers g)
  = repeat failure k ++ repeat (Ret (n + k)) (List.length answers - k)
  /\ fst (calls answers g)
     = if k <? List.length answers then mkRegistry (Some (n + k)) (S (n + k))
       else mkRegistry None (n + k).
Proof.
  revert g. induction answers as [|a rest IH]; intros [cur n] Hnone; cbn in Hnone; subst cur.
  - cbn. now rewrite Nat.add_0_r.
  - destruct a.
    + cbn [calls get_asyncio_loop_thread _asyncio_loop_thread start threads_created].
      rewrite calls_once_started. cbn. rewrite Nat.add_0_r. auto.
    + specialize (IH (mkRegistry None (S n)) eq_refl).
      cbn [calls get_asyncio_loop_thread _asyncio_loop_thread start threads_created].
      destruct (calls rest (mkRegistry None (S n))) as [g2 rs].
      cbn in IH. destruct IH as [-> ->]. cbn.
      replace (n + S (failed_starts rest)) with (S (n + failed_starts rest)) by lia.
      split; [reflexivity|].
      now destruct (failed_starts rest <? List.length rest) eqn:E; cbn in E |- *; rewrite E.
Qed.

Lemma one_loop_thread_witness :
  snd (calls [false; false; true; false; true] (mkRegistry None 0))
  = [Raise (MolerException "Failed to start asyncio loop thread within 0.5 sec");
     Raise (MolerException "Failed to start asyncio loop thread within 0.5 sec");
     Ret 2; Ret 2; Ret 2]
  /\ fst (calls [false; false; true; false; true] (mkRegistry None 0))
     = mkRegistry (Some 2) 3.
Proof.
  exact (one_loop_thread_once_started [false; false; true; false; true]
           (mkRegistry None 0) eq_refl).
Defined.

End LoopThreadFacts.

(* ================================================================== *)
(** * Further properties of the configuration loader *)
(* ================================================================== *)

Module ConfigExtras.
Import Config ConfigFacts.
#[local] Open Scope list_scope.

(** ** Loaders as relations between the state before and after *)

Section Frames.

Variable R : CfgState -> CfgState -> Prop.
Hypothesis R_refl : forall st, R st st.
Hypothesis R_trans : forall st1 st2 st3, R st1 st2 -> R st2 st3 -> R st1 st3.

Lemma frames_ret {A} (a : A) : frames R (ret a).
Proof. intros st st' r H. inversion H. apply R_refl. Qed.

Lemma frames_raise {A} (e : pyexc) : frames R (@raise A e).
Proof. intros st st' r H. inversion H. apply R_refl. Qed.

Lemma frames_lift {A} (x : res A) : frames R (lift x).
Proof. intros st st' r H. inversion H. apply R_refl. Qed.

Lemma frames_get_config : frames R get_config.
Proof. intros st st' r H. inversion H. apply R_refl. Qed.

Lemma frames_get_default_connection : frames R get_default_connection.
Proof. intros st st' r H. inversion H. apply R_refl. Qed.

Lemma frames_known_device n : frames R (known_device n).
Proof. intros st st' r H. inversion H. apply R_refl. Qed.

Lemma frames_bind {A B} (m : M A) (k : A -> M B) :
  frames R m -> (forall a, frames R (k a)) -> frames R (bind m k).
Proof.
  intros Hm Hk st st' r H. unfold bind in H.
  destruct (m st) as [st1 [a|e]] eqn:Em.
  - eapply R_trans; [exact (Hm _ _ _ Em) | exact (Hk a _ _ _ H)].
  - inversion H; subst. exact (Hm _ _ _ Em).
Qed.

Lemma frames_for_each {A} (xs : list A) (body : A -> M unit) :
  (forall x, frames R (body x)) -> frames R (for_each xs body).
Proof.
  intros Hbody. induction xs as [|x xs IH]; cbn [for_each].
  - apply frames_ret.
  - apply frames_bind; [apply Hbody | intros _; exact IH].
Qed.

Lemma frames_get_device name : frames R (get_device name).
Proof.
  unfold get_device. destruct name; try apply frames_raise.
  apply frames_bind; [apply frames_known_device|].
  intros [|]; [apply frames_ret | apply frames_raise].
Qed.

Lemma frames_is_device_already_created name :
  frames R (_is_device_already_created name).
Proof.
  intros st st' r H. unfold _is_device_already_created in H.
  destruct (get_device (VStr name) st) as [st1 [a|e]] eqn:E;
    apply frames_get_device in E.
  - now inversion H; subst.
  - destruct e; now inversion H; subst.
Qed.

End Frames.

(** One step through a loader. *)
Ltac frames_step :=
  lazymatch goal with
  | |- frames _ (bind _ _) => apply frames_bind; [ assumption | | intros ? ]
  | |- frames _ (ret _) => apply frames_ret; assumption
  | |- frames _ (raise _) => apply frames_raise; assumption
  | |- frames _ (lift _) => apply frames_lift; assumption
  | |- frames _ get_config => apply frames_get_config; assumption
  | |- frames _ get_default_connection => apply frames_get_default_connection; assumption
  | |- frames _ (known_device _) => apply frames_known_device; assumption
  | |- frames _ (get_device _) => apply frames_get_device; assumption
  | |- frames _ (_is_device_already_created _) =>
      apply frames_is_device_already_created; assumption
  | |- frames _ (mutate_config _) =>
      match goal with H : forall c, frames _ (mutate_config c) |- _ => apply H end
  | |- frames _ (register_device _) =>
      match goal with H : forall n, frames _ (register_device n) |- _ => apply H end
  | |- frames _ (store_default_connection _) =>
      match goal with
      | H : forall d, frames _ (store_default_connection d) |- _ => apply H
      end
  | |- frames _ (bind_config _ _) =>
      match goal with H : forall c a, frames _ (bind_config c a) |- _ => apply H end
  | |- frames _ (emit _) =>
      match goal with
      | H : forall e, _ -> frames _ (emit e) |- _ => apply H; reflexivity
      end
  | |- frames _ (for_each _ _) => apply frames_for_each; try assumption; intros ?
  | |- frames _ (when _ _) => unfold when
  | |- frames _ (if ?b then _ else _) => destruct b
  | |- frames _ (match ?x with _ => _ end) => destruct x
  end.

Section FramedLoaders.

Variable R : CfgState -> CfgState -> Prop.
Hypothesis R_refl : forall st, R st st.
Hypothesis R_trans : forall st1 st2 st3, R st1 st2 -> R st2 st3 -> R st1 st3.
Hypothesis R_mutate_config : forall c, frames R (mutate_config c).
Hypothesis R_register_device : forall n, frames R (register_device n).
Hypothesis R_store_default_connection : forall d, frames R (store_default_connection d).

Lemma frames_load_logger_from_config :
  (forall e, is_logger_effect e = true -> frames R (emit e)) ->
  frames R load_logger_from_config.
Proof. intros He. unfold load_logger_from_config. repeat frames_step. Qed.

(** When [load_logger_from_config] returns, its last step was
    [configure_moler_main_logger]. *)
Lemma load_logger_from_config_returns st st' :
  (forall e, is_logger_effect e = true -> frames R (emit e)) ->
  load_logger_from_config st = (st', Ret tt) ->
  exists st1, R st st1 /\ st' = fst (emit ConfigureMolerMainLogger st1).
Proof.
  intros He. unfold load_logger_from_config.
  unfold bind at 1. cbn [get_config]. unfold bind at 1. unfold lift at 1.
  destruct (py_in "LOGGER" (config_object st)) as [b|e]; [|discriminate].
  unfold bind at 1.
  match goal with
  | |- context [match ?m st with _ => _ end] =>
      assert (Hm : frames R m) by (repeat frames_step);
      destruct (m st) as [st1 [u|e]] eqn:E; [|discriminate]
  end.
  intros H. exists st1. split; [exact (Hm _ _ _ E) | now inversion H].
Qed.

Lemma frames_load_connection_from_config :
  (forall e, is_named_connection_effect e = true -> frames R (emit e)) ->
  frames R load_connection_from_config.
Proof. intros He. unfold load_connection_from_config. repeat frames_step. Qed.

Lemma frames_load_topology topology :
  (forall e, is_device_effect e = true -> frames R (emit e)) ->
  frames R (_load_topology topology).
Proof. intros He. unfold _load_topology. repeat frames_step. Qed.

Lemma frames_define_devices names :
  (forall e, is_device_effect e = true -> frames R (emit e)) ->
  forall cloned, frames R (define_devices names cloned).
Proof.
  intros He. induction names as [|device_name rest IH]; intros cloned;
    cbn [define_devices].
  - now apply frames_ret.
  - repeat first [apply IH | frames_step].
Qed.

Lemma frames_load_device_from_config add_only :
  (forall e, is_device_effect e = true -> frames R (emit e)) ->
  frames R (load_device_from_config add_only).
Proof.
  intros He. unfold load_device_from_config.
  repeat first [apply frames_define_devices; exact He
               | apply frames_load_topology; exact He
               | frames_step].
Qed.

(** What [load_config] runs once [config] is bound to a document. *)
Lemma frames_loaders add_only :
  (forall e, frames R (emit e)) ->
  frames R (bind (when (negb add_only)
                       (bind load_logger_from_config
                             (fun _ => load_connection_from_config)))
                 (fun _ => load_device_from_config add_only)).
Proof.
  intros He. apply frames_bind; [assumption | |intros _].
  - unfold when. destruct (negb add_only); [|now apply frames_ret].
    apply frames_bind; [assumption | |intros _].
    + apply frames_load_logger_from_config. intros e _. apply He.
    + apply frames_load_connection_from_config. intros e _. apply He.
  - apply frames_load_device_from_config. intros e _. apply He.
Qed.

End FramedLoaders.

(** ** [loaded_config] *)

Lemma same_history_refl st : same_history st st.
Proof. split; [reflexivity|]. now destruct (config_aliased st). Qed.

Lemma same_history_trans st1 st2 st3 :
  same_history st1 st2 -> same_history st2 st3 -> same_history st1 st3.
Proof.
  intros [Ha H12] [Hb H23]. split; [congruence|].
  rewrite Ha in H23. destruct (config_aliased st1).
  - destruct H12, H23. split; congruence.
  - congruence.
Qed.

Lemma removelast_replace_last v l : removelast (replace_last v l) = removelast l.
Proof.
  induction l as [|x [|y l] IH]; [reflexivity | reflexivity |].
  change (replace_last v (x :: y :: l)) with (x :: replace_last v (y :: l)).
  change (removelast (x :: y :: l)) with (x :: removelast (y :: l)).
  rewrite <- IH. destruct l; reflexivity.
Qed.

Lemma length_replace_last v l : List.length (replace_last v l) = List.length l.
Proof.
  induction l as [|x [|y l] IH]; [reflexivity | reflexivity |].
  change (replace_last v (x :: y :: l)) with (x :: replace_last v (y :: l)).
  cbn [List.length] in *. now rewrite IH.
Qed.

Lemma same_history_loaders add_only :
  frames same_history
         (bind (when (negb add_only)
                     (bind load_logger_from_config
                           (fun _ => load_connection_from_config)))
               (fun _ => load_device_from_config add_only)).
Proof.
  apply frames_loaders.
  - exact same_history_refl.
  - exact same_history_trans.
  - intros c st st' r H. inversion H; subst. split; [reflexivity|]. cbn.
    destruct (config_aliased st); [|reflexivity].
    split; [apply removelast_replace_last | apply length_replace_last].
  - intros n st st' r H. inversion H; subst. split; [reflexivity|]. cbn.
    now destruct (config_aliased st).
  - intros d st st' r H. inversion H; subst. split; [reflexivity|]. cbn.
    now destruct (config_aliased st).
  - intros e st st' r H. inversion H; subst. split; [reflexivity|]. cbn.
    now destruct (config_aliased st).
Qed.

Lemma last_entry_only (l l' : list pyval) (config : pyval) :
  removelast l' = removelast (l ++ [config]) ->
  List.length l' = List.length (l ++ [config]) ->
  exists c', l' = l ++ [c'].
Proof.
  rewrite removelast_last, length_app. cbn. intros Hr Hl.
  destruct l' as [|x l'] using rev_ind; [cbn in Hl; lia|].
  rewrite removelast_last in Hr. subst. now exists x.
Qed.

Section History.

Variable compare_objects : pyval -> pyval -> list string.
Variable environ : string -> option string.
Variable yaml_load_file : string -> res pyval.

Abbreviation configs_are_same := (configs_are_same compare_objects).
Abbreviation load_config := (load_config compare_objects environ yaml_load_file).
Abbreviation apply_config := (apply_config environ yaml_load_file).
Abbreviation read_yaml_configfile := (read_yaml_configfile yaml_load_file).

Lemma read_then_load_keeps_history l devs dc c e path add_only st' r :
  bind (bind (lift (read_yaml_configfile path)) (fun read => bind_config read false))
       (fun _ =>
          bind (when (negb add_only)
                     (bind load_logger_from_config
                           (fun _ => load_connection_from_config)))
               (fun _ => load_device_from_config add_only))
       (mkCfg l devs dc c true e) = (st', r) ->
  loaded_config st' = l.
Proof.
  unfold bind at 1 2. unfold lift.
  destruct (read_yaml_configfile path) as [read|err]; cbn [bind_config].
  - intros H. apply same_history_loaders in H. destruct H as [_ H]. exact H.
  - intros H. now inversion H.
Qed.

(** [apply_config] run on a state whose last entry is [config]. *)
Lemma apply_config_history l config from_env_var config_type add_only st st' r :
  apply_config config from_env_var config_type add_only
               (mkCfg (l ++ [config]) (devices st) (default_connection st)
                      (config_object st) (config_aliased st) (effects st))
  = (st', r) ->
  exists c', loaded_config st' = l ++ [c']
             /\ (mutable_source config config_type = false -> c' = config).
Proof.
  unfold Config.apply_config.
  unfold bind at 1. cbn [bind_config loaded_config devices default_connection effects].
  unfold bind at 1. unfold when at 1.
  destruct (negb (String.eqb config_type "dict") && negb (String.eqb config_type "yaml"))
    eqn:Hsup.
  { intros H. inversion H; subst. now exists config. }
  cbn [ret].
  destruct (py_truth config) eqn:Htruth; cbn [negb].
  - destruct (String.eqb config_type "yaml") eqn:Hyaml.
    + destruct config as [| | |path| |];
        try (unfold bind at 1, raise; intros H; inversion H; subst; eexists; split;
             reflexivity).
      intros H. apply read_then_load_keeps_history in H. now exists (VStr path).
    + destruct config as [| | | | |items];
        try (unfold bind at 1, raise; intros H; inversion H; subst; eexists; split;
             reflexivity).
      unfold bind at 1. cbn [ret]. intros H.
      apply same_history_loaders in H. destruct H as [_ [Hr Hl]]. cbn in Hr, Hl.
      destruct (last_entry_only _ _ _ Hr Hl) as [c' Hc']. exists c'. split; [exact Hc'|].
      cbn in Htruth. destruct items; [discriminate|].
      cbn. rewrite andb_false_iff, !negb_false_iff in Hsup.
      destruct Hsup as [Hd | Hy]; [rewrite Hd; discriminate | congruence].
  - destruct from_env_var as [[|ch var]|];
      try (unfold bind at 1, raise; intros H; inversion H; subst; now exists config).
    destruct (environ (String ch var)) as [path|];
      [|unfold bind at 1, raise; intros H; inversion H; subst; now exists config].
    intros H. apply read_then_load_keeps_history in H. now exists config.
Qed.

(** After any call of [load_config] the history of loaded configurations
    is the one before with at most one entry added at its end: nothing for
    a repetition, otherwise one entry, which is [config] itself unless the
    loaders worked on the caller's own dictionary.  Earlier entries are
    not touched (documents are values here: two configurations share no
    sub-dictionary), and the marker of a fresh process is gone after the
    first call. *)
Theorem load_config_appends_to_history
        (st : CfgState) (config : pyval) (from_env_var : option string)
        (config_type : string) :
  let st' := fst (load_config config from_env_var config_type st) in
  if negb (existsb is_marker (loaded_config st))
     && configs_are_same (loaded_config st) config
  then loaded_config st' = loaded_config st
  else exists c',
      loaded_config st' = history st ++ [c']
      /\ (mutable_source config config_type = false -> c' = config).
Proof.
  cbv zeta. unfold Config.load_config, history.
  destruct (existsb is_marker (loaded_config st)) eqn:Hm; cbn [negb andb].
  - unfold bind at 1. cbn [set_loaded_config].
    destruct (apply_config config from_env_var config_type false _) as [st' r] eqn:E.
    exact (apply_config_history [] _ _ _ _ st st' r E).
  - destruct (configs_are_same (loaded_config st) config) eqn:Hs; [reflexivity|].
    unfold bind at 1. cbn [set_loaded_config].
    destruct (apply_config config from_env_var config_type true _) as [st' r] eqn:E.
    exact (apply_config_history _ _ _ _ _ st st' r E).
Qed.

Lemma falsy_is_not_the_marker config : py_truth config = false -> is_marker config = false.
Proof.
  destruct config as [| | |s| |]; try reflexivity.
  cbn. destruct (String.eqb s "") eqn:E; [|discriminate].
  apply String.eqb_eq in E. now subst.
Qed.

Lemma falsy_is_not_mutable config config_type :
  py_truth config = false -> mutable_source config config_type = false.
Proof. destruct config as [| | | | |[|kv items]]; try reflexivity. discriminate. Qed.

(** Unless the loaders work on the caller's own dictionary, a call that is
    no repetition appends [config] itself. *)
Lemma load_config_records st config from_env_var config_type :
  mutable_source config config_type = false ->
  existsb is_marker (loaded_config st) = true
    \/ configs_are_same (loaded_config st) config = false ->
  loaded_config (fst (load_config config from_env_var config_type st))
  = history st ++ [config].
Proof.
  intros Hmut Hnew. unfold Config.load_config, history.
  destruct (existsb is_marker (loaded_config st)) eqn:Hm.
  - unfold bind at 1. cbn [set_loaded_config].
    destruct (apply_config config from_env_var config_type false _) as [st' r] eqn:E.
    destruct (apply_config_history [] _ _ _ _ st st' r E) as (c' & Hc' & Hsame).
    cbn [fst]. rewrite Hc', (Hsame Hmut). reflexivity.
  - destruct Hnew as [Hnew | Hnew]; [discriminate|]. rewrite Hnew.
    unfold bind at 1. cbn [set_loaded_config].
    destruct (apply_config config from_env_var config_type true _) as [st' r] eqn:E.
    destruct (apply_config_history _ _ _ _ _ st st' r E) as (c' & Hc' & Hsame).
    cbn [fst]. rewrite Hc', (Hsame Hmut). reflexivity.
Qed.

(** A call that passes no [config] (the file is named by an environment
    variable) records the empty [config] it was given, whether it succeeds
    or fails.  From then on every call whose [config] is found no different
    from that empty value returns at once, whichever environment variable
    it names: the file it names is never read. *)
Theorem load_without_config_shadows_later_loads
        (st : CfgState) (config : pyval) (from_env_var : option string)
        (config_type : string) :
  py_truth config = false ->
  existsb is_marker (loaded_config st) = true
    \/ configs_are_same (loaded_config st) config = false ->
  let st' := fst (load_config config from_env_var config_type st) in
  loaded_config st' = history st ++ [config]
  /\ forall config' from_env_var' config_type',
       compare_objects config config' = [] ->
       load_config config' from_env_var' config_type' st' = (st', Ret tt).
Proof.
  intros Hfalsy Hnew. cbv zeta.
  pose proof (load_config_records st config from_env_var config_type
                (falsy_is_not_mutable _ _ Hfalsy) Hnew) as Hrec.
  split; [exact Hrec|].
  intros config' v' ty' Hsame.
  apply (load_config_recorded compare_objects environ yaml_load_file _ config config' v' ty').
  - rewrite Hrec. unfold history.
    destruct (existsb is_marker (loaded_config st)) eqn:Hm.
    + cbn. now rewrite (falsy_is_not_the_marker _ Hfalsy).
    + apply existsb_is_marker_snoc; [exact Hm | now apply falsy_is_not_the_marker].
  - rewrite Hrec. apply in_or_app. right. now left.
  - exact Hsame.
Qed.

(** Arguments that [load_config] rejects (no source given, an environment
    variable that is not set, a [config] of the wrong type for
    [config_type]) make it raise the exception of [rejects_arguments]
    without configuring anything, yet with [config] already appended to
    the history of loaded configurations. *)
Theorem rejected_arguments_are_still_recorded
        (st : CfgState) (config : pyval) (from_env_var : option string)
        (config_type : string) (e : pyexc) :
  String.eqb config_type "dict" || String.eqb config_type "yaml" = true ->
  existsb is_marker (loaded_config st) = true
    \/ configs_are_same (loaded_config st) config = false ->
  rejects_arguments environ config from_env_var config_type e ->
  exists st',
    load_config config from_env_var config_type st = (st', Raise e)
    /\ effects st' = effects st
    /\ devices st' = devices st
    /\ default_connection st' = default_connection st
    /\ loaded_config st' = history st ++ [config].
Proof.
  intros Hsup Hnew Hrej.
  assert (Hsup' : negb (String.eqb config_type "dict")
                  && negb (String.eqb config_type "yaml") = false).
  { apply orb_true_iff in Hsup. destruct Hsup as [-> | ->]; [reflexivity|].
    apply andb_false_r. }
  set (st' := mkCfg (history st ++ [config]) (devices st) (default_connection st)
                    config true (effects st)).
  assert (Hbody : forall add_only,
             bind (set_loaded_config (history st ++ [config]))
                  (fun _ => apply_config config from_env_var config_type add_only) st
             = (st', Raise e)).
  { intros add_only.
    unfold bind, set_loaded_config, Config.apply_config, bind_config, when.
    rewrite Hsup'. cbn [ret].
    destruct Hrej as [Hf [-> | ->] | var Hf -> Hne Hunset | Ht -> Hns | Ht -> Hnd].
    - rewrite Hf. reflexivity.
    - rewrite Hf. reflexivity.
    - rewrite Hf. cbn [negb]. destruct var as [|ch var]; [now elim Hne|].
      rewrite Hunset. reflexivity.
    - rewrite Ht. cbn [negb String.eqb Ascii.eqb Bool.eqb].
      destruct config as [| | |path| |]; try reflexivity. now elim (Hns path).
    - rewrite Ht. cbn [negb String.eqb Ascii.eqb Bool.eqb].
      destruct config as [| | | | |items]; try reflexivity. now elim (Hnd items). }
  exists st'. split; [|repeat split].
  unfold Config.load_config. unfold history in Hbody, st'.
  destruct (existsb is_marker (loaded_config st)) eqn:E; [apply Hbody|].
  destruct Hnew as [Hnew | Hnew]; [discriminate|]. rewrite Hnew. apply Hbody.
Qed.

End History.

(** ** Running a loader step by step *)

Lemma bind_assoc {A B C} (m : M A) (k : A -> M B) (h : B -> M C) st :
  bind (bind m k) h st = bind m (fun a => bind (k a) h) st.
Proof. unfold bind. now destruct (m st) as [st1 [a|e]]. Qed.

Lemma bind_ret {A B} (a : A) (k : A -> M B) st : bind (ret a) k st = k a st.
Proof. reflexivity. Qed.

Lemma bind_raise {A B} (e : pyexc) (k : A -> M B) st :
  bind (raise e) k st = (st, Raise e).
Proof. reflexivity. Qed.

Lemma bind_lift_ret {A B} (a : A) (k : A -> M B) st : bind (lift (Ret a)) k st = k a st.
Proof. reflexivity. Qed.

Lemma bind_lift_raise {A B} (e : pyexc) (k : A -> M B) st :
  bind (lift (Raise e)) k st = (st, Raise e).
Proof. reflexivity. Qed.

Lemma bind_get_config {B} (k : pyval -> M B) st :
  bind get_config k st = k (config_object st) st.
Proof. reflexivity. Qed.

Lemma bind_get_default_connection {B} (k : pyval -> M B) st :
  bind get_default_connection k st = k (default_connection st) st.
Proof. reflexivity. Qed.

Lemma bind_emit {B} (e : effect) (k : unit -> M B) st :
  bind (emit e) k st = k tt (fst (emit e st)).
Proof. reflexivity. Qed.

Lemma bind_register_device {B} (n : string) (k : unit -> M B) st :
  bind (register_device n) k st = k tt (fst (register_device n st)).
Proof. reflexivity. Qed.

Lemma bind_mutate_config {B} (c : pyval) (k : unit -> M B) st :
  bind (mutate_config c) k st = k tt (fst (mutate_config c st)).
Proof. reflexivity. Qed.

Lemma bind_store_default_connection {B} (d : pyval) (k : unit -> M B) st :
  bind (store_default_connection d) k st = k tt (fst (store_default_connection d st)).
Proof. reflexivity. Qed.

Lemma is_device_already_created_eq name st :
  _is_device_already_created name st
  = (st, Ret (existsb (String.eqb name) (devices st))).
Proof.
  unfold _is_device_already_created, get_device, bind, known_device.
  now destruct (existsb (String.eqb name) (devices st)).
Qed.

Lemma bind_is_device_already_created {B} name (k : bool -> M B) st :
  bind (_is_device_already_created name) k st
  = k (existsb (String.eqb name) (devices st)) st.
Proof. unfold bind. now rewrite is_device_already_created_eq. Qed.

Lemma lookup_store key v items : lookup key (store key v items) = Some v.
Proof.
  induction items as [|[k old] rest IH]; cbn.
  - now rewrite String.eqb_refl.
  - destruct (String.eqb key k) eqn:E; cbn; now rewrite E.
Qed.

Lemma lookup_in key items : In key (map fst items) <-> lookup key items <> None.
Proof.
  induction items as [|[k v] rest IH]; cbn.
  - split; [intros [] | congruence].
  - destruct (String.eqb key k) eqn:E.
    + apply String.eqb_eq in E. subst. split; [discriminate | auto].
    + apply String.eqb_neq in E. rewrite <- IH. split; [intros [H | H] | auto]; auto.
      now elim E.
Qed.

Lemma in_remove_key key other items :
  key <> other -> In key (map fst items) -> In key (map fst (remove_key other items)).
Proof.
  intros Hne. unfold remove_key. induction items as [|[k v] rest IH]; cbn; [auto|].
  intros [-> | Hin].
  - assert (String.eqb other key = false) as ->
      by (apply String.eqb_neq; congruence).
    now left.
  - destruct (negb (String.eqb other k)); [right|]; auto.
Qed.

Lemma known_existsb name l : In name l <-> existsb (String.eqb name) l = true.
Proof.
  rewrite existsb_exists. split.
  - intros H. exists name. split; [exact H | apply String.eqb_refl].
  - intros (x & Hin & Hx). apply String.eqb_eq in Hx. now subst.
Qed.

(** ** A device that exists already *)

Section KnownDevice.

Variable name : string.

Lemma not_redefined_start st : In name (devices st) -> not_redefined name st st.
Proof. intros H. split; [exact H|]. exists []. now rewrite app_nil_r. Qed.

Lemma not_redefined_emit st0 st e :
  defines name e = false ->
  not_redefined name st0 st -> not_redefined name st0 (fst (emit e st)).
Proof.
  intros He (Hk & new & Hn & Hf). split; [exact Hk|].
  exists (new ++ [e]). cbn. rewrite Hn, app_assoc, forallb_app, Hf. cbn.
  now rewrite He.
Qed.

Lemma define_devices_known st0 items devs names :
  lookup "DEVICES" items = Some (VDict devs) ->
  In name names ->
  forall cloned st,
    config_object st = VDict items ->
    not_redefined name st0 st ->
    exists st' e,
      define_devices names cloned st = (st', Raise e) /\ not_redefined name st0 st'.
Proof.
  intros Hdevs. induction names as [|n rest IH]; intros Hin cloned st Hcfg Hinv;
    [destruct Hin|].
  cbn [define_devices].
  rewrite bind_get_config, Hcfg.
  cbn [py_getitem]. rewrite Hdevs, bind_lift_ret.
  cbn [py_getitem].
  destruct (lookup n devs) as [device_def|];
    [rewrite bind_lift_ret | rewrite bind_lift_raise; eauto].
  rewrite bind_is_device_already_created.
  destruct (existsb (String.eqb n) (devices st)) eqn:Hknown;
    [do 2 eexists; split; [reflexivity | exact Hinv]|].
  assert (Hne : n <> name).
  { intros ->. destruct Hinv as [Hk _]. apply known_existsb in Hk. congruence. }
  assert (Hrest : In name rest) by (destruct Hin as [-> | H]; [now elim Hne | exact H]).
  destruct (py_in "CLONED_FROM" device_def) as [[|]|];
    [rewrite bind_lift_ret | rewrite bind_lift_ret | rewrite bind_lift_raise; eauto].
  - destruct (py_getitem device_def "CLONED_FROM");
      [rewrite bind_lift_ret | rewrite bind_lift_raise; eauto].
    destruct (py_get device_def "INITIAL_STATE" VNone);
      [rewrite bind_lift_ret | rewrite bind_lift_raise; eauto].
    now apply IH.
  - destruct (py_getitem device_def "DEVICE_CLASS");
      [rewrite bind_lift_ret | rewrite bind_lift_raise; eauto].
    rewrite bind_get_default_connection.
    destruct (py_get device_def "CONNECTION_DESC" (default_connection st));
      [rewrite bind_lift_ret | rewrite bind_lift_raise; eauto].
    destruct (py_get device_def "CONNECTION_HOPS" (VDict []));
      [rewrite bind_lift_ret | rewrite bind_lift_raise; eauto].
    destruct (py_get device_def "INITIAL_STATE" VNone);
      [rewrite bind_lift_ret | rewrite bind_lift_raise; eauto].
    rewrite bind_emit, bind_register_device.
    apply IH; [exact Hrest | exact Hcfg |].
    match goal with |- not_redefined name _ (fst (register_device _ (fst (emit ?e _)))) =>
      pose proof (not_redefined_emit st0 st e) as Hstep end.
    destruct Hstep as [Hk Hnew]; [|exact Hinv|].
    + cbn. apply String.eqb_neq. congruence.
    + split; [cbn; apply in_or_app; left; exact Hk | exact Hnew].
Qed.

(** A [DEVICES] section that names a device which exists already makes
    [load_device_from_config] raise, on a first load as on a reload, and
    whatever else the section holds; the device is neither defined nor
    cloned again. *)
Theorem known_device_blocks_load
        (add_only : bool) (st : CfgState) (items devs : list (string * pyval)) :
  config_object st = VDict items ->
  lookup "DEVICES" items = Some (VDict devs) ->
  In name (map fst devs) ->
  ~ In name reserved_device_keys ->
  In name (devices st) ->
  exists st' e new,
    load_device_from_config add_only st = (st', Raise e)
    /\ In name (devices st')
    /\ effects st' = effects st ++ new
    /\ forallb (fun x => negb (defines name x)) new = true.
Proof.
  intros Hcfg Hdevs Hin Hres Hknown.
  assert (Hr1 : name <> "DEFAULT_CONNECTION"%string) by (intros ->; apply Hres; cbn; auto).
  assert (Hr2 : name <> "CREATE_AT_STARTUP"%string) by (intros ->; apply Hres; cbn; auto).
  assert (Hr3 : name <> "LOGICAL_TOPOLOGY"%string) by (intros ->; apply Hres; cbn; auto).
  (* the loop, entered from any state that holds a [DEVICES] section *)
  assert (Hloop : forall items1 devs1 (create : pyval) st1
                          (K : pyval * pyval * list (string * (pyval * pyval)) -> M unit),
             config_object st1 = VDict items1 ->
             lookup "DEVICES" items1 = Some (VDict devs1) ->
             In name (map fst devs1) ->
             not_redefined name st st1 ->
             exists st' e,
               bind (config <- get_config ;;
                     devs <- lift (py_getitem config "DEVICES") ;;
                     ' (topology, devs') <-
                       lift (py_pop_default devs "LOGICAL_TOPOLOGY" VNone) ;;
                     mutate_config (set_section "DEVICES" devs' config) ;;
                     names <- lift (py_keys devs') ;;
                     cloned <- define_devices names [] ;;
                     ret (create, topology, cloned)) K st1
               = (st', Raise e) /\ not_redefined name st st').
  { intros items1 devs1 create st1 K H1 H2 H3 H4.
    rewrite ?bind_assoc, bind_get_config, H1.
    cbn [py_getitem]. rewrite H2.
    rewrite ?bind_assoc, bind_lift_ret.
    cbn [py_pop_default].
    rewrite ?bind_assoc, bind_lift_ret.
    rewrite ?bind_assoc, bind_mutate_config.
    cbn [py_keys set_section].
    rewrite ?bind_assoc, bind_lift_ret.
    rewrite ?bind_assoc.
    destruct (define_devices_known st
                (store "DEVICES" (VDict (remove_key "LOGICAL_TOPOLOGY" devs1)) items1)
                (remove_key "LOGICAL_TOPOLOGY" devs1)
                (map fst (remove_key "LOGICAL_TOPOLOGY" devs1))
                (lookup_store _ _ _)
                (in_remove_key _ _ _ Hr3 H3)
                []
                (fst (mutate_config
                        (VDict (store "DEVICES"
                                      (VDict (remove_key "LOGICAL_TOPOLOGY" devs1)) items1))
                        st1))
                eq_refl H4) as (st' & e & Hrun & Hinv).
    exists st', e. split; [|exact Hinv].
    unfold bind at 1. now rewrite Hrun. }
  (* the pop of [CREATE_AT_STARTUP] *)
  assert (Hstartup : forall items1 devs1 st1
                             (K : pyval * pyval * list (string * (pyval * pyval)) -> M unit),
             config_object st1 = VDict items1 ->
             lookup "DEVICES" items1 = Some (VDict devs1) ->
             In name (map fst devs1) ->
             not_redefined name st st1 ->
             exists st' e,
               bind (config <- get_config ;;
                     devs <- lift (py_getitem config "DEVICES") ;;
                     has_startup <- lift (py_in "CREATE_AT_STARTUP" devs) ;;
                     create_at_startup <-
                       (if (has_startup : bool) then
                          ' (v, devs') <- lift (py_pop devs "CREATE_AT_STARTUP") ;;
                          mutate_config (set_section "DEVICES" devs' config) ;;
                          ret v
                        else ret (VBool false)) ;;
                     config <- get_config ;;
                     devs <- lift (py_getitem config "DEVICES") ;;
                     ' (topology, devs') <-
                       lift (py_pop_default devs "LOGICAL_TOPOLOGY" VNone) ;;
                     mutate_config (set_section "DEVICES" devs' config) ;;
                     names <- lift (py_keys devs') ;;
                     cloned <- define_devices names [] ;;
                     ret (create_at_startup, topology, cloned)) K st1
               = (st', Raise e) /\ not_redefined name st st').
  { intros items1 devs1 st1 K H1 H2 H3 H4.
    rewrite ?bind_assoc, bind_get_config, H1.
    cbn [py_getitem]. rewrite H2.
    rewrite ?bind_assoc, bind_lift_ret.
    cbn [py_in py_pop].
    rewrite ?bind_assoc, bind_lift_ret.
    destruct (lookup "CREATE_AT_STARTUP" devs1) as [v|].
    - rewrite ?bind_assoc, bind_lift_ret.
      rewrite ?bind_assoc, bind_mutate_config, bind_ret.
      cbn [set_section].
      apply (Hloop (store "DEVICES" (VDict (remove_key "CREATE_AT_STARTUP" devs1)) items1)
                   (remove_key "CREATE_AT_STARTUP" devs1)).
      + reflexivity.
      + apply lookup_store.
      + now apply in_remove_key.
      + exact H4.
    - rewrite ?bind_assoc, bind_ret.
      now apply (Hloop items1 devs1). }
  enough (exists st' e,
             load_device_from_config add_only st = (st', Raise e)
             /\ not_redefined name st st')
    as (st' & e & Hrun & Hk & new & Hn & Hf) by (exists st', e, new; auto).
  unfold load_device_from_config.
  rewrite bind_get_config, Hcfg.
  cbn [py_in]. rewrite Hdevs, bind_lift_ret.
  cbn [py_getitem]. rewrite Hdevs.
  rewrite ?bind_assoc, bind_lift_ret.
  cbn [py_in py_pop].
  rewrite ?bind_assoc, bind_lift_ret.
  unfold when at 1.
  destruct (lookup "DEFAULT_CONNECTION" devs) as [default_conn|].
  - rewrite ?bind_assoc, bind_lift_ret.
    rewrite ?bind_assoc, bind_mutate_config.
    cbn [set_section]. unfold when at 1.
    destruct (negb add_only).
    + destruct (py_getitem default_conn "CONNECTION_DESC") as [conn_desc|err].
      * rewrite ?bind_assoc, bind_lift_ret.
        rewrite ?bind_assoc, bind_emit.
        rewrite bind_store_default_connection.
        apply (Hstartup
                 (store "DEVICES" (VDict (remove_key "DEFAULT_CONNECTION" devs)) items)
                 (remove_key "DEFAULT_CONNECTION" devs));
          [reflexivity | apply lookup_store | now apply in_remove_key |].
        match goal with
        | |- not_redefined name _ (fst (store_default_connection _ (fst (emit ?x ?s)))) =>
            destruct (not_redefined_emit st s x eq_refl) as [Hk Hnew]
        end.
        -- split; [exact Hknown|]. exists []. now rewrite app_nil_r.
        -- split; [exact Hk | exact Hnew].
      * rewrite ?bind_assoc, bind_lift_raise.
        exists (fst (mutate_config
                       (VDict (store "DEVICES"
                                     (VDict (remove_key "DEFAULT_CONNECTION" devs)) items))
                       st)), err.
        split; [reflexivity|].
        split; [exact Hknown|]. exists []. now rewrite app_nil_r.
    + rewrite bind_ret.
      apply (Hstartup
               (store "DEVICES" (VDict (remove_key "DEFAULT_CONNECTION" devs)) items)
               (remove_key "DEFAULT_CONNECTION" devs));
        [reflexivity | apply lookup_store | now apply in_remove_key |].
      split; [exact Hknown|]. exists []. now rewrite app_nil_r.
  - rewrite bind_ret.
    apply (Hstartup items devs);
      [exact Hcfg | exact Hdevs | exact Hin | apply not_redefined_start; exact Hknown].
Qed.

End KnownDevice.

(** ** The order in which a first load applies the sections *)

Lemma emits_only_refl P st : emits_only P st st.
Proof. exists []. now rewrite app_nil_r. Qed.

Lemma emits_only_trans P st1 st2 st3 :
  emits_only P st1 st2 -> emits_only P st2 st3 -> emits_only P st1 st3.
Proof.
  intros (n1 & H1 & F1) (n2 & H2 & F2). exists (n1 ++ n2).
  now rewrite H2, H1, app_assoc, forallb_app, F1, F2.
Qed.

Lemma emits_only_quiet P st st' : effects st' = effects st -> emits_only P st st'.
Proof. intros H. exists []. now rewrite app_nil_r. Qed.

Lemma emits_only_emit (P : effect -> bool) e :
  P e = true -> frames (emits_only P) (emit e).
Proof.
  intros He st st' r H. inversion H; subst. exists [e]. cbn. now rewrite He.
Qed.

Lemma emits_only_mutate_config P c : frames (emits_only P) (mutate_config c).
Proof. intros st st' r H. inversion H; subst. now apply emits_only_quiet. Qed.

Lemma emits_only_register_device P n : frames (emits_only P) (register_device n).
Proof. intros st st' r H. inversion H; subst. now apply emits_only_quiet. Qed.

Lemma emits_only_store_default_connection P d :
  frames (emits_only P) (store_default_connection d).
Proof. intros st st' r H. inversion H; subst. now apply emits_only_quiet. Qed.

Lemma emits_only_bind_config P c a : frames (emits_only P) (bind_config c a).
Proof. intros st st' r H. inversion H; subst. now apply emits_only_quiet. Qed.

Lemma logger_section_emits : frames (emits_only is_logger_effect) load_logger_from_config.
Proof.
  apply frames_load_logger_from_config;
    [apply emits_only_refl | apply emits_only_trans | intros e He; now apply emits_only_emit].
Qed.

Lemma logger_section_returns st st' :
  load_logger_from_config st = (st', Ret tt) ->
  exists L0, effects st' = effects st ++ L0 ++ [ConfigureMolerMainLogger]
             /\ forallb is_logger_effect L0 = true.
Proof.
  intros H.
  destruct (load_logger_from_config_returns (emits_only is_logger_effect)
              (emits_only_refl _) (emits_only_trans _) st st'
              (fun e He => emits_only_emit _ e He) H) as (st1 & (L0 & HL0 & HF) & ->).
  exists L0. cbn. now rewrite HL0, app_assoc.
Qed.

Lemma connection_section_emits :
  frames (emits_only is_named_connection_effect) load_connection_from_config.
Proof.
  apply frames_load_connection_from_config;
    [apply emits_only_refl | apply emits_only_trans | apply emits_only_mutate_config
     | intros e He; now apply emits_only_emit].
Qed.

Lemma device_section_emits add_only :
  frames (emits_only is_device_effect) (load_device_from_config add_only).
Proof.
  apply frames_load_device_from_config;
    [apply emits_only_refl | apply emits_only_trans | apply emits_only_mutate_config
     | apply emits_only_register_device | apply emits_only_store_default_connection
     | intros e He; now apply emits_only_emit].
Qed.

Section Order.

Variable compare_objects : pyval -> pyval -> list string.
Variable environ : string -> option string.
Variable yaml_load_file : string -> res pyval.

Abbreviation load_config := (load_config compare_objects environ yaml_load_file).
Abbreviation apply_config := (apply_config environ yaml_load_file).

(** A first load applies the sections in the order logger, connections,
    devices, and stops at the first exception without undoing anything:
    what it has done is a run of logger settings, then a run of connection
    definitions, then a run of device definitions.  Whenever the load
    returns, or has got as far as configuring a connection or a device, the
    logger settings end with the configuration of the main logger. *)
Theorem first_load_applies_sections_in_order
        (st : CfgState) (config : pyval) (from_env_var : option string)
        (config_type : string) :
  existsb is_marker (loaded_config st) = true ->
  let out := load_config config from_env_var config_type st in
  exists L C D,
    effects (fst out) = effects st ++ L ++ C ++ D
    /\ forallb is_logger_effect L = true
    /\ forallb is_named_connection_effect C = true
    /\ forallb is_device_effect D = true
    /\ (snd out = Ret tt \/ C ++ D <> [] ->
        exists L0, L = L0 ++ [ConfigureMolerMainLogger]).
Proof.
  intros Hm. cbv zeta.
  destruct (load_config config from_env_var config_type st) as [sf rf] eqn:E.
  cbn [fst snd].
  assert (Hnothing : effects sf = effects st ->
                     rf <> Ret tt ->
                     exists L C D,
                       effects sf = effects st ++ L ++ C ++ D
                       /\ forallb is_logger_effect L = true
                       /\ forallb is_named_connection_effect C = true
                       /\ forallb is_device_effect D = true
                       /\ (rf = Ret tt \/ C ++ D <> [] ->
                           exists L0, L = L0 ++ [ConfigureMolerMainLogger])).
  { intros Hs Hr. exists [], [], []. cbn. rewrite app_nil_r.
    repeat split; auto. intros [H | H]; [now elim Hr | now elim H]. }
  unfold Config.load_config in E. rewrite Hm in E.
  unfold bind at 1 in E. cbn [set_loaded_config] in E.
  unfold Config.apply_config in E.
  unfold bind at 1 in E. cbn [bind_config] in E.
  unfold bind at 1 in E. unfold when at 1 in E.
  destruct (negb (String.eqb config_type "dict") && negb (String.eqb config_type "yaml")).
  { inversion E; subst. apply Hnothing; [reflexivity | discriminate]. }
  cbn [ret] in E. unfold bind at 1 in E.
  match type of E with
  | context [match ?m ?s with _ => _ end] =>
      assert (Hsrc : frames (emits_only (fun _ => false)) m);
      [|destruct (m s) as [s2 [u|e]] eqn:Esrc;
        apply Hsrc in Esrc; destruct Esrc as (n0 & Hn0 & Hf0);
        (destruct n0; [|discriminate]); rewrite app_nil_r in Hn0; cbn in Hn0]
  end.
  { pose proof (emits_only_refl (fun _ => false)) as Hr.
    pose proof (emits_only_trans (fun _ => false)) as Ht.
    pose proof (emits_only_bind_config (fun _ => false)) as Hb.
    repeat frames_step. }
  2:{ inversion E; subst. apply Hnothing; [exact Hn0 | discriminate]. }
  cbn [negb when] in E. unfold bind at 1 in E. unfold bind at 1 in E.
  destruct (load_logger_from_config s2) as [s3 [[]|e]] eqn:EL.
  2:{ destruct (logger_section_emits _ _ _ EL) as (L & HL & HFL).
      inversion E; subst.
      exists L, [], []. cbn. rewrite app_nil_r, HL, Hn0.
      repeat split; auto. intros [H | H]; [discriminate | now elim H]. }
  destruct (logger_section_returns _ _ EL) as (L0 & HL & HFL).
  assert (HFL' : forallb is_logger_effect (L0 ++ [ConfigureMolerMainLogger]) = true)
    by (rewrite forallb_app, HFL; reflexivity).
  destruct (load_connection_from_config s3) as [s4 [[]|e]] eqn:EC;
    destruct (connection_section_emits _ _ _ EC) as (C & HC & HFC).
  2:{ inversion E; subst.
      exists (L0 ++ [ConfigureMolerMainLogger]), C, []. cbn.
      rewrite app_nil_r, HC, HL, Hn0, <- !app_assoc.
      repeat split; auto. intros _. now exists L0. }
  destruct (device_section_emits _ _ _ _ E) as (D & HD & HFD).
  exists (L0 ++ [ConfigureMolerMainLogger]), C, D.
  rewrite HD, HC, HL, Hn0, <- !app_assoc.
  repeat split; auto. intros _. now exists L0.
Qed.

(** A dictionary with none of the sections [LOGGER], [NAMED_CONNECTIONS],
    [IO_TYPES] and [DEVICES] is a valid first configuration: the load
    returns, records the dictionary, configures the main logger and does
    nothing else. *)
Theorem sections_are_optional
        (st : CfgState) (items : list (string * pyval)) (from_env_var : option string) :
  existsb is_marker (loaded_config st) = true ->
  items <> [] ->
  lookup "LOGGER" items = None ->
  lookup "NAMED_CONNECTIONS" items = None ->
  lookup "IO_TYPES" items = None ->
  lookup "DEVICES" items = None ->
  load_config (VDict items) from_env_var "dict" st
  = (mkCfg [VDict items] (devices st) (default_connection st) (VDict items) true
           (effects st ++ [ConfigureMolerMainLogger]),
     Ret tt).
Proof.
  intros Hm Hne Hl Hn Hi Hd. unfold Config.load_config. rewrite Hm.
  unfold bind at 1. cbn [set_loaded_config].
  unfold Config.apply_config.
  unfold bind at 1. cbn [bind_config].
  unfold bind at 1. unfold when at 1. cbn [String.eqb Ascii.eqb Bool.eqb negb andb ret].
  destruct items as [|kv rest]; [now elim Hne|].
  cbn [py_truth negb loaded_config devices default_connection effects].
  unfold load_logger_from_config, load_connection_from_config, load_device_from_config.
  repeat first
    [ rewrite bind_assoc | rewrite bind_ret | rewrite bind_lift_ret
    | rewrite bind_get_config | rewrite bind_emit
    | rewrite Hl | rewrite Hn | rewrite Hi | rewrite Hd
    | progress cbn [when negb config_object py_in emit fst for_each
                    loaded_config devices default_connection effects config_aliased] ].
  reflexivity.
Qed.

End Order.

Lemma load_without_config_witness :
  let load_env := Config.load_config structural_compare lab_environ lab_files in
  let st' := fst (load_env VNone (Some "MOLER_CONFIG"%string) "yaml"%string initial_state) in
  loaded_config st' = history initial_state ++ [VNone]
  /\ forall config' from_env_var' config_type',
       structural_compare VNone config' = [] ->
       load_env config' from_env_var' config_type' st' = (st', Ret tt).
Proof.
  assert (Hfalsy : py_truth VNone = false) by reflexivity.
  assert (Hfirst : existsb is_marker (loaded_config initial_state) = true)
    by (vm_compute; reflexivity).
  exact (load_without_config_shadows_later_loads structural_compare lab_environ lab_files
           initial_state VNone (Some "MOLER_CONFIG"%string) "yaml"%string
           Hfalsy (or_introl Hfirst)).
Defined.

Lemma rejected_arguments_witness :
  exists st',
    load VNone (Some "MOLER_CONFIG"%string) "yaml"%string initial_state
    = (st', Raise (KeyError "Environment variable 'MOLER_CONFIG' is not set"))
    /\ effects st' = effects initial_state
    /\ devices st' = devices initial_state
    /\ default_connection st' = default_connection initial_state
    /\ loaded_config st' = history initial_state ++ [VNone].
Proof.
  assert (Hsup : String.eqb "yaml" "dict" || String.eqb "yaml" "yaml" = true)
    by (vm_compute; reflexivity).
  assert (Hfirst : existsb is_marker (loaded_config initial_state) = true)
    by (vm_compute; reflexivity).
  assert (Hne : "MOLER_CONFIG"%string <> ""%string) by discriminate.
  unfold load.
  exact (rejected_arguments_are_still_recorded structural_compare no_environ lab_files
           initial_state VNone (Some "MOLER_CONFIG"%string) "yaml"%string _
           Hsup (or_introl Hfirst)
           (variable_not_set no_environ VNone _ _ "MOLER_CONFIG" eq_refl eq_refl Hne
                             eq_refl)).
Defined.

Lemma known_device_witness :
  let st := fst (bind_config unix_again true lab_loaded) in
  exists st' e new,
    load_device_from_config true st = (st', Raise e)
    /\ In "UNIX"%string (devices st')
    /\ effects st' = effects st ++ new
    /\ forallb (fun x => negb (defines "UNIX" x)) new = true.
Proof.
  intro st.
  assert (Hcfg : config_object st
                 = VDict [("DEVICES"%string,
                           VDict [("AT_REMOTE"%string,
                                   VDict [("DEVICE_CLASS"%string,
                                           VStr "moler.device.atremote.AtRemote")]);
                                  ("UNIX"%string,
                                   VDict [("DEVICE_CLASS"%string,
                                           VStr "moler.device.unixremote.UnixRemote")])])])
    by (vm_compute; reflexivity).
  assert (Hin : In "UNIX"%string
                   (map fst [("AT_REMOTE"%string,
                              VDict [("DEVICE_CLASS"%string,
                                      VStr "moler.device.atremote.AtRemote")]);
                             ("UNIX"%string,
                              VDict [("DEVICE_CLASS"%string,
                                      VStr "moler.device.unixremote.UnixRemote")])]))
    by (right; left; reflexivity).
  assert (Hres : ~ In "UNIX"%string reserved_device_keys)
    by (intros [H | [H | [H | []]]]; discriminate).
  assert (Hknown : In "UNIX"%string (devices st)) by (vm_compute; left; reflexivity).
  exact (known_device_blocks_load "UNIX" true st _ _ Hcfg eq_refl Hin Hres Hknown).
Defined.

Lemma first_load_order_witness :
  let out := load lab_config None "dict"%string initial_state in
  exists L C D,
    effects (fst out) = effects initial_state ++ L ++ C ++ D
    /\ forallb is_logger_effect L = true
    /\ forallb is_named_connection_effect C = true
    /\ forallb is_device_effect D = true
    /\ (snd out = Ret tt \/ C ++ D <> [] ->
        exists L0, L = L0 ++ [ConfigureMolerMainLogger]).
Proof.
  assert (Hfirst : existsb is_marker (loaded_config initial_state) = true)
    by (vm_compute; reflexivity).
  unfold load.
  exact (first_load_applies_sections_in_order structural_compare no_environ lab_files
           initial_state lab_config None "dict"%string Hfirst).
Defined.

Lemma sections_are_optional_witness :
  load notes_only None "dict"%string initial_state
  = (mkCfg [notes_only] [] VNone notes_only true [ConfigureMolerMainLogger], Ret tt).
Proof.
  assert (Hfirst : existsb is_marker (loaded_config initial_state) = true)
    by (vm_compute; reflexivity).
  assert (Hne : [("NOTES"%string, VStr "lab 7, rack 2")] <> []) by discriminate.
  unfold load.
  exact (sections_are_optional structural_compare no_environ lab_files initial_state
           [("NOTES"%string, VStr "lab 7, rack 2")] None Hfirst Hne
           eq_refl eq_refl eq_refl eq_refl).
Defined.

End ConfigExtras.

(* ================================================================== *)
(** * Reloading a configuration *)
(* ================================================================== *)

Module ConfigReload.
Import Config ConfigFacts ConfigExtras.
#[local] Open Scope list_scope.

(** ** Dictionaries *)

Lemma lookup_remove_key_other key other items :
  key <> other -> lookup key (remove_key other items) = lookup key items.
Proof.
  intros Hne. unfold remove_key.
  induction items as [|[k v] rest IH]; cbn; [reflexivity|].
  destruct (String.eqb other k) eqn:Eo; cbn.
  - apply String.eqb_eq in Eo. subst k.
    assert (String.eqb key other = false) as -> by (now apply String.eqb_neq).
    exact IH.
  - destruct (String.eqb key k); [reflexivity | exact IH].
Qed.

Lemma remove_key_absent key items :
  lookup key items = None -> remove_key key items = items.
Proof.
  unfold remove_key. induction items as [|[k v] rest IH]; cbn; [reflexivity|].
  destruct (String.eqb key k) eqn:E; [discriminate|]. intros H. cbn. now rewrite IH.
Qed.

Lemma lookup_nodup items :
  NoDup (map fst items) ->
  forall n d, In (n, d) items -> lookup n items = Some d.
Proof.
  induction items as [|[k v] rest IH]; intros Hnd n d Hin; [destruct Hin|].
  cbn in Hnd. inversion Hnd as [|? ? Hnotin Hrest]; subst. cbn.
  destruct Hin as [Heq | Hin].
  - inversion Heq; subst. now rewrite String.eqb_refl.
  - destruct (String.eqb n k) eqn:E.
    + apply String.eqb_eq in E. subst. elim Hnotin.
      apply in_map_iff. exists (k, d). auto.
    + now apply IH.
Qed.

(** ** The loop over the devices of a section *)

Lemma define_devices_adds items entries cloned :
  lookup "DEVICES" items = Some (VDict entries) ->
  forall todo defs st,
    (forall n d, In (n, d) todo -> lookup n entries = Some d) ->
    NoDup (map fst todo) ->
    (forall n, In n (map fst todo) -> ~ In n (devices st)) ->
    config_object st = VDict items ->
    map (definition_of (default_connection st)) todo = map Some defs ->
    exists st',
      define_devices (map fst todo) cloned st = (st', Ret cloned)
      /\ devices st' = devices st ++ map fst todo
      /\ effects st' = effects st ++ defs
      /\ default_connection st' = default_connection st.
Proof.
  intros Hdevs.
  induction todo as [|[n d] todo IH]; intros defs st Hlook Hnd Hfresh Hcfg Hdefs.
  - destruct defs; [|discriminate]. exists st. cbn. rewrite !app_nil_r. auto.
  - destruct defs as [|e defs]; [discriminate|].
    cbn [map] in Hdefs. inversion Hdefs as [[He Hrest]].
    cbn [map fst define_devices].
    rewrite bind_get_config, Hcfg. cbn [py_getitem]. rewrite Hdevs, bind_lift_ret.
    cbn [py_getitem]. rewrite (Hlook n d (or_introl eq_refl)), bind_lift_ret.
    rewrite bind_is_device_already_created.
    assert (existsb (String.eqb n) (devices st) = false) as ->.
    { destruct (existsb (String.eqb n) (devices st)) eqn:E; [|reflexivity].
      apply known_existsb in E. elim (Hfresh n); [now left | exact E]. }
    unfold definition_of in He. destruct d as [| | | | |dd]; try discriminate.
    destruct (lookup "CLONED_FROM" dd) eqn:Hc; [discriminate|].
    destruct (lookup "DEVICE_CLASS" dd) as [device_class|] eqn:Hcls; [|discriminate].
    injection He as He'. subst e.
    cbn [py_in]. rewrite Hc, bind_lift_ret. cbn [py_getitem].
    rewrite Hcls, bind_lift_ret, bind_get_default_connection. cbn [py_get].
    rewrite !bind_lift_ret, bind_emit, bind_register_device.
    inversion Hnd as [|? ? Hnotin Hnd']; subst.
    match goal with
    | |- context [define_devices _ _ ?s] =>
        destruct (IH defs s) as (st' & Hrun & Hd & Heff & Hdc)
    end.
    + intros n' d' Hin. apply Hlook. now right.
    + exact Hnd'.
    + intros n' Hin Hknown. cbn in Hknown. apply in_app_or in Hknown.
      destruct Hknown as [Hknown | [<- | []]].
      * apply (Hfresh n'); [now right | exact Hknown].
      * now apply Hnotin.
    + exact Hcfg.
    + exact Hrest.
    + exists st'. split; [exact Hrun|]. rewrite Hd, Heff. cbn.
      rewrite <- !app_assoc. auto.
Qed.

(** ** The device loader on a reload *)

Ltac run_loader :=
  repeat first
    [ rewrite bind_assoc | rewrite bind_ret | rewrite bind_lift_ret
    | rewrite bind_get_config | rewrite bind_mutate_config | rewrite bind_emit
    | rewrite lookup_store
    | progress cbn [when negb py_in py_pop py_pop_default py_getitem py_keys
                    mutate_config set_section fst snd config_object for_each] ].

Lemma device_loader_adds st items devs defs :
  config_object st = VDict items ->
  lookup "DEVICES" items = Some (VDict devs) ->
  (forall t, lookup "LOGICAL_TOPOLOGY" devs = Some t -> py_truth t = false) ->
  NoDup (map fst (device_entries devs)) ->
  (forall n, In n (map fst (device_entries devs)) -> ~ In n (devices st)) ->
  map (definition_of (default_connection st)) (device_entries devs) = map Some defs ->
  exists st',
    load_device_from_config true st = (st', Ret tt)
    /\ devices st' = devices st ++ map fst (device_entries devs)
    /\ effects st' = effects st ++ defs ++ startup_effects devs
    /\ default_connection st' = default_connection st.
Proof.
  intros Hcfg Hdevs Htopo Hnd Hfresh Hdefs.
  unfold load_device_from_config.
  rewrite bind_get_config, Hcfg. cbn [py_in]. rewrite Hdevs, bind_lift_ret.
  rewrite !bind_assoc. cbn [py_getitem]. rewrite Hdevs, bind_lift_ret.
  cbn [py_in].
  unfold device_entries in *. unfold startup_effects.
  assert (Hs : forall l, lookup "CREATE_AT_STARTUP" (remove_key "DEFAULT_CONNECTION" l)
                         = lookup "CREATE_AT_STARTUP" l)
    by (intros l; apply lookup_remove_key_other; discriminate).
  assert (Ht1 : forall l, lookup "LOGICAL_TOPOLOGY" (remove_key "DEFAULT_CONNECTION" l)
                          = lookup "LOGICAL_TOPOLOGY" l)
    by (intros l; apply lookup_remove_key_other; discriminate).
  assert (Ht2 : forall l, lookup "LOGICAL_TOPOLOGY" (remove_key "CREATE_AT_STARTUP" l)
                          = lookup "LOGICAL_TOPOLOGY" l)
    by (intros l; apply lookup_remove_key_other; discriminate).
  destruct (lookup "DEFAULT_CONNECTION" devs) as [dflt|] eqn:Hdef;
    [|rewrite (remove_key_absent _ _ Hdef) in Hnd, Hfresh, Hdefs |- *];
    (destruct (lookup "CREATE_AT_STARTUP" devs) as [startup|] eqn:Hst;
     [|first [ rewrite (remove_key_absent "CREATE_AT_STARTUP"
                          (remove_key "DEFAULT_CONNECTION" devs)
                          (eq_trans (Hs devs) Hst)) in Hnd, Hfresh, Hdefs |- *
             | rewrite (remove_key_absent "CREATE_AT_STARTUP" devs Hst)
                 in Hnd, Hfresh, Hdefs |- * ]]);
    repeat first [ progress run_loader | rewrite Hdef | rewrite Hs | rewrite Hst
                 | rewrite Ht1 | rewrite Ht2 | rewrite Hcfg | rewrite Hdevs ].
  all: match goal with
       | |- context [bind (define_devices (map fst ?entries) []) _ ?s] =>
           match eval cbn [config_object] in (config_object s) with
           | VDict ?its =>
               destruct (define_devices_adds its entries [] (lookup_store _ _ _)
                           entries defs s (lookup_nodup entries Hnd) Hnd Hfresh
                           eq_refl Hdefs)
                 as (st1 & Hrun & Hd & He & Hdc)
           end
       end;
    unfold bind at 1; rewrite Hrun; run_loader;
    assert (Hfalsy : py_truth match lookup "LOGICAL_TOPOLOGY" devs with
                              | Some x => x
                              | None => VNone
                              end = false)
      by (destruct (lookup "LOGICAL_TOPOLOGY" devs) as [t|];
          [now apply Htopo | reflexivity]);
    unfold _load_topology; rewrite Hfalsy;
    try (destruct startup as [|[|]| | | |]);
    run_loader;
    (eexists; split; [reflexivity|]);
    cbn [emit fst devices effects default_connection];
    rewrite ?Hd, ?He, ?Hdc; cbn [devices effects default_connection];
    rewrite ?app_nil_r, <- ?app_assoc; auto.
Qed.

(** ** Calls of [load_config] *)

Section Reload.

Variable compare_objects : pyval -> pyval -> list string.
Variable environ : string -> option string.
Variable yaml_load_file : string -> res pyval.

Abbreviation configs_are_same := (configs_are_same compare_objects).
Abbreviation load_config := (load_config compare_objects environ yaml_load_file).
Abbreviation apply_config := (apply_config environ yaml_load_file).
Abbreviation load_all := (load_all compare_objects environ yaml_load_file).
Abbreviation provides := (provides environ yaml_load_file).

(** A recorded configuration stays recorded through a call that records its
    [config] as it was passed. *)
Lemma load_keeps_record st c config from_env_var config_type :
  existsb is_marker (loaded_config st) = false ->
  In c (loaded_config st) ->
  recorded_as_passed (config, from_env_var, config_type) = true ->
  let st' := fst (load_config config from_env_var config_type st) in
  existsb is_marker (loaded_config st') = false /\ In c (loaded_config st').
Proof.
  intros Hm Hin Hrec. cbv zeta. cbn in Hrec.
  apply andb_true_iff in Hrec. destruct Hrec as [Hnm Hmut].
  apply negb_true_iff in Hnm, Hmut.
  destruct (configs_are_same (loaded_config st) config) eqn:Hsame.
  - unfold Config.load_config. rewrite Hm, Hsame. auto.
  - rewrite (load_config_records compare_objects environ yaml_load_file
               st config from_env_var config_type Hmut (or_intror Hsame)).
    unfold history. rewrite Hm. split.
    + now apply existsb_is_marker_snoc.
    + apply in_or_app. now left.
Qed.

Lemma load_all_keeps_record later : forall st c,
  existsb is_marker (loaded_config st) = false ->
  In c (loaded_config st) ->
  forallb recorded_as_passed later = true ->
  existsb is_marker (loaded_config (load_all later st)) = false
  /\ In c (loaded_config (load_all later st)).
Proof.
  induction later as [|[[config from_env_var] config_type] later IH];
    intros st c Hm Hin Hall; cbn [ReloadScenarios.load_all]; [auto|].
  cbn [forallb] in Hall. apply andb_true_iff in Hall. destruct Hall as [Hrec Hall].
  destruct (load_keeps_record st c config from_env_var config_type Hm Hin Hrec)
    as [Hm' Hin'].
  now apply IH.
Qed.

(** A call that is no repetition and records its [config] as it was passed
    leaves it recorded, with the marker gone. *)
Lemma load_records_its_config st config from_env_var config_type :
  recorded_as_passed (config, from_env_var, config_type) = true ->
  existsb is_marker (loaded_config st) = true
    \/ configs_are_same (loaded_config st) config = false ->
  let st' := fst (load_config config from_env_var config_type st) in
  existsb is_marker (loaded_config st') = false /\ In config (loaded_config st').
Proof.
  intros Hrec Hnew. cbv zeta. cbn in Hrec.
  apply andb_true_iff in Hrec. destruct Hrec as [Hnm Hmut].
  apply negb_true_iff in Hnm, Hmut.
  rewrite (load_config_records compare_objects environ yaml_load_file
             st config from_env_var config_type Hmut Hnew).
  split; [|apply in_or_app; right; now left].
  unfold history. destruct (existsb is_marker (loaded_config st)) eqn:Hm.
  - cbn. now rewrite Hnm.
  - now apply existsb_is_marker_snoc.
Qed.

(** On a reload [apply_config] comes to the device loader with the
    document bound to [config] and nothing else changed. *)
Lemma reload_reaches_device_loader st config from_env_var config_type doc :
  existsb is_marker (loaded_config st) = false ->
  configs_are_same (loaded_config st) config = false ->
  provides config from_env_var config_type doc ->
  exists aliased,
    load_config config from_env_var config_type st
    = load_device_from_config true
        (mkCfg (loaded_config st ++ [config]) (devices st) (default_connection st)
               doc aliased (effects st)).
Proof.
  intros Hm Hdiff Hsrc. unfold Config.load_config. rewrite Hm, Hdiff.
  unfold bind at 1. cbn [set_loaded_config].
  unfold Config.apply_config.
  unfold bind at 1. cbn [bind_config loaded_config devices default_connection effects].
  destruct Hsrc as [kv items -> -> -> | path -> -> Habs Hread
                    | var path Hty Hfalsy -> Hne Henv Habs Hread].
  - exists true. reflexivity.
  - exists false.
    assert (Htruth : py_truth (VStr path) = true).
    { destruct path as [|ch path]; [discriminate | reflexivity]. }
    unfold bind at 1. cbn [when String.eqb Ascii.eqb Bool.eqb negb andb ret].
    rewrite Htruth. cbn [negb]. unfold bind at 1. unfold bind at 1.
    unfold Config.read_yaml_configfile. rewrite Habs, Hread. reflexivity.
  - exists false.
    assert (Hsup : negb (String.eqb config_type "dict")
                   && negb (String.eqb config_type "yaml") = false)
      by (destruct Hty as [-> | ->]; reflexivity).
    unfold bind at 1. rewrite Hsup. cbn [when ret]. rewrite Hfalsy. cbn [negb].
    destruct var as [|ch var]; [now elim Hne|]. rewrite Henv.
    unfold bind at 1. unfold bind at 1.
    unfold Config.read_yaml_configfile. rewrite Habs, Hread. reflexivity.
Qed.

(** C9, as amended.  Three facts about a call of [load_config] that is not
    the first.

    A call returns at once and leaves the whole state as it was when
    [compare_objects] finds its [config] no different from the [config] of
    an earlier call, given that the earlier call was no repetition itself
    and that it and the calls since recorded their [config] as it was
    passed (a YAML file name or an empty value; not a dictionary that the
    loaders work on).

    A call whose [config] differs from every recorded one runs the device
    loader and nothing else: the known devices stay known, the default
    connection is as it was, and every effect defines or clones a device
    under a name that was not known, creates the defined devices or links
    neighbours; no logger and no connection is configured.

    Such a call does add the devices: for a document whose [DEVICES]
    section defines devices directly, under names that are new and differ
    from each other, and has no topology, the call returns, calls
    [define_device] once for each entry in the order of the section,
    registers the names in that order, and creates the devices when
    [CREATE_AT_STARTUP] is [True].  A [DEFAULT_CONNECTION] in the section
    is dropped; the devices get the default connection of the first
    load. *)
Theorem reload_returns_or_runs_device_loader :
  (forall (st : CfgState) (c : pyval) (v : option string) (ty : string)
          (later : list call)
          (config' : pyval) (from_env_var' : option string) (config_type' : string),
      recorded_as_passed (c, v, ty) = true ->
      existsb is_marker (loaded_config st) = true
        \/ configs_are_same (loaded_config st) c = false ->
      forallb recorded_as_passed later = true ->
      compare_objects c config' = [] ->
      let st1 := load_all ((c, v, ty) :: later) st in
      load_config config' from_env_var' config_type' st1 = (st1, Ret tt))
  /\ (forall (st : CfgState) (config : pyval) (from_env_var : option string)
             (config_type : string),
         existsb is_marker (loaded_config st) = false ->
         (forall c, In c (loaded_config st) -> compare_objects c config <> []) ->
         let st' := fst (load_config config from_env_var config_type st) in
         incl (devices st) (devices st')
         /\ default_connection st' = default_connection st
         /\ exists new,
             effects st' = effects st ++ new
             /\ forallb (new_device_effect (devices st)) new = true
             /\ forallb (fun e => negb (is_logger_effect e)
                                  && negb (is_connection_effect e)) new = true)
  /\ (forall (st : CfgState) (config : pyval) (from_env_var : option string)
             (config_type : string) (items devs : list (string * pyval))
             (defs : list effect),
         existsb is_marker (loaded_config st) = false ->
         (forall c, In c (loaded_config st) -> compare_objects c config <> []) ->
         provides config from_env_var config_type (VDict items) ->
         lookup "DEVICES" items = Some (VDict devs) ->
         (forall t, lookup "LOGICAL_TOPOLOGY" devs = Some t -> py_truth t = false) ->
         NoDup (map fst (device_entries devs)) ->
         (forall n, In n (map fst (device_entries devs)) -> ~ In n (devices st)) ->
         map (definition_of (default_connection st)) (device_entries devs)
         = map Some defs ->
         exists st',
           load_config config from_env_var config_type st = (st', Ret tt)
           /\ devices st' = devices st ++ map fst (device_entries devs)
           /\ effects st' = effects st ++ defs ++ startup_effects devs
           /\ default_connection st' = default_connection st).
Proof.
  split; [|split].
  - intros st c v ty later config' v' ty' Hrec Hnew Hlater Hsame.
    cbv zeta. cbn [ReloadScenarios.load_all].
    destruct (load_records_its_config st c v ty Hrec Hnew) as [Hm Hin].
    destruct (load_all_keeps_record later _ c Hm Hin Hlater) as [Hm' Hin'].
    exact (load_config_recorded compare_objects environ yaml_load_file
             _ c config' v' ty' Hm' Hin' Hsame).
  - intros st config from_env_var config_type Hm Hdiff.
    apply (configs_are_same_false compare_objects) in Hdiff.
    unfold Config.load_config. rewrite Hm, Hdiff. cbv zeta.
    destruct (bind (set_loaded_config (loaded_config st ++ [config]))
                   (fun _ => apply_config config from_env_var config_type true) st)
      as [st' r] eqn:E.
    cbn [fst].
    assert (Ht : triple (devices st)
                   (bind (set_loaded_config (loaded_config st ++ [config]))
                         (fun _ => apply_config config from_env_var config_type true))
                   anything).
    { apply triple_then; [apply triple_set_loaded_config
                         | intros _; apply triple_apply_config]. }
    destruct (Ht st st' r (incl_refl _) E) as [(Hi & Hd & new & He & Hf) _].
    split; [exact Hi|]. split; [exact Hd|].
    exists new. split; [exact He|]. split; [exact Hf|].
    exact (new_device_effect_not_logger_nor_connection _ _ Hf).
  - intros st config from_env_var config_type items devs defs
           Hm Hdiff Hsrc Hdevs Htopo Hnd Hfresh Hdefs.
    apply (configs_are_same_false compare_objects) in Hdiff.
    destruct (reload_reaches_device_loader st config from_env_var config_type
                (VDict items) Hm Hdiff Hsrc) as [aliased ->].
    exact (device_loader_adds
             (mkCfg (loaded_config st ++ [config]) (devices st) (default_connection st)
                    (VDict items) aliased (effects st))
             items devs defs eq_refl Hdevs Htopo Hnd Hfresh Hdefs).
Qed.

End Reload.

Lemma reload_returns_or_runs_device_loader_witness :
  let load := Config.load_config structural_compare no_environ two_files in
  load (VStr "/lab.yml") None "yaml"%string two_devices_loaded
  = (two_devices_loaded, Ret tt)
  /\ (let st' := fst (load (VStr "/more.yml") None "yaml"%string lab_loaded) in
      incl (devices lab_loaded) (devices st')
      /\ default_connection st' = default_connection lab_loaded
      /\ exists new,
          effects st' = effects lab_loaded ++ new
          /\ forallb (new_device_effect (devices lab_loaded)) new = true
          /\ forallb (fun e => negb (is_logger_effect e)
                               && negb (is_connection_effect e)) new = true)
  /\ exists st',
      load (VStr "/more.yml") None "yaml"%string lab_loaded = (st', Ret tt)
      /\ devices st' = devices lab_loaded ++ ["AT_REMOTE"%string]
      /\ effects st'
         = effects lab_loaded
           ++ [DefineDevice "AT_REMOTE" (VStr "moler.device.atremote.AtRemote")
                            (VDict [("io_type"%string, VStr "terminal")])
                            (VDict [("CONNECTION_HOPS"%string, VDict [])]) VNone]
           ++ []
      /\ default_connection st' = default_connection lab_loaded.
Proof.
  cbv zeta.
  destruct (reload_returns_or_runs_device_loader structural_compare no_environ two_files)
    as (Hsame & Honly & Hadds).
  assert (Hm : existsb is_marker (loaded_config lab_loaded) = false)
    by (vm_compute; reflexivity).
  assert (Hdiff : forall c, In c (loaded_config lab_loaded) ->
                            structural_compare c (VStr "/more.yml") <> []).
  { intros c Hc. vm_compute in Hc. destruct Hc as [<- | []]. vm_compute. discriminate. }
  split; [|split].
  - exact (Hsame initial_state (VStr "/lab.yml") None "yaml"%string
                 [(VStr "/more.yml", None, "yaml"%string)]
                 (VStr "/lab.yml") None "yaml"%string
                 eq_refl (or_introl eq_refl) eq_refl eq_refl).
  - exact (Honly lab_loaded (VStr "/more.yml") None "yaml"%string Hm Hdiff).
  - apply (Hadds lab_loaded (VStr "/more.yml") None "yaml"%string
                 [("LOGGER"%string, VDict [("MODE"%string, VStr "append")]);
                  ("DEVICES"%string,
                   VDict [("DEFAULT_CONNECTION"%string,
                           VDict [("CONNECTION_DESC"%string,
                                   VDict [("io_type"%string, VStr "sshshell")])]);
                          ("AT_REMOTE"%string,
                           VDict [("DEVICE_CLASS"%string,
                                   VStr "moler.device.atremote.AtRemote")])])]
                 [("DEFAULT_CONNECTION"%string,
                   VDict [("CONNECTION_DESC"%string,
                           VDict [("io_type"%string, VStr "sshshell")])]);
                  ("AT_REMOTE"%string,
                   VDict [("DEVICE_CLASS"%string,
                           VStr "moler.device.atremote.AtRemote")])]
                 [DefineDevice "AT_REMOTE" (VStr "moler.device.atremote.AtRemote")
                               (VDict [("io_type"%string, VStr "terminal")])
                               (VDict [("CONNECTION_HOPS"%string, VDict [])]) VNone]
                 Hm Hdiff).
    + exact (named_file no_environ two_files _ _ _ _ "/more.yml"
                        eq_refl eq_refl eq_refl eq_refl).
    + reflexivity.
    + intros t Ht. vm_compute in Ht. discriminate.
    + vm_compute. constructor; [intros [] | constructor].
    + intros n Hin Hknown. vm_compute in Hin, Hknown.
      destruct Hin as [<- | []]. destruct Hknown as [Hknown | []]. discriminate.
    + vm_compute. reflexivity.
Defined.

(** C9 fails as stated: after two files were loaded, a call with a
    document that differs from both and defines no device is no call that
    only adds new devices.  It returns with the devices as they were,
    having asked for all devices to be created and having made [AT_REMOTE]
    a neighbour of [UNIX], both of them devices of the earlier loads. *)
Lemma reload_links_known_devices :
  let load := Config.load_config structural_compare no_environ two_files in
  existsb is_marker (loaded_config two_devices_loaded) = false
  /\ (forall c, In c (loaded_config two_devices_loaded) ->
                structural_compare c topology_only <> [])
  /\ exists st',
      load topology_only None "dict"%string two_devices_loaded = (st', Ret tt)
      /\ devices two_devices_loaded = ["UNIX"%string; "AT_REMOTE"%string]
      /\ devices st' = devices two_devices_loaded
      /\ effects st'
         = effects two_devices_loaded
           ++ [CreateAllDevices; AddNeighbourDevice "UNIX" "AT_REMOTE"].
Proof.
  cbv zeta. split; [vm_compute; reflexivity|]. split.
  - intros c Hc. vm_compute in Hc. destruct Hc as [<- | [<- | []]];
      vm_compute; discriminate.
  - eexists. split; [vm_compute; reflexivity|]. vm_compute. auto.
Qed.

End ConfigReload.

(* ================================================================== *)
(** * Properties of the state machine test helpers *)
(* ================================================================== *)

Module DevicesSMFacts.
Import Config ConfigFacts ConfigExtras DevicesSM.
#[local] Open Scope list_scope.

Lemma list_remove_count x l l' :
  list_remove x l = Some l' ->
  count_occ string_dec l x = S (count_occ string_dec l' x).
Proof.
  revert l'. induction l as [|y rest IH]; intros l' H; [discriminate|].
  cbn in H. destruct (String.eqb x y) eqn:E.
  - apply String.eqb_eq in E. subst y. inversion H; subst.
    cbn. now destruct (string_dec x x).
  - apply String.eqb_neq in E.
    destruct (list_remove x rest) as [rest'|]; [|discriminate].
    inversion H; subst. cbn.
    destruct (string_dec y x); [now elim E|]. now apply IH.
Qed.

Lemma list_remove_none x l : list_remove x l = None <-> ~ In x l.
Proof.
  induction l as [|y rest IH]; cbn; [tauto|].
  destruct (String.eqb x y) eqn:E.
  - apply String.eqb_eq in E. subst. split; [discriminate | intros H; elim H; auto].
  - apply String.eqb_neq in E.
    destruct (list_remove x rest) as [rest'|].
    + split; [discriminate|]. intros H. exfalso.
      assert (Hn : ~ In x rest) by tauto. apply IH in Hn. discriminate.
    + split; [|reflexivity]. intros _ [H | H]; [now elim E|]. now apply IH.
Qed.

Section Device.

Variable Internals : Type.
Variable goto_state : string -> Internals -> Internals * option pyexc.
Variable str : pyexc -> string.

Abbreviation Device := (Device Internals).
Abbreviation call_goto_state := (call_goto_state Internals goto_state).
Abbreviation targets := (targets Internals goto_state str).
Abbreviation sources := (sources Internals goto_state str).
Abbreviation iterate_over_device_states :=
  (iterate_over_device_states Internals goto_state str).

Lemma call_goto_state_facts state (d : Device) :
  states Internals (fst (call_goto_state state d)) = states Internals d
  /\ visited Internals (fst (call_goto_state state d)) = visited Internals d ++ [state].
Proof.
  unfold DevicesSM.call_goto_state. now destruct (goto_state state (internals Internals d)).
Qed.

(** The inner loop calls [goto_state] for the target states in order and
    stops at the first that raises. *)
Lemma targets_facts source_state target_states : forall d : Device,
  states Internals (fst (targets source_state target_states d)) = states Internals d
  /\ exists done rest,
      visited Internals (fst (targets source_state target_states d))
      = visited Internals d ++ done
      /\ target_states = done ++ rest
      /\ (snd (targets source_state target_states d) = None -> rest = []).
Proof.
  induction target_states as [|t ts IH]; intros d; cbn [DevicesSM.targets].
  - split; [reflexivity|]. exists [], []. cbn. now rewrite app_nil_r.
  - destruct (call_goto_state_facts t d) as [Hs Hv].
    destruct (call_goto_state t d) as [d1 [exc|]].
    + cbn [fst] in Hs, Hv.
      destruct (is_Exception exc); cbn [fst snd]; (split; [exact Hs|]);
        exists [t], ts; (split; [exact Hv|]); (split; [reflexivity | discriminate]).
    + cbn [fst] in Hs, Hv.
      destruct (IH d1) as (Hs1 & done & rest & Hv1 & Hts & Hr).
      split; [congruence|].
      exists (t :: done), rest. rewrite Hv1, Hv, <- app_assoc. cbn.
      split; [reflexivity|]. split; [now rewrite Hts | exact Hr].
Qed.

Lemma sources_facts all source_states : forall d : Device,
  states Internals (fst (sources source_states all d)) = states Internals d
  /\ exists done rest,
      visited Internals (fst (sources source_states all d))
      = visited Internals d ++ done
      /\ flat_map (fun s => s :: all) source_states = done ++ rest
      /\ (snd (sources source_states all d) = None -> rest = []).
Proof.
  induction source_states as [|s ss IH]; intros d; cbn [DevicesSM.sources flat_map].
  - split; [reflexivity|]. exists [], []. cbn. now rewrite app_nil_r.
  - destruct (call_goto_state_facts s d) as [Hs Hv].
    destruct (call_goto_state s d) as [d1 [exc|]]; cbn [fst] in Hs, Hv.
    + cbn [fst snd]. split; [exact Hs|].
      exists [s], (all ++ flat_map (fun s0 => s0 :: all) ss).
      split; [exact Hv|]. split; [reflexivity | discriminate].
    + destruct (targets_facts s all d1) as (Hs1 & done1 & rest1 & Hv1 & Hall & Hr1).
      destruct (targets s all d1) as [d2 [e|]]; cbn [fst snd] in *.
      * split; [congruence|].
        exists (s :: done1), (rest1 ++ flat_map (fun s0 => s0 :: all) ss).
        rewrite Hv1, Hv, <- app_assoc. cbn.
        split; [reflexivity|]. split; [|discriminate].
        now rewrite Hall, <- app_assoc.
      * destruct (IH d2) as (Hs2 & done2 & rest2 & Hv2 & Hplan & Hr2).
        split; [congruence|].
        exists (s :: all ++ done2), rest2.
        rewrite Hv2, Hv1, Hv, <- !app_assoc. cbn.
        rewrite (Hr1 eq_refl), app_nil_r in Hall. subst done1.
        split; [reflexivity|]. split; [|exact Hr2].
        now rewrite Hplan, <- app_assoc.
Qed.

(** [iterate_over_device_states] removes ["NOT_CONNECTED"] from the
    device's own list of states.  For a device that lists the state once,
    the list is without it after the run, however the run ended, and a
    second run on the same device raises [ValueError] before any
    transition is tried. *)
Theorem second_iteration_raises_value_error (d : Device) :
  count_occ string_dec (states Internals d) "NOT_CONNECTED" = 1%nat ->
  let d1 := fst (iterate_over_device_states d) in
  ~ In "NOT_CONNECTED"%string (states Internals d1)
  /\ iterate_over_device_states d1
     = (d1, Some (ValueError "list.remove(x): x not in list")).
Proof.
  intros Hone d1.
  assert (Hnot : ~ In "NOT_CONNECTED"%string (states Internals d1)).
  { subst d1. unfold DevicesSM.iterate_over_device_states.
    destruct (list_remove "NOT_CONNECTED" (states Internals d)) as [states'|] eqn:E.
    - destruct (sources_facts states' states'
                  (mkDevice Internals states' (internals Internals d)
                            (visited Internals d))) as [Hs _].
      rewrite Hs. cbn. apply list_remove_count in E. rewrite Hone in E.
      apply (count_occ_not_In string_dec). now inversion E.
    - apply list_remove_none in E. apply (count_occ_not_In string_dec) in E.
      rewrite E in Hone. discriminate. }
  split; [exact Hnot|].
  apply list_remove_none in Hnot.
  unfold DevicesSM.iterate_over_device_states at 1. now rewrite Hnot.
Qed.

(** The transitions that [iterate_over_device_states] asks for are a
    beginning of the plan (every remaining state as source, each followed by
    every remaining state as target, the source itself included); when the
    run returns, it has asked for the whole plan. *)
Theorem transitions_follow_the_plan (d : Device) (states' : list string) :
  list_remove "NOT_CONNECTED" (states Internals d) = Some states' ->
  let out := iterate_over_device_states d in
  exists done rest,
    visited Internals (fst out) = visited Internals d ++ done
    /\ plan states' = done ++ rest
    /\ (snd out = None -> rest = []).
Proof.
  intros Hrem. cbv zeta. unfold DevicesSM.iterate_over_device_states. rewrite Hrem.
  destruct (sources_facts states' states'
              (mkDevice Internals states' (internals Internals d)
                        (visited Internals d)))
    as (_ & done & rest & Hv & Hplan & Hr).
  exists done, rest. auto.
Qed.

Abbreviation run_gotos := (run_gotos Internals goto_state).

Lemma run_gotos_app l1 : forall l2 i i',
  run_gotos (l1 ++ l2) i = Some i' ->
  exists i1, run_gotos l1 i = Some i1 /\ run_gotos l2 i1 = Some i'.
Proof.
  induction l1 as [|s l1 IH]; intros l2 i i' H; cbn in *.
  - now exists i.
  - destruct (goto_state s i) as [i1 [e|]]; [discriminate|]. now apply IH.
Qed.

(** An inner loop none of whose transitions fails. *)
Lemma targets_pass source_state target_states : forall (d : Device) i,
  run_gotos target_states (internals Internals d) = Some i ->
  targets source_state target_states d
  = (mkDevice Internals (states Internals d) i
              (visited Internals d ++ target_states), None).
Proof.
  induction target_states as [|t ts IH]; intros d i H; cbn in H |- *.
  - inversion H; subst. rewrite app_nil_r. now destruct d.
  - unfold DevicesSM.call_goto_state.
    destruct (goto_state t (internals Internals d)) as [i1 [e|]]; [discriminate|].
    rewrite (IH _ i) by exact H. cbn. now rewrite <- app_assoc.
Qed.

(** An inner loop whose transition into [state] fails after those into
    [before] passed. *)
Lemma targets_stop source_state before state after : forall (d : Device) i i' e,
  run_gotos before (internals Internals d) = Some i ->
  goto_state state i = (i', Some e) ->
  targets source_state (before ++ state :: after) d
  = (mkDevice Internals (states Internals d) i'
              (visited Internals d ++ before ++ [state]),
     Some (report str (Some source_state) state e)).
Proof.
  induction before as [|t ts IH]; intros d i i' e H Hg; cbn in H |- *.
  - inversion H; subst. unfold DevicesSM.call_goto_state. rewrite Hg.
    unfold report. now destruct (is_Exception e).
  - unfold DevicesSM.call_goto_state.
    destruct (goto_state t (internals Internals d)) as [i1 [e1|]]; [discriminate|].
    rewrite (IH _ i i' e) by assumption. cbn. now rewrite <- app_assoc.
Qed.

Lemma sources_stop all source_states :
  forall (d : Device) before role state after i i' e,
  steps_of all source_states = before ++ (role, state) :: after ->
  run_gotos (map snd before) (internals Internals d) = Some i ->
  goto_state state i = (i', Some e) ->
  sources source_states all d
  = (mkDevice Internals (states Internals d) i'
              (visited Internals d ++ map snd before ++ [state]),
     Some (report str role state e)).
Proof.
  induction source_states as [|s ss IH];
    intros d before role state after i i' e Hsteps Hrun Hg.
  - destruct before; discriminate.
  - cbn [steps_of flat_map] in Hsteps. fold (steps_of all ss) in Hsteps.
    cbn [DevicesSM.sources]. unfold DevicesSM.call_goto_state.
    destruct before as [|[r0 s0] before].
    + cbn in Hsteps, Hrun. inversion Hsteps; subst. inversion Hrun; subst.
      now rewrite Hg.
    + cbn [app] in Hsteps. inversion Hsteps as [[Hr Hs Hrest]]. subst r0 s0.
      cbn in Hrun.
      destruct (goto_state s (internals Internals d)) as [i1 [e1|]]; [discriminate|].
      apply app_eq_app in Hrest. destruct Hrest as [l [[Hl1 Hl2] | [Hl1 Hl2]]].
      * destruct l as [|x l].
        -- rewrite app_nil_r in Hl1. cbn in Hl2. subst before.
           rewrite map_map, map_id in Hrun. cbn [snd] in Hrun.
           rewrite (targets_pass s all _ i) by exact Hrun.
           rewrite (IH _ [] role state after i i' e) by (cbn; auto).
           cbn. rewrite map_map. cbn [snd]. rewrite map_id.
           now rewrite <- !app_assoc.
        -- cbn in Hl2. inversion Hl2; subst x.
           apply map_eq_app in Hl1.
           destruct Hl1 as (b & rest & Hall & Hb & Hrest).
           destruct rest as [|t a]; [discriminate|]. cbn in Hrest.
           inversion Hrest; subst. rewrite map_map, map_id in Hrun. cbn [snd] in Hrun.
           rewrite (targets_stop s b state a _ i i' e) by assumption.
           cbn. rewrite map_map. cbn [snd]. rewrite map_id.
           now rewrite <- !app_assoc.
      * subst before. rewrite map_app, map_map, map_id in Hrun. cbn [snd] in Hrun.
        apply run_gotos_app in Hrun. destruct Hrun as (i2 & Hall & Hl).
        rewrite (targets_pass s all _ i2) by exact Hall.
        rewrite (IH _ l role state after i i' e) by (cbn; auto).
        cbn. rewrite map_app, map_map. cbn [snd]. rewrite map_id.
        now rewrite <- !app_assoc.
Qed.

(** How a failing transition is reported, whichever transition of the run
    it is.  When the transitions before it pass and [goto_state] raises, the
    run ends there.  A failure of the transition into a source state leaves
    [iterate_over_device_states] as it is; a failure of a transition into a
    target state is replaced by a [MolerException] that names the source
    and the target state and quotes the exception, unless the exception is
    no [Exception], which leaves the run as it is. *)
Theorem failed_transition_report
        (d : Device) (states' : list string)
        (before : list (option string * string)) (role : option string)
        (state : string) (after : list (option string * string))
        (i i' : Internals) (e : pyexc) :
  list_remove "NOT_CONNECTED" (states Internals d) = Some states' ->
  steps states' = before ++ (role, state) :: after ->
  run_gotos (map snd before) (internals Internals d) = Some i ->
  goto_state state i = (i', Some e) ->
  iterate_over_device_states d
  = (mkDevice Internals states' i'
              (visited Internals d ++ map snd before ++ [state]),
     Some (report str role state e)).
Proof.
  intros Hrem Hsteps Hrun Hg.
  unfold DevicesSM.iterate_over_device_states. rewrite Hrem.
  now rewrite (sources_stop states' states' _ before role state after i i' e).
Qed.

End Device.

Lemma length_append (a b : string) :
  String.length (a ++ b) = (String.length a + String.length b)%nat.
Proof. induction a as [|c a IH]; cbn; [reflexivity | now rewrite IH]. Qed.

Lemma device_config_path_is_not_the_marker dir_path :
  is_marker (VStr (device_config_path dir_path)) = false.
Proof.
  unfold is_marker, is_str, device_config_path.
  apply String.eqb_neq. intros H.
  apply (f_equal String.length) in H. rewrite length_append in H. cbn in H. lia.
Qed.

Section GetDevice.

Variable compare_objects : pyval -> pyval -> list string.
Variable environ : string -> option string.
Variable yaml_load_file : string -> res pyval.

Abbreviation get_device := (DevicesSM.get_device compare_objects environ yaml_load_file).
Abbreviation load_config := (Config.load_config compare_objects environ yaml_load_file).
Abbreviation configs_are_same := (Config.configs_are_same compare_objects).

Lemma get_device_after_load dir_path name st :
  get_device dir_path name st
  = match load_config (VStr (device_config_path dir_path)) None "yaml" st with
    | (st1, Ret _) =>
        (st1, if existsb (String.eqb name) (devices st1) then Ret name
              else Raise (KeyError name))
    | (st1, Raise e) => (st1, Raise e)
    end.
Proof.
  unfold DevicesSM.get_device, bind.
  destruct (load_config _ None "yaml" st) as [st1 [[]|e]]; [|reflexivity].
  unfold Config.get_device, bind, known_device.
  now destruct (existsb (String.eqb name) (devices st1)).
Qed.

(** After a call of [load_config] with the path of the device
    configuration, that path counts as loaded. *)
Lemma device_config_counts_as_loaded dir_path st :
  compare_objects (VStr (device_config_path dir_path))
                  (VStr (device_config_path dir_path)) = [] ->
  let st1 := fst (load_config (VStr (device_config_path dir_path)) None "yaml" st) in
  existsb is_marker (loaded_config st1) = false
  /\ configs_are_same (loaded_config st1) (VStr (device_config_path dir_path)) = true.
Proof.
  intros Hsame. cbv zeta.
  destruct (existsb is_marker (loaded_config st)) eqn:Hm;
    [|destruct (configs_are_same (loaded_config st) (VStr (device_config_path dir_path)))
        eqn:Hs].
  - rewrite (load_config_records compare_objects environ yaml_load_file st
               (VStr (device_config_path dir_path)) None "yaml" eq_refl (or_introl Hm)).
    unfold history. rewrite Hm. cbn [app existsb Config.configs_are_same].
    now rewrite device_config_path_is_not_the_marker, Hsame.
  - unfold Config.load_config. rewrite Hm, Hs. auto.
  - rewrite (load_config_records compare_objects environ yaml_load_file st
               (VStr (device_config_path dir_path)) None "yaml" eq_refl (or_intror Hs)).
    unfold history. rewrite Hm. split.
    + apply existsb_is_marker_snoc; [exact Hm|].
      apply device_config_path_is_not_the_marker.
    + apply configs_are_same_iff. exists (VStr (device_config_path dir_path)).
      split; [apply in_or_app; right; now left | exact Hsame].
Qed.

(** [get_device] of the state machine tests loads the device
    configuration at most once per process: after a first call, however it
    ended, every further call skips the loading, changes nothing and
    answers from the devices that exist, with [KeyError] for a name that
    does not. *)
Theorem get_device_loads_the_configuration_once
        (dir_path name name' : string) (st : CfgState) :
  compare_objects (VStr (device_config_path dir_path))
                  (VStr (device_config_path dir_path)) = [] ->
  let st1 := fst (get_device dir_path name st) in
  get_device dir_path name' st1
  = (st1, if existsb (String.eqb name') (devices st1) then Ret name'
          else Raise (KeyError name')).
Proof.
  intros Hsame. cbv zeta.
  assert (Hst1 : fst (get_device dir_path name st)
                 = fst (load_config (VStr (device_config_path dir_path)) None "yaml" st)).
  { rewrite get_device_after_load.
    now destruct (load_config _ None "yaml" st) as [s [[]|e]]. }
  rewrite Hst1.
  destruct (device_config_counts_as_loaded dir_path st Hsame) as [Hm Hs].
  rewrite get_device_after_load.
  unfold Config.load_config at 1. now rewrite Hm, Hs.
Qed.

End GetDevice.

Lemma second_iteration_witness :
  let run := iterate_over_device_states nat (picky_goto_state "UNIX_LOCAL_ROOT")
                                        exception_name in
  let d1 := fst (run unix_device) in
  ~ In "NOT_CONNECTED"%string (states nat d1)
  /\ run d1 = (d1, Some (ValueError "list.remove(x): x not in list")).
Proof.
  assert (Hone : count_occ string_dec (states nat unix_device) "NOT_CONNECTED" = 1%nat)
    by (vm_compute; reflexivity).
  exact (second_iteration_raises_value_error nat (picky_goto_state "UNIX_LOCAL_ROOT")
           exception_name unix_device Hone).
Defined.

Lemma transitions_follow_the_plan_witness :
  let out := iterate_over_device_states nat (picky_goto_state "ADB_SHELL")
                                        exception_name unix_device in
  exists done rest,
    visited nat (fst out) = visited nat unix_device ++ done
    /\ plan ["UNIX_LOCAL"%string; "UNIX_LOCAL_ROOT"%string] = done ++ rest
    /\ (snd out = None -> rest = []).
Proof.
  exact (transitions_follow_the_plan nat (picky_goto_state "ADB_SHELL") exception_name
           unix_device ["UNIX_LOCAL"%string; "UNIX_LOCAL_ROOT"%string] eq_refl).
Defined.

Lemma failed_transition_report_witness :
  iterate_over_device_states nat (picky_goto_state "UNIX_LOCAL_ROOT") exception_name
                             unix_device
  = (mkDevice nat ["UNIX_LOCAL"%string; "UNIX_LOCAL_ROOT"%string] 2%nat
              ["UNIX_LOCAL"%string; "UNIX_LOCAL"%string; "UNIX_LOCAL_ROOT"%string],
     Some (Propagated
             (MolerException
                ("Cannot trigger change state: 'UNIX_LOCAL' -> 'UNIX_LOCAL_ROOT'"
                 ++ nl ++ "transition refused"))))
  /\ iterate_over_device_states nat worn_goto_state exception_name unix_device
     = (mkDevice nat ["UNIX_LOCAL"%string; "UNIX_LOCAL_ROOT"%string] 3%nat
                 ["UNIX_LOCAL"%string; "UNIX_LOCAL"%string; "UNIX_LOCAL_ROOT"%string;
                  "UNIX_LOCAL_ROOT"%string],
        Some (Propagated (OSError "connection lost"))).
Proof.
  split.
  - exact (failed_transition_report nat (picky_goto_state "UNIX_LOCAL_ROOT")
             exception_name unix_device
             ["UNIX_LOCAL"%string; "UNIX_LOCAL_ROOT"%string]
             [(None, "UNIX_LOCAL"%string); (Some "UNIX_LOCAL"%string, "UNIX_LOCAL"%string)]
             (Some "UNIX_LOCAL"%string) "UNIX_LOCAL_ROOT"
             [(None, "UNIX_LOCAL_ROOT"%string);
              (Some "UNIX_LOCAL_ROOT"%string, "UNIX_LOCAL"%string);
              (Some "UNIX_LOCAL_ROOT"%string, "UNIX_LOCAL_ROOT"%string)]
             2%nat 2%nat (DomainError "transition refused")
             eq_refl eq_refl eq_refl eq_refl).
  - exact (failed_transition_report nat worn_goto_state
             exception_name unix_device
             ["UNIX_LOCAL"%string; "UNIX_LOCAL_ROOT"%string]
             [(None, "UNIX_LOCAL"%string); (Some "UNIX_LOCAL"%string, "UNIX_LOCAL"%string);
              (Some "UNIX_LOCAL"%string, "UNIX_LOCAL_ROOT"%string)]
             None "UNIX_LOCAL_ROOT"
             [(Some "UNIX_LOCAL_ROOT"%string, "UNIX_LOCAL"%string);
              (Some "UNIX_LOCAL_ROOT"%string, "UNIX_LOCAL_ROOT"%string)]
             3%nat 3%nat (OSError "connection lost")
             eq_refl eq_refl eq_refl eq_refl).
Defined.

Lemma get_device_loads_once_witness :
  let get := DevicesSM.get_device structural_compare no_environ lab_files in
  let st1 := fst (get "/opt/moler/moler/util" "UNIX" initial_state) in
  get "/opt/moler/moler/util" "AT_REMOTE" st1
  = (st1, if existsb (String.eqb "AT_REMOTE") (devices st1) then Ret "AT_REMOTE"%string
          else Raise (KeyError "AT_REMOTE")).
Proof.
  assert (Hsame : structural_compare
                    (VStr (device_config_path "/opt/moler/moler/util"))
                    (VStr (device_config_path "/opt/moler/moler/util")) = [])
    by (vm_compute; reflexivity).
  exact (get_device_loads_the_configuration_once structural_compare no_environ lab_files
           "/opt/moler/moler/util" "UNIX" "AT_REMOTE" initial_state Hsame).
Defined.

End DevicesSMFacts.

(* ================================================================== *)
(** * Properties of the test decorators *)
(* ================================================================== *)

Module MolerTestFacts.
Import MolerTest.
#[local] Open Scope list_scope.

Section Test.

Variable Store : Type.
Variable get_active_exceptions_in_time :
  Z -> Z -> bool -> Store -> list exc * Store.
Variable str : exc -> string.

Abbreviation State := (State Store).
Abbreviation log_unhandled := (log_unhandled Store str).
Abbreviation _final_check := (_final_check Store get_active_exceptions_in_time str).
Abbreviation wrapped := (wrapped Store get_active_exceptions_in_time str).
Abbreviation wrapper := (wrapper Store get_active_exceptions_in_time str).

(** The exceptions of the observers that a check run in [st] collects. *)
Abbreviation background st :=
  (fst (get_active_exceptions_in_time (_last_check_time Store st) (clock Store st) true
                                      (observers Store st))).

Lemma log_unhandled_facts exceptions : forall st : State,
  _was_error Store (log_unhandled exceptions st)
  = _was_error Store st || (0 <? List.length exceptions)%nat
  /\ _was_steps_end Store (log_unhandled exceptions st) = _was_steps_end Store st
  /\ clock Store (log_unhandled exceptions st) = clock Store st
  /\ observers Store (log_unhandled exceptions st) = observers Store st
  /\ _last_check_time Store (log_unhandled exceptions st) = _last_check_time Store st
  /\ errors Store (log_unhandled exceptions st)
     = errors Store st
       ++ map (fun e => ("Unhandled exception: '" ++ str e ++ "'")%string) exceptions.
Proof.
  induction exceptions as [|e rest IH]; intros st; cbn [MolerTest.log_unhandled].
  - cbn. now rewrite orb_false_r, app_nil_r.
  - destruct (IH (fst (log_error Store ("Unhandled exception: '" ++ str e ++ "'")
                                 false st)))
      as (H1 & H2 & H3 & H4 & H5 & H6).
    rewrite H1, H2, H3, H4, H5, H6. cbn. rewrite orb_true_r, <- app_assoc.
    repeat split; reflexivity.
Qed.

(** What [_final_check] does in every case, and when it raises. *)
Lemma final_check_facts caught check (st : State) :
  let exceptions := background st in
  let unhandled := exceptions ++ match caught with Some e => [e] | None => [] end in
  let steps_end_missing := check && negb (_was_steps_end Store st) in
  let was_error := _was_error Store st || (0 <? List.length exceptions)%nat in
  let st2 :=
    mkState Store (clock Store st) false (_was_steps_end Store st)
            (errors Store st
             ++ map (fun e => ("Unhandled exception: '" ++ str e ++ "'")%string) exceptions)
            (clock Store st)
            (snd (get_active_exceptions_in_time (_last_check_time Store st)
                                                (clock Store st) true
                                                (observers Store st))) in
  _final_check caught check st
  = (st2,
     if steps_end_missing || was_error || (0 <? List.length unhandled)%nat
     then Throw (MolerStatusException
                   (status_message steps_end_missing was_error
                                   (0 <? List.length unhandled)%nat)
                   unhandled)
     else Return tt).
Proof.
  cbv zeta. unfold MolerTest._final_check.
  destruct (get_active_exceptions_in_time (_last_check_time Store st) (clock Store st)
                                          true (observers Store st))
    as [exceptions store].
  cbn [fst snd].
  match goal with
  | |- context [MolerTest.log_unhandled Store str exceptions ?s] =>
      destruct (log_unhandled_facts exceptions s) as (H1 & H2 & H3 & H4 & H5 & H6)
  end.
  rewrite H1, H2, H3, H4, H6. cbn [_was_error _was_steps_end clock observers errors].
  unfold status_message.
  destruct (check && negb (_was_steps_end Store st));
    destruct (_was_error Store st || (0 <? List.length exceptions)%nat);
    destruct (0 <? List.length (exceptions ++ match caught with
                                              | Some e => [e]
                                              | None => []
                                              end))%nat;
    reflexivity.
Qed.

(** A decorated test returns exactly when the test itself returned, the
    observers hold no exception from the time since the last check, no
    error was logged since the last check, and, where the decorator asks
    for it, the test called [steps_end] itself: a call of [steps_end] made
    before the test does not count.  The value returned is the test's. *)
Theorem decorated_test_returns_iff_clean
        {A} (method : function Store A) (check_steps_end : bool)
        (st st' : State) (result : A) :
  _already_decorated method = false ->
  call (wrapper method check_steps_end) st = (st', Return result)
  <-> exists st1,
      call method (_steps_start Store st) = (st1, Return result)
      /\ background st1 = []
      /\ _was_error Store st1 = false
      /\ (check_steps_end = true -> _was_steps_end Store st1 = true)
      /\ st' = fst (_final_check None check_steps_end st1).
Proof.
  intros Hplain. unfold MolerTest.wrapper. rewrite Hplain. cbn [call].
  unfold MolerTest.wrapped.
  destruct (call method (_steps_start Store st)) as [st1 [res|e]].
  - rewrite (final_check_facts None check_steps_end st1). cbv zeta.
    rewrite app_nil_r. cbn [fst].
    split.
    + destruct (check_steps_end && negb (_was_steps_end Store st1)) eqn:E1;
        [discriminate|].
      destruct (_was_error Store st1) eqn:E2; [discriminate|].
      destruct (background st1) as [|b bs] eqn:E3; [|discriminate].
      cbn. intros H. inversion H; subst. exists st1.
      split; [reflexivity|]. split; [exact E3|]. split; [exact E2|]. split.
      * intros ->. cbn in E1. now destruct (_was_steps_end Store st1).
      * rewrite (final_check_facts None check_steps_end st1). cbv zeta.
        now rewrite E3.
    + intros (s & Hs & Hb & He & Hc & ->). inversion Hs; subst.
      rewrite (final_check_facts None check_steps_end s). cbv zeta.
      rewrite Hb, He. cbn [List.length Nat.ltb Nat.leb orb fst].
      destruct check_steps_end; [rewrite (Hc eq_refl)|]; reflexivity.
  - split.
    + destruct (MolerTest.is_Exception e);
        match goal with
        | |- context [MolerTest._final_check ?a ?b ?c ?d ?e ?f] =>
            destruct (MolerTest._final_check a b c d e f) as [s2 [u|x]]
        end; discriminate.
    + intros (s & Hs & _). discriminate.
Qed.

(** A test that raises an exception never gets it through as it is, and
    never ends in the unbound [result]: the decorated test raises
    [MolerStatusException], whose list holds the exceptions of the
    observers followed by the test's own, and whose message has the line on
    unhandled exceptions, the line on errors when one was logged or an
    observer held an exception, and the line on [steps_end] when that was
    asked for and not called. *)
Theorem exception_of_test_is_reported
        {A} (method : function Store A) (check_steps_end : bool)
        (st st1 : State) (e : exc) :
  _already_decorated method = false ->
  call method (_steps_start Store st) = (st1, Throw e) ->
  MolerTest.is_Exception e = true ->
  call (wrapper method check_steps_end) st
  = (fst (_final_check (Some e) check_steps_end st1),
     Throw (MolerStatusException
              (status_message (check_steps_end && negb (_was_steps_end Store st1))
                              (_was_error Store st1
                               || (0 <? List.length (background st1))%nat)
                              true)
              (background st1 ++ [e]))).
Proof.
  intros Hplain Hcall He. unfold MolerTest.wrapper. rewrite Hplain. cbn [call].
  unfold MolerTest.wrapped. rewrite Hcall, He.
  rewrite (final_check_facts (Some e) check_steps_end st1). cbv zeta.
  assert (Hlen : (0 <? List.length (background st1 ++ [e]))%nat = true)
    by (apply Nat.ltb_lt; rewrite length_app; cbn [List.length]; lia).
  rewrite Hlen, !orb_true_r. reflexivity.
Qed.

(** Whatever a decorated test does and however it ends, the check that
    follows it leaves no error pending for the next test, moves the time of
    the last check to now, takes the exceptions out of the observers as
    [get_active_exceptions_in_time] removes them, and has logged one error
    for each. *)
Theorem decorated_test_leaves_no_error_pending
        {A} (method : function Store A) (check_steps_end : bool) (st : State) :
  _already_decorated method = false ->
  let st1 := fst (call method (_steps_start Store st)) in
  let st' := fst (call (wrapper method check_steps_end) st) in
  _was_error Store st' = false
  /\ _last_check_time Store st' = clock Store st1
  /\ observers Store st'
     = snd (get_active_exceptions_in_time (_last_check_time Store st1) (clock Store st1)
                                          true (observers Store st1))
  /\ errors Store st'
     = errors Store st1
       ++ map (fun e => ("Unhandled exception: '" ++ str e ++ "'")%string) (background st1).
Proof.
  intros Hplain. cbv zeta. unfold MolerTest.wrapper. rewrite Hplain. cbn [call].
  unfold MolerTest.wrapped.
  destruct (call method (_steps_start Store st)) as [st1 [res|e]]; cbn [fst].
  - rewrite (final_check_facts None check_steps_end st1). cbv zeta.
    match goal with |- context [if ?c then _ else _] => destruct c end;
      cbn; repeat split; reflexivity.
  - destruct (MolerTest.is_Exception e).
    + rewrite (final_check_facts (Some e) check_steps_end st1). cbv zeta.
      match goal with |- context [if ?c then _ else _] => destruct c end;
        cbn; repeat split; reflexivity.
    + rewrite (final_check_facts None check_steps_end st1). cbv zeta.
      match goal with |- context [if ?c then _ else _] => destruct c end;
        cbn; repeat split; reflexivity.
Qed.

End Test.

Lemma decorated_test_returns_witness :
  call (MolerTest.wrapper unit quiet_observers exception_text passing_test true)
       clean_state
  = (mkState unit 100 false true [] 100 tt, Return 7%Z).
Proof.
  apply (proj2 (decorated_test_returns_iff_clean unit quiet_observers exception_text
                  passing_test true clean_state (mkState unit 100 false true [] 100 tt)
                  7%Z eq_refl)).
  exists (steps_end unit clean_state). repeat split; reflexivity.
Defined.

Lemma exception_of_test_witness :
  call (MolerTest.wrapper unit quiet_observers exception_text failing_test true)
       clean_state
  = (mkState unit 100 false false [] 100 tt,
     Throw (MolerStatusException
              (status_message true false true)
              [Observed AssertionError])).
Proof.
  exact (exception_of_test_is_reported unit quiet_observers exception_text
           failing_test true clean_state clean_state (Observed AssertionError)
           eq_refl eq_refl eq_refl).
Defined.

Lemma no_error_pending_witness :
  let st' := fst (call (MolerTest.wrapper (list exc) pending_observers exception_text
                                          failing_test false)
                       (mkState (list exc) 0 true false ["set-up failed"%string] 100
                                [Observed TimeoutError])) in
  _was_error (list exc) st' = false
  /\ _last_check_time (list exc) st' = 100%Z
  /\ observers (list exc) st' = []
  /\ errors (list exc) st' = ["set-up failed"%string; "Unhandled exception: 'exception'"%string].
Proof.
  exact (decorated_test_leaves_no_error_pending (list exc) pending_observers
           exception_text failing_test false
           (mkState (list exc) 0 true false ["set-up failed"%string] 100
                    [Observed TimeoutError])
           eq_refl).
Defined.

End MolerTestFacts.
